(** * CRT overlay: configuration store, attribute binding, presets and
    style projection

    A shallow embedding of the [CRTOverlay] custom element
    (class [CRTOverlay extends HTMLElement]): its [config] object, the
    attribute hook [attributeChangedCallback], the DOM operation
    [setAttribute] that drives it, [updateConfig], [getPreset] /
    [applyPreset], and the projections [updateModeZIndex],
    [applyGlobalFilters] and [updateExternalBloomLayer].

    Conventions of the embedding:
    - a JavaScript object used as a dictionary ([this.config], a preset,
      the element's attribute list) is a [gmap] keyed by strings; the
      insertion order of a preset, which [Object.entries] exposes, is kept
      by an association list;
    - JavaScript numbers are exact rationals extended with [NaN] and the
      two infinities; binary64 rounding, overflow and the sign of zero are
      not modelled;
    - every method is a function on the element state [crt]. *)

From Stdlib Require Import ZArith QArith Qround Qabs String Ascii List Bool Lia Lqa.
From stdpp Require Import gmap strings pretty.

Open Scope string_scope.

(** ** JavaScript numbers *)

Module Js.

Inductive number : Type :=
  | NaN
  | Inf (neg : bool)
  | Fin (q : Q).

(** Finite numbers are kept in lowest terms, so that equal numbers are
    equal terms. *)
Definition fin (q : Q) : number := Fin (Qred q).

Definition Qlt_bool (p q : Q) : bool := negb (Qle_bool q p).

(** [a < b] on numbers; every comparison with [NaN] is false. *)
Definition lt (a b : number) : bool :=
  match a, b with
  | NaN, _ | _, NaN => false
  | Inf true, Inf true => false
  | Inf true, _ => true
  | _, Inf true => false
  | Inf false, _ => false
  | Fin _, Inf false => true
  | Fin p, Fin q => Qlt_bool p q
  end.

Definition gt (a b : number) : bool := lt b a.

(** [a === b] on numbers. *)
Definition num_eq (a b : number) : bool :=
  match a, b with
  | Fin p, Fin q => Qeq_bool p q
  | Inf s, Inf t => Bool.eqb s t
  | _, _ => false
  end.

Definition is_nan (a : number) : bool :=
  match a with NaN => true | _ => false end.

Definition mul (a b : number) : number :=
  match a, b with
  | NaN, _ | _, NaN => NaN
  | Inf s, Inf t => Inf (xorb s t)
  | Inf s, Fin q | Fin q, Inf s =>
      if Qeq_bool q 0 then NaN else Inf (xorb s (Qlt_bool q 0))
  | Fin p, Fin q => fin (p * q)
  end.

Definition add (a b : number) : number :=
  match a, b with
  | NaN, _ | _, NaN => NaN
  | Inf s, Inf t => if Bool.eqb s t then Inf s else NaN
  | Inf s, Fin _ | Fin _, Inf s => Inf s
  | Fin p, Fin q => fin (p + q)
  end.

(** [Math.max(a, b)] and [Math.min(a, b)]: [NaN] if either argument is. *)
Definition max (a b : number) : number :=
  if is_nan a || is_nan b then NaN else if lt a b then b else a.

Definition min (a b : number) : number :=
  if is_nan a || is_nan b then NaN else if lt b a then b else a.

(** ** Lexical helpers *)

Definition code (c : ascii) : nat := nat_of_ascii c.

Definition is_digit (c : ascii) : bool :=
  Nat.leb 48 (code c) && Nat.leb (code c) 57.

Definition digit_val (c : ascii) : Z := Z.of_nat (code c) - 48.

(** The ASCII members of [StrWhiteSpaceChar]. *)
Definition is_ws (c : ascii) : bool :=
  (Nat.leb 9 (code c) && Nat.leb (code c) 13) || Nat.eqb (code c) 32.

Definition is_upper (c : ascii) : bool :=
  Nat.leb 65 (code c) && Nat.leb (code c) 90.

Definition to_lower (c : ascii) : ascii :=
  if is_upper c then ascii_of_nat (code c + 32) else c.

Fixpoint skip_ws (s : string) : string :=
  match s with
  | String c r => if is_ws c then skip_ws r else s
  | EmptyString => s
  end.

(** The longest run of decimal digits at the head of [s], folded into
    [acc]; also the number of digits read and the rest of the string. *)
Fixpoint digits (s : string) (acc : Z) (n : nat) : Z * nat * string :=
  match s with
  | String c r =>
      if is_digit c then digits r (10 * acc + digit_val c) (S n)
      else (acc, n, s)
  | EmptyString => (acc, n, s)
  end.

(** An optional sign: [true] for a leading minus. *)
Definition sign (s : string) : bool * string :=
  match s with
  | String "-" r => (true, r)
  | String "+" r => (false, r)
  | _ => (false, s)
  end.

(** [m * 10^e] as a rational in lowest terms. *)
Definition dec (m e : Z) : Q :=
  Qred (if (0 <=? e)%Z then (m * 10 ^ e) # 1 else m # Z.to_pos (10 ^ (- e))).

(** The exponent part [e[+-]digits]; it counts only with a digit. *)
Definition exponent (s : string) : Z * string :=
  match s with
  | String c r =>
      if Ascii.eqb c "e" || Ascii.eqb c "E" then
        let '(neg, r1) := sign r in
        let '(ev, n, r2) := digits r1 0 0 in
        match n with
        | O => (0%Z, s)
        | S _ => ((if neg then - ev else ev)%Z, r2)
        end
      else (0%Z, s)
  | EmptyString => (0%Z, s)
  end.

Definition starts_with (p s : string) : option string :=
  if String.prefix p s
  then Some (String.substring (String.length p) (String.length s - String.length p) s)
  else None.

(** The longest prefix of [s] that is a [StrDecimalLiteral], and what
    follows it; [NaN] when there is none. *)
Definition decimal_literal (s : string) : number * string :=
  let '(neg, r0) := sign s in
  match starts_with "Infinity" r0 with
  | Some r => (Inf neg, r)
  | None =>
      let '(ip, ni, r1) := digits r0 0 0 in
      let '(m_, nf, r2) :=
        match r1 with
        | String "." r => digits r ip 0
        | _ => (ip, O, r1)
        end in
      match ni, nf with
      | O, O => (NaN, s)
      | _, _ =>
          let '(ev, r3) := exponent r2 in
          let m_ := if neg then (- m_)%Z else m_ in
          (Fin (dec m_ (ev - Z.of_nat nf)), r3)
      end
  end.

(** [parseFloat(string)]. *)
Definition parseFloat_str (s : string) : number :=
  fst (decimal_literal (skip_ws s)).

(** [parseInt(string, 10)]. *)
Definition parseInt_str (s : string) : number :=
  let '(neg, r0) := sign (skip_ws s) in
  let '(v, n, _) := digits r0 0 0 in
  match n with
  | O => NaN
  | S _ => Fin (dec (if neg then - v else v) 0)
  end.

(** [StringToNumber]: the whole trimmed string must be a decimal literal;
    the empty string is 0. Hexadecimal, octal and binary literals are not
    modelled. *)
Definition string_to_number (s : string) : number :=
  match skip_ws s with
  | EmptyString => Fin 0
  | t =>
      let '(n, r) := decimal_literal t in
      match skip_ws r with
      | EmptyString => n
      | _ => NaN
      end
  end.

(** ** [Number::toString] *)

(** The least [f <= fuel] with [b | 10^f], if any: the number of decimal
    places of a terminating decimal with denominator [b]. *)
Fixpoint places (b : Z) (f : nat) (fuel : nat) : option nat :=
  if (Z.rem (10 ^ Z.of_nat f) b =? 0)%Z then Some f
  else match fuel with
       | O => None
       | S k => places b (S f) k
       end.

(** Strip trailing zeros from [m > 0], counting them. *)
Fixpoint strip_zeros (m : Z) (t : nat) (fuel : nat) : Z * nat :=
  match fuel with
  | O => (m, t)
  | S k => if (Z.rem m 10 =? 0)%Z then strip_zeros (m / 10) (S t) k else (m, t)
  end.

Definition zeros (n : nat) : string := String.concat EmptyString (repeat "0" n).

(** Layout of the digit string [ds] (of length [k]) of a positive number
    whose value is [0.ds * 10^n], as [Number::toString] prescribes. *)
Definition layout (ds : string) (n : Z) : string :=
  let k := Z.of_nat (String.length ds) in
  if ((k <=? n) && (n <=? 21))%Z then ds ++ zeros (Z.to_nat (n - k))
  else if ((0 <? n) && (n <=? 21))%Z then
    String.substring 0 (Z.to_nat n) ds ++ "." ++
    String.substring (Z.to_nat n) (Z.to_nat (k - n)) ds
  else if ((-6 <? n) && (n <=? 0))%Z then "0." ++ zeros (Z.to_nat (- n)) ++ ds
  else
    let e := (n - 1)%Z in
    let es := (if (e <? 0)%Z then "-" else "+") ++ pretty (Z.abs e) in
    match ds with
    | String d EmptyString => String d ("e" ++ es)
    | String d r => String d ("." ++ r ++ "e" ++ es)
    | EmptyString => EmptyString
    end.

(** The decimal digits of a positive rational [a/b]: exact when the
    expansion terminates (every number read from a decimal string, and
    every sum and product of such numbers); otherwise the expansion is cut
    after 17 decimal places, which only approximates the digits a binary64
    would print. *)
Definition pos_to_string (a b : Z) : string :=
  let '(m, e10) :=
    match places b 0 (Z.to_nat (Z.log2 b) + 1) with
    | Some f => (a * 10 ^ Z.of_nat f / b, - Z.of_nat f)
    | None => (a * 10 ^ 17 / b, -17)
    end%Z in
  let '(s, t) := strip_zeros m 0 (Z.to_nat (Z.log2 m) + 1) in
  let ds := pretty s in
  layout ds (Z.of_nat (String.length ds) + e10 + Z.of_nat t).

Definition number_to_string (x : number) : string :=
  match x with
  | NaN => "NaN"
  | Inf false => "Infinity"
  | Inf true => "-Infinity"
  | Fin q =>
      let q := Qred q in
      match Qnum q with
      | Z0 => "0"
      | Zpos a => pos_to_string (Zpos a) (Zpos (Qden q))
      | Zneg a => "-" ++ pos_to_string (Zpos a) (Zpos (Qden q))
      end
  end.

(** ** Values *)

Inductive value : Type :=
  | VUndef
  | VNull
  | VBool (b : bool)
  | VNum (n : number)
  | VStr (s : string).

(** A numeric literal of the source. *)
Definition num (q : Q) : value := VNum (fin q).

(** [ToString]. *)
Definition to_string (v : value) : string :=
  match v with
  | VUndef => "undefined"
  | VNull => "null"
  | VBool true => "true"
  | VBool false => "false"
  | VNum n => number_to_string n
  | VStr s => s
  end.

(** [ToNumber]. *)
Definition to_number (v : value) : number :=
  match v with
  | VUndef => NaN
  | VNull => Fin 0
  | VBool true => Fin 1
  | VBool false => Fin 0
  | VNum n => n
  | VStr s => string_to_number s
  end.

(** [ToBoolean]: what [||] and [if] test. *)
Definition truthy (v : value) : bool :=
  match v with
  | VUndef | VNull => false
  | VBool b => b
  | VNum n => negb (is_nan n || num_eq n (Fin 0))
  | VStr s => negb (String.eqb s EmptyString)
  end.

(** [a || b]. *)
Definition or_else (a b : value) : value := if truthy a then a else b.

(** [v === n] and [v !== n] against a number. *)
Definition strict_eq_num (v : value) (n : number) : bool :=
  match v with
  | VNum m => num_eq m n
  | _ => false
  end.

(** [parseFloat(v)] and [parseInt(v, 10)] first convert [v] to a string. *)
Definition parseFloat (v : value) : number := parseFloat_str (to_string v).
Definition parseInt (v : value) : number := parseInt_str (to_string v).

(** [key.replace(/([A-Z])/g, '-$1').toLowerCase()]. *)
Fixpoint kebab (s : string) : string :=
  match s with
  | EmptyString => EmptyString
  | String c r =>
      if is_upper c then String "-" (String (to_lower c) (kebab r))
      else String (to_lower c) (kebab r)
  end.

End Js.

(** ** The element state *)

Import Js.

(** [element.style] of the host element, as far as the component writes it. *)
Record host_style : Type := HostStyle {
  visibility : option string;
  pointerEvents : option string;
  zIndex : option string
}.

(** The value assigned to [backdropFilter]: the literal ['none'] or the
    template [`blur(${blurPx}px) brightness(${bright})`], kept with its two
    interpolated numbers. *)
Inductive filter_value : Type :=
  | FilterNone
  | BlurBrightness (blurPx bright : number).

Definition filter_css (f : filter_value) : string :=
  match f with
  | FilterNone => "none"
  | BlurBrightness b r =>
      "blur(" ++ number_to_string b ++ "px) brightness(" ++ number_to_string r ++ ")"
  end.

(** [style] of the external bloom layer ([div.crt-external-bloom]). *)
Record layer_style : Type := LayerStyle {
  layer_visibility : option string;
  layer_zIndex : option string;
  backdropFilter : option filter_value;
  webkitBackdropFilter : option filter_value
}.

(** The part of the document the component writes to: the custom
    properties of [document.documentElement.style] and the class list of
    [document.body]. *)
Record page : Type := Page {
  root_vars : gmap string string;
  body_classes : gset string
}.

Record crt : Type := Crt {
  config : gmap string value;          (* this.config *)
  attributes : gmap string string;     (* the element's attribute list *)
  uid : string;                        (* this._uid, drawn once *)
  initialized : bool;                  (* this._initialized *)
  container : bool;                    (* shadowRoot has .crt-container *)
  host : host_style;                   (* this.style *)
  externalBloomLayer : option layer_style;
  globalStyle : option string;         (* this._globalStyle.textContent *)
  doc : page
}.

Definition set_config (c : gmap string value) (st : crt) : crt :=
  Crt c (attributes st) (uid st) (initialized st) (container st) (host st)
      (externalBloomLayer st) (globalStyle st) (doc st).

Definition set_attributes (a : gmap string string) (st : crt) : crt :=
  Crt (config st) a (uid st) (initialized st) (container st) (host st)
      (externalBloomLayer st) (globalStyle st) (doc st).

Definition set_initialized (b : bool) (st : crt) : crt :=
  Crt (config st) (attributes st) (uid st) b (container st) (host st)
      (externalBloomLayer st) (globalStyle st) (doc st).

Definition set_container (b : bool) (st : crt) : crt :=
  Crt (config st) (attributes st) (uid st) (initialized st) b (host st)
      (externalBloomLayer st) (globalStyle st) (doc st).

Definition set_host (h : host_style) (st : crt) : crt :=
  Crt (config st) (attributes st) (uid st) (initialized st) (container st) h
      (externalBloomLayer st) (globalStyle st) (doc st).

Definition set_layer (l : option layer_style) (st : crt) : crt :=
  Crt (config st) (attributes st) (uid st) (initialized st) (container st) (host st)
      l (globalStyle st) (doc st).

Definition set_globalStyle (g : option string) (st : crt) : crt :=
  Crt (config st) (attributes st) (uid st) (initialized st) (container st) (host st)
      (externalBloomLayer st) g (doc st).

Definition set_doc (d : page) (st : crt) : crt :=
  Crt (config st) (attributes st) (uid st) (initialized st) (container st) (host st)
      (externalBloomLayer st) (globalStyle st) d.

(** [obj[key]]: [undefined] when the key is absent. *)
Definition prop (c : gmap string value) (key : string) : value :=
  default VUndef (c !! key).

(** [Object.assign(target, source)]. *)
Definition Object_assign (target : gmap string value)
    (source : list (string * value)) : gmap string value :=
  foldl (fun c kv => <[kv.1 := kv.2]> c) target source.

(** ** Static tables *)

Definition observedAttributes : list string :=
  [ "scan-opacity"; "hairline-opacity"; "fringe-opacity"; "fringe-dominant"; "noise-opacity";
    "barrel"; "scan-size"; "scan-density"; "phosphor-size"; "bloom"; "bloom-color";
    "bloom-radius"; "bloom-decay"; "bloom-blur";
    "scanline-color"; "vignette-opacity"; "vignette-radius"; "vignette-feather";
    "flicker-opacity"; "color-palette-shift"; "interlace-speed";
    "reflection-opacity"; "reflection-size"; "reflection-position-x"; "reflection-position-y";
    "flicker"; "reflection"; "controls"; "mode"; "apply-barrel-to" ].

(** The [map] of [attributeChangedCallback]: attribute name to config key. *)
Definition attribute_map : list (string * string) :=
  [ ("scan-opacity", "scanOpacity"); ("scanline-color", "scanlineColor");
    ("hairline-opacity", "hairlineOpacity"); ("fringe-opacity", "fringeOpacity");
    ("fringe-dominant", "fringeDominant"); ("fringe-jitter-speed", "fringeJitterSpeed");
    ("fringe-jitter-amount", "fringeJitterAmount"); ("noise-opacity", "noiseOpacity");
    ("barrel", "barrel"); ("scan-size", "scanSize"); ("scan-density", "scanDensity");
    ("phosphor-size", "phosphorSize"); ("phosphor-opacity-red", "phosphorOpacityRed");
    ("phosphor-opacity-green", "phosphorOpacityGreen");
    ("phosphor-opacity-blue", "phosphorOpacityBlue"); ("bloom", "bloom");
    ("bloom-color", "bloomColor"); ("bloom-radius", "bloomRadius");
    ("bloom-decay", "bloomDecay"); ("bloom-blur", "bloomBlur");
    ("bloom-brightness", "bloomBrightness"); ("vignette-opacity", "vignetteOpacity");
    ("vignette-radius", "vignetteRadius"); ("vignette-feather", "vignetteFeather");
    ("vignette-color-light", "vignetteColorLight");
    ("vignette-color-dark", "vignetteColorDark");
    ("reflection-opacity", "reflectionOpacity"); ("reflection-size", "reflectionSize");
    ("reflection-position-x", "reflectionPositionX");
    ("reflection-position-y", "reflectionPositionY"); ("scanline-mask", "scanlineMask");
    ("flicker-opacity", "flickerOpacity"); ("color-palette-shift", "colorPaletteShift");
    ("interlace-speed", "interlaceSpeed");
    ("flicker", "flicker"); ("reflection", "reflection"); ("controls", "controls");
    ("mode", "mode"); ("apply-barrel-to", "applyBarrelTo") ].

Definition attribute_key (name : string) : option string :=
  (list_to_map attribute_map : gmap string string) !! name.

(** [this.config] as the constructor builds it. *)
Definition default_config : gmap string value :=
  list_to_map
    [ ("scanOpacity", num 0.85); ("scanlineColor", num 0);
      ("hairlineOpacity", num 0.18); ("fringeOpacity", num 0.25);
      ("fringeDominant", num 0.5); ("fringeJitterSpeed", num 3.2);
      ("fringeJitterAmount", num 2); ("noiseOpacity", num 0.22);
      ("barrel", num 2); ("scanSize", num 4); ("scanDensity", num 2);
      ("phosphorSize", num 1); ("phosphorOpacityRed", num 0.15);
      ("phosphorOpacityGreen", num 0.15); ("phosphorOpacityBlue", num 0.15);
      ("scanlineMask", VStr "shadow-mask");
      ("bloom", num 0.15); ("bloomColor", VStr "white");
      ("bloomRadius", num 1400); ("bloomDecay", num 55);
      ("bloomBlur", num 10); ("bloomBrightness", num 1.2);
      ("colorPaletteShift", num 0); ("vignetteOpacity", num 0.5);
      ("vignetteRadius", num 85); ("vignetteFeather", num 40);
      ("vignetteColorLight", num 0.35); ("vignetteColorDark", num 0.7);
      ("reflectionOpacity", num 0.03); ("reflectionSize", num 1400);
      ("reflectionPositionX", num 50); ("reflectionPositionY", num 10);
      ("reflection", VBool false);
      ("flickerOpacity", num 0.08); ("interlaceSpeed", num 0.08);
      ("flicker", VBool true); ("controls", VBool false);
      ("mode", num 1); ("applyBarrelTo", VNull);
      ("legacyInterlace", VBool true); ("legacyBloom", VBool true) ].

(** The range each slider of the controls panel declares ([min], [max] of
    [_controlRow]), by config key. *)
Definition declared_range : list (string * (Q * Q)) :=
  [ ("scanOpacity", (0, 1)); ("scanlineColor", (0, 1)); ("scanSize", (2, 8));
    ("hairlineOpacity", (0, 0.3)); ("scanDensity", (1, 4));
    ("fringeOpacity", (0, 0.6)); ("fringeDominant", (0, 1));
    ("fringeJitterSpeed", (1, 5)); ("fringeJitterAmount", (0, 5));
    ("phosphorSize", (0.5, 3)); ("phosphorOpacityRed", (0, 0.3));
    ("phosphorOpacityGreen", (0, 0.3)); ("phosphorOpacityBlue", (0, 0.3));
    ("noiseOpacity", (0, 0.4)); ("vignetteOpacity", (0, 1));
    ("vignetteRadius", (30, 95)); ("vignetteFeather", (10, 80));
    ("vignetteColorLight", (0, 1)); ("vignetteColorDark", (0, 1));
    ("reflectionSize", (800, 2000)); ("reflectionOpacity", (0, 0.15));
    ("reflectionPositionX", (0, 100)); ("reflectionPositionY", (0, 100));
    ("flickerOpacity", (0, 0.2)); ("bloom", (0, 0.4));
    ("bloomBrightness", (0.5, 2)); ("bloomRadius", (800, 2000));
    ("bloomDecay", (20, 90)); ("bloomBlur", (2, 40));
    ("colorPaletteShift", (-180, 180)); ("interlaceSpeed", (0.05, 0.2));
    ("barrel", (0, 6)) ]%Q.

(** A freshly constructed element: default config, no attribute, nothing
    rendered or injected yet. *)
Definition new_crt (id : string) : crt :=
  Crt default_config ∅ id false false (HostStyle None None None) None None (Page ∅ ∅).

(** ** Projections *)

Definition layer_hide (l : layer_style) : layer_style :=
  LayerStyle (Some "hidden") (layer_zIndex l) (backdropFilter l) (webkitBackdropFilter l).

Definition layer_show (z : string) (l : layer_style) : layer_style :=
  LayerStyle (Some "visible") (Some z) (backdropFilter l) (webkitBackdropFilter l).

Definition layer_filter (f : filter_value) (l : layer_style) : layer_style :=
  LayerStyle (layer_visibility l) (layer_zIndex l) (Some f) (Some f).

(** [updateModeZIndex()]. *)
Definition updateModeZIndex (st : crt) : crt :=
  let mode := prop (config st) "mode" in
  if strict_eq_num mode (Fin 0) then
    (* case 0: disabled *)
    set_layer (layer_hide <$> externalBloomLayer st)
      (set_host (HostStyle (Some "hidden") (Some "none") (zIndex (host st))) st)
  else
    let z :=
      if strict_eq_num mode (Fin 1) then fin (-1)
      else if strict_eq_num mode (Fin 2) then fin 9999
      else fin (-1) in
    let zs := number_to_string z in
    set_layer (layer_show zs <$> externalBloomLayer st)
      (set_host (HostStyle (Some "visible") (Some "none") (Some zs)) st).

Definition barrel_url (st : crt) : string := "url(#crt-barrel-" ++ uid st ++ ")".

Definition default_target_on_top : string :=
  "> *:not(crt-overlay):not(.crt-controls-portal):not(.crt-external-bloom)".

(** [bodyClass] and [varName] of [applyGlobalFilters]. *)
Definition bodyClass (st : crt) : string := "crt-filtered-" ++ uid st.
Definition varName (st : crt) : string := "--crt-filter-chain-" ++ uid st.

(** The [barrel] constant of [applyGlobalFilters]:
    [barrelFilterValue || (barrel > 0 && mode > 0 ? url : 'none')]. *)
Definition barrel_filter (barrelFilterValue : option string) (st : crt) : string :=
  let c := config st in
  let computed :=
    if gt (to_number (prop c "barrel")) (Fin 0) && gt (to_number (prop c "mode")) (Fin 0)
    then barrel_url st else "none" in
  match barrelFilterValue with
  | Some s => if String.eqb s EmptyString then computed else s
  | None => computed
  end.

(** The [target] selector of [applyGlobalFilters]; [VNull] for none. *)
Definition filter_target (st : crt) : value :=
  let c := config st in
  if strict_eq_num (prop c "mode") (Fin 1) then
    or_else (prop c "applyBarrelTo") (VStr ".bg-image")
  else if strict_eq_num (prop c "mode") (Fin 2) then
    or_else (prop c "applyBarrelTo") (VStr default_target_on_top)
  else VNull.

(** The [filterChain] string of [applyGlobalFilters]. *)
Definition filterChain (barrelFilterValue : option string) (st : crt) : string :=
  let barrel := barrel_filter barrelFilterValue st in
  let shift := prop (config st) "colorPaletteShift" in
  if negb (strict_eq_num shift (Fin 0)) then
    let hueFilter := "hue-rotate(" ++ to_string shift ++ "deg)" in
    if String.eqb barrel "none" then hueFilter else barrel ++ " " ++ hueFilter
  else barrel.

(** The condition under which [applyGlobalFilters] adds the body class. *)
Definition page_filtered (st : crt) : bool :=
  let c := config st in
  (gt (to_number (prop c "barrel")) (Fin 0)
   || negb (strict_eq_num (prop c "colorPaletteShift") (Fin 0)))
  && gt (to_number (prop c "mode")) (Fin 0).

(** [applyGlobalFilters(barrelFilterValue)]. *)
Definition applyGlobalFilters (barrelFilterValue : option string) (st : crt) : crt :=
  let target := filter_target st in
  let vars := <[varName st := filterChain barrelFilterValue st]>
                (<[varName st := barrel_filter barrelFilterValue st]> (root_vars (doc st))) in
  let gs :=
    match globalStyle st with
    | Some _ =>
        if truthy target then
          Some ("body." ++ bodyClass st ++ " " ++ to_string target ++
                " { filter: var(" ++ varName st ++ ", none) !important; }")
        else Some EmptyString
    | None => None
    end in
  let classes :=
    if page_filtered st then {[ bodyClass st ]} ∪ body_classes (doc st)
    else body_classes (doc st) ∖ {[ bodyClass st ]} in
  set_doc (Page vars classes) (set_globalStyle gs st).

(** [updateExternalBloomLayer()]. *)
Definition updateExternalBloomLayer (st : crt) : crt :=
  match externalBloomLayer st with
  | None => st
  | Some _ =>
      let b := prop (config st) "bloom" in
      let st := updateModeZIndex st in
      let style f := set_layer (layer_filter f <$> externalBloomLayer st) st in
      if lt (to_number b) (fin 0.05) then style FilterNone
      else
        let blurPx := mul (to_number (prop (config st) "bloomBlur"))
                          (max (fin 0.15) (to_number b)) in
        let bright := add (Fin 1)
                          (mul (mul (to_number b)
                                    (to_number (prop (config st) "bloomBrightness")))
                               (fin 0.4)) in
        style (BlurBrightness (min blurPx (fin 1.5)) bright)
  end.

(** [updateStyles()]: of its effects the embedding keeps the three
    projections it calls; the custom properties it copies onto the
    container, the scanline-mask style sheet and the [bloom-change] event
    are left out. *)
Definition updateStyles (st : crt) : crt :=
  if container st then
    applyGlobalFilters None (updateExternalBloomLayer (updateModeZIndex st))
  else st.

(** [updateBarrel()]: the writes to the SVG filter primitives, the reset
    of the container's own filter and the [barrel-change] event are left
    out. *)
Definition updateBarrel (st : crt) : crt :=
  let c := config st in
  let shouldApplyBarrel :=
    gt (to_number (prop c "barrel")) (Fin 0) && gt (to_number (prop c "mode")) (Fin 0) in
  applyGlobalFilters (Some (if shouldApplyBarrel then barrel_url st else "none")) st.

(** ** Lifecycle *)

(** [ensureGlobalFilterStyle()]. *)
Definition ensureGlobalFilterStyle (st : crt) : crt :=
  match globalStyle st with
  | Some _ => st
  | None => set_globalStyle (Some EmptyString) st
  end.

(** [createExternalBloomLayer()]; the constant position, inset and
    pointer-events of the new layer are not recorded. *)
Definition createExternalBloomLayer (st : crt) : crt :=
  match externalBloomLayer st with
  | Some _ => st
  | None => updateExternalBloomLayer
              (set_layer (Some (LayerStyle None None None None)) st)
  end.

(** [connectedCallback()]: rendering the shadow tree creates the
    container; the SVG filter, the controls portal, the noise pool and the
    animation timers are left out. *)
Definition connectedCallback (st : crt) : crt :=
  if initialized st then st
  else
    let st := set_container true st in
    let st := ensureGlobalFilterStyle st in
    let st := createExternalBloomLayer st in
    let st := updateStyles st in
    let st := updateModeZIndex st in
    let st := updateBarrel st in
    set_initialized true st.

(** ** Attribute binding *)

Definition attr_value (v : option string) : value :=
  match v with
  | Some s => VStr s
  | None => VNull
  end.

(** The assignment to [this.config] made by [attributeChangedCallback]
    for attribute [name], mapped to [key], with new value [newValue]. *)
Definition bind_attribute (name key : string) (newValue : option string)
    (c : gmap string value) : gmap string value :=
  let nv := attr_value newValue in
  if String.eqb name "flicker" || String.eqb name "controls" || String.eqb name "reflection"
  then <[key := VBool (bool_decide (newValue ≠ None))]> c
  else if String.eqb name "apply-barrel-to"
  then <["applyBarrelTo" := or_else nv VNull]> c
  else if String.eqb name "mode"
  then <["mode" := or_else (VNum (parseInt nv)) (num 1)]> c
  else if String.eqb name "bloom-color"
  then <["bloomColor" := or_else nv (VStr "white")]> c
  else
    let numeric := parseFloat nv in
    <[key := if is_nan numeric then prop c key else VNum numeric]> c.

(** The re-projection at the end of [attributeChangedCallback]; the
    toggles of the flicker timer, the reflection layer and the controls
    panel are left out. *)
Definition reproject (name : string) (st : crt) : crt :=
  if container st then
    let st := updateStyles st in
    let st := if String.eqb name "barrel" then updateBarrel st else st in
    let st := if String.eqb name "color-palette-shift" then applyGlobalFilters None st else st in
    let st := if String.eqb name "mode" then updateModeZIndex st else st in
    if String.eqb name "apply-barrel-to" then applyGlobalFilters None st else st
  else st.

(** [attributeChangedCallback(name, oldValue, newValue)]. *)
Definition attributeChangedCallback (name : string) (oldValue newValue : option string)
    (st : crt) : crt :=
  if decide (oldValue = newValue) then st
  else match attribute_key name with
       | None => st
       | Some key => reproject name (set_config (bind_attribute name key newValue (config st)) st)
       end.

(** [element.setAttribute(name, value)] on a defined custom element: the
    attribute is stored, and the attribute hook runs, with the previous
    value, exactly when the name is observed. *)
Definition setAttribute (name value : string) (st : crt) : crt :=
  let old := attributes st !! name in
  let st := set_attributes (<[name := value]> (attributes st)) st in
  if bool_decide (name ∈ observedAttributes)
  then attributeChangedCallback name old (Some value) st
  else st.

(** [updateConfig(cfg)]. *)
Definition updateConfig (cfg : list (string * value)) (st : crt) : crt :=
  foldl (fun st kv => setAttribute (kebab kv.1) (to_string kv.2) st) st cfg.

(** ** Presets *)

(** The [presets] table of [getPreset], each preset with its keys in
    source order. *)
Definition presets : list (string * list (string * value)) :=
  [
    ("default",
      [("scanOpacity", num 0.85); ("scanlineColor", num 0);
       ("hairlineOpacity", num 0.18); ("fringeOpacity", num 0.25);
       ("fringeDominant", num 0.5); ("fringeJitterSpeed", num 3.2);
       ("fringeJitterAmount", num 2); ("noiseOpacity", num 0.22);
       ("barrel", num 2); ("scanSize", num 4); ("scanDensity", num 2);
       ("phosphorSize", num 1); ("phosphorOpacityRed", num 0.15);
       ("phosphorOpacityGreen", num 0.15); ("phosphorOpacityBlue", num 0.15);
       ("bloom", num 0.15); ("bloomColor", VStr "white");
       ("bloomRadius", num 1400); ("bloomDecay", num 55);
       ("bloomBlur", num 10); ("bloomBrightness", num 1.2);
       ("vignetteOpacity", num 0.5); ("vignetteRadius", num 85);
       ("vignetteFeather", num 40); ("vignetteColorLight", num 0.35);
       ("vignetteColorDark", num 0.7); ("reflectionOpacity", num 0.03);
       ("reflectionSize", num 1400); ("reflectionPositionX", num 50);
       ("reflectionPositionY", num 10); ("reflection", VBool false);
       ("scanlineMask", VStr "shadow-mask"); ("flickerOpacity", num 0.08);
       ("flicker", VBool true); ("colorPaletteShift", num 0);
       ("interlaceSpeed", num 0.08)]);
    ("trinitron-fd",
      [("scanOpacity", num 0.72); ("scanlineColor", num 0.08);
       ("hairlineOpacity", num 0.16); ("fringeOpacity", num 0.12);
       ("fringeDominant", num 0.4); ("fringeJitterSpeed", num 2.8);
       ("fringeJitterAmount", num 1.5); ("noiseOpacity", num 0.1);
       ("barrel", num 1.8); ("scanSize", num 3.5); ("scanDensity", num 2.2);
       ("phosphorSize", num 0.9); ("phosphorOpacityRed", num 0.14);
       ("phosphorOpacityGreen", num 0.15); ("phosphorOpacityBlue", num 0.13);
       ("bloom", num 0.24); ("bloomColor", VStr "white");
       ("bloomRadius", num 1350); ("bloomDecay", num 50);
       ("bloomBlur", num 9); ("bloomBrightness", num 1.3);
       ("vignetteOpacity", num 0.88); ("vignetteRadius", num 82);
       ("vignetteFeather", num 35); ("vignetteColorLight", num 0.3);
       ("vignetteColorDark", num 0.65); ("reflectionOpacity", num 0.025);
       ("reflectionSize", num 1350); ("reflectionPositionX", num 50);
       ("reflectionPositionY", num 10); ("reflection", VBool false);
       ("scanlineMask", VStr "aperture-grille");
       ("flickerOpacity", num 0.05); ("flicker", VBool true);
       ("colorPaletteShift", num 0); ("interlaceSpeed", num 0.08)]);
    ("professional-monitor",
      [("scanOpacity", num 0.92); ("scanlineColor", num 0.02);
       ("hairlineOpacity", num 0.14); ("fringeOpacity", num 0.18);
       ("fringeDominant", num 0.6); ("fringeJitterSpeed", num 3.5);
       ("fringeJitterAmount", num 2.5); ("noiseOpacity", num 0.32);
       ("barrel", num 2.6); ("scanSize", num 4.5); ("scanDensity", num 1.8);
       ("phosphorSize", num 1.1); ("phosphorOpacityRed", num 0.16);
       ("phosphorOpacityGreen", num 0.14); ("phosphorOpacityBlue", num 0.15);
       ("bloom", num 0.09); ("bloomColor", VStr "white");
       ("bloomRadius", num 1300); ("bloomDecay", num 60);
       ("bloomBlur", num 8); ("bloomBrightness", num 1);
       ("vignetteOpacity", num 0.94); ("vignetteRadius", num 88);
       ("vignetteFeather", num 38); ("vignetteColorLight", num 0.4);
       ("vignetteColorDark", num 0.75); ("reflectionOpacity", num 0.035);
       ("reflectionSize", num 1300); ("reflectionPositionX", num 50);
       ("reflectionPositionY", num 10); ("reflection", VBool false);
       ("scanlineMask", VStr "shadow-mask"); ("flickerOpacity", num 0.12);
       ("flicker", VBool true); ("colorPaletteShift", num 0);
       ("interlaceSpeed", num 0.08)]);
    ("monitor-1084s",
      [("scanOpacity", num 0.88); ("scanlineColor", num 0.06);
       ("hairlineOpacity", num 0.21); ("fringeOpacity", num 0.32);
       ("fringeDominant", num 0.65); ("fringeJitterSpeed", num 3.8);
       ("fringeJitterAmount", num 3); ("noiseOpacity", num 0.35);
       ("barrel", num 3.4); ("scanSize", num 6); ("scanDensity", num 1.6);
       ("phosphorSize", num 1.4); ("phosphorOpacityRed", num 0.18);
       ("phosphorOpacityGreen", num 0.15); ("phosphorOpacityBlue", num 0.12);
       ("bloom", num 0.2); ("bloomColor", VStr "amber");
       ("bloomRadius", num 1450); ("bloomDecay", num 52);
       ("bloomBlur", num 12); ("bloomBrightness", num 1.4);
       ("vignetteOpacity", num 0.87); ("vignetteRadius", num 84);
       ("vignetteFeather", num 42); ("vignetteColorLight", num 0.32);
       ("vignetteColorDark", num 0.68); ("reflectionOpacity", num 0.04);
       ("reflectionSize", num 1450); ("reflectionPositionX", num 50);
       ("reflectionPositionY", num 10); ("reflection", VBool false);
       ("scanlineMask", VStr "shadow-mask"); ("flickerOpacity", num 0.13);
       ("flicker", VBool true); ("colorPaletteShift", num 15);
       ("interlaceSpeed", num 0.08)]);
    ("studio-display-crt",
      [("scanOpacity", num 0.65); ("scanlineColor", num 0.18);
       ("hairlineOpacity", num 0.25); ("fringeOpacity", num 0.1);
       ("fringeDominant", num 0.35); ("fringeJitterSpeed", num 2.5);
       ("fringeJitterAmount", num 1); ("noiseOpacity", num 0.06);
       ("barrel", num 1.1); ("scanSize", num 2.8); ("scanDensity", num 2.8);
       ("phosphorSize", num 0.65); ("phosphorOpacityRed", num 0.13);
       ("phosphorOpacityGreen", num 0.15); ("phosphorOpacityBlue", num 0.14);
       ("bloom", num 0.32); ("bloomColor", VStr "white");
       ("bloomRadius", num 1250); ("bloomDecay", num 65);
       ("bloomBlur", num 14); ("bloomBrightness", num 1.5);
       ("vignetteOpacity", num 0.82); ("vignetteRadius", num 80);
       ("vignetteFeather", num 32); ("vignetteColorLight", num 0.25);
       ("vignetteColorDark", num 0.55); ("reflectionOpacity", num 0.02);
       ("reflectionSize", num 1250); ("reflectionPositionX", num 50);
       ("reflectionPositionY", num 10); ("reflection", VBool false);
       ("scanlineMask", VStr "sharp"); ("flickerOpacity", num 0.03);
       ("flicker", VBool false); ("colorPaletteShift", num (-5));
       ("interlaceSpeed", num 0.12)]);
    ("arcade-crt",
      [("scanOpacity", num 0.95); ("scanlineColor", num 0);
       ("hairlineOpacity", num 0.13); ("fringeOpacity", num 0.38);
       ("fringeDominant", num 0.7); ("fringeJitterSpeed", num 4.2);
       ("fringeJitterAmount", num 3.5); ("noiseOpacity", num 0.42);
       ("barrel", num 4.8); ("scanSize", num 7.5); ("scanDensity", num 1.3);
       ("phosphorSize", num 1.8); ("phosphorOpacityRed", num 0.16);
       ("phosphorOpacityGreen", num 0.15); ("phosphorOpacityBlue", num 0.14);
       ("bloom", num 0.32); ("bloomColor", VStr "white");
       ("bloomRadius", num 1500); ("bloomDecay", num 48);
       ("bloomBlur", num 11); ("bloomBrightness", num 1.1);
       ("vignetteOpacity", num 0.93); ("vignetteRadius", num 87);
       ("vignetteFeather", num 40); ("vignetteColorLight", num 0.38);
       ("vignetteColorDark", num 0.72); ("reflectionOpacity", num 0.045);
       ("reflectionSize", num 1500); ("reflectionPositionX", num 50);
       ("reflectionPositionY", num 10); ("reflection", VBool false);
       ("scanlineMask", VStr "soft"); ("flickerOpacity", num 0.16);
       ("flicker", VBool true); ("colorPaletteShift", num 0);
       ("interlaceSpeed", num 0.08)]);
    ("amber-phosphor",
      [("scanOpacity", num 0.78); ("scanlineColor", num 0.22);
       ("hairlineOpacity", num 0.2); ("fringeOpacity", num 0.08);
       ("fringeDominant", num 0.5); ("fringeJitterSpeed", num 3);
       ("fringeJitterAmount", num 1.5); ("noiseOpacity", num 0.18);
       ("barrel", num 2.1); ("scanSize", num 4); ("scanDensity", num 2);
       ("phosphorSize", num 0.95); ("phosphorOpacityRed", num 0.18);
       ("phosphorOpacityGreen", num 0.12); ("phosphorOpacityBlue", num 0.08);
       ("bloom", num 0.22); ("bloomColor", VStr "amber");
       ("bloomRadius", num 1400); ("bloomDecay", num 54);
       ("bloomBlur", num 11); ("bloomBrightness", num 1.3);
       ("vignetteOpacity", num 0.86); ("vignetteRadius", num 84);
       ("vignetteFeather", num 39); ("vignetteColorLight", num 0.33);
       ("vignetteColorDark", num 0.66); ("reflectionOpacity", num 0.028);
       ("reflectionSize", num 1400); ("reflectionPositionX", num 50);
       ("reflectionPositionY", num 10); ("reflection", VBool false);
       ("scanlineMask", VStr "shadow-mask"); ("flickerOpacity", num 0.09);
       ("flicker", VBool true); ("colorPaletteShift", num 25);
       ("interlaceSpeed", num 0.08)]);
    ("green-phosphor",
      [("scanOpacity", num 0.8); ("scanlineColor", num 0.18);
       ("hairlineOpacity", num 0.22); ("fringeOpacity", num 0.08);
       ("fringeDominant", num 0.5); ("fringeJitterSpeed", num 3);
       ("fringeJitterAmount", num 1.5); ("noiseOpacity", num 0.2);
       ("barrel", num 2.2); ("scanSize", num 4); ("scanDensity", num 2);
       ("phosphorSize", num 0.95); ("phosphorOpacityRed", num 0.08);
       ("phosphorOpacityGreen", num 0.18); ("phosphorOpacityBlue", num 0.08);
       ("bloom", num 0.2); ("bloomColor", VStr "green");
       ("bloomRadius", num 1380); ("bloomDecay", num 56);
       ("bloomBlur", num 10); ("bloomBrightness", num 1.2);
       ("vignetteOpacity", num 0.88); ("vignetteRadius", num 85);
       ("vignetteFeather", num 40); ("vignetteColorLight", num 0.34);
       ("vignetteColorDark", num 0.69); ("reflectionOpacity", num 0.03);
       ("reflectionSize", num 1380); ("reflectionPositionX", num 50);
       ("reflectionPositionY", num 10); ("reflection", VBool false);
       ("scanlineMask", VStr "shadow-mask"); ("flickerOpacity", num 0.08);
       ("flicker", VBool true); ("colorPaletteShift", num 120);
       ("interlaceSpeed", num 0.08)]);
    ("blue-phosphor",
      [("scanOpacity", num 0.76); ("scanlineColor", num 0.12);
       ("hairlineOpacity", num 0.19); ("fringeOpacity", num 0.1);
       ("fringeDominant", num 0.45); ("fringeJitterSpeed", num 2.8);
       ("fringeJitterAmount", num 1.5); ("noiseOpacity", num 0.16);
       ("barrel", num 1.9); ("scanSize", num 4); ("scanDensity", num 2.1);
       ("phosphorSize", num 0.9); ("phosphorOpacityRed", num 0.08);
       ("phosphorOpacityGreen", num 0.08); ("phosphorOpacityBlue", num 0.18);
       ("bloom", num 0.24); ("bloomColor", VStr "blue");
       ("bloomRadius", num 1420); ("bloomDecay", num 53);
       ("bloomBlur", num 11); ("bloomBrightness", num 1.35);
       ("vignetteOpacity", num 0.89); ("vignetteRadius", num 86);
       ("vignetteFeather", num 41); ("vignetteColorLight", num 0.36);
       ("vignetteColorDark", num 0.71); ("reflectionOpacity", num 0.032);
       ("reflectionSize", num 1420); ("reflectionPositionX", num 50);
       ("reflectionPositionY", num 10); ("reflection", VBool false);
       ("scanlineMask", VStr "shadow-mask"); ("flickerOpacity", num 0.07);
       ("flicker", VBool true); ("colorPaletteShift", num (-40));
       ("interlaceSpeed", num 0.08)]);
    ("vt220-terminal",
      [("scanOpacity", num 0.82); ("scanlineColor", num 0.15);
       ("hairlineOpacity", num 0.24); ("fringeOpacity", num 0.05);
       ("fringeDominant", num 0.5); ("fringeJitterSpeed", num 2.5);
       ("fringeJitterAmount", num 1); ("noiseOpacity", num 0.12);
       ("barrel", num 0.8); ("scanSize", num 3.2); ("scanDensity", num 2.5);
       ("phosphorSize", num 0.8); ("phosphorOpacityRed", num 0.05);
       ("phosphorOpacityGreen", num 0.18); ("phosphorOpacityBlue", num 0.05);
       ("bloom", num 0.15); ("bloomColor", VStr "green");
       ("bloomRadius", num 1300); ("bloomDecay", num 58);
       ("bloomBlur", num 9); ("bloomBrightness", num 1.1);
       ("vignetteOpacity", num 0.85); ("vignetteRadius", num 83);
       ("vignetteFeather", num 36); ("vignetteColorLight", num 0.28);
       ("vignetteColorDark", num 0.6); ("reflectionOpacity", num 0.02);
       ("reflectionSize", num 1300); ("reflectionPositionX", num 50);
       ("reflectionPositionY", num 10); ("reflection", VBool false);
       ("scanlineMask", VStr "sharp"); ("flickerOpacity", num 0.06);
       ("flicker", VBool false); ("colorPaletteShift", num 120);
       ("interlaceSpeed", num 0.12)]);
    ("lcd-handheld",
      [("scanOpacity", num 0.5); ("scanlineColor", num 0.4);
       ("hairlineOpacity", num 0.35); ("fringeOpacity", num 0.02);
       ("fringeDominant", num 0.5); ("fringeJitterSpeed", num 4.5);
       ("fringeJitterAmount", num 4); ("noiseOpacity", num 0.48);
       ("barrel", num 3.6); ("scanSize", num 2); ("scanDensity", num 1);
       ("phosphorSize", num 0.6); ("phosphorOpacityRed", num 0.06);
       ("phosphorOpacityGreen", num 0.16); ("phosphorOpacityBlue", num 0.06);
       ("bloom", num 0.06); ("bloomColor", VStr "green");
       ("bloomRadius", num 1200); ("bloomDecay", num 62);
       ("bloomBlur", num 8); ("bloomBrightness", num 0.8);
       ("vignetteOpacity", num 0.91); ("vignetteRadius", num 81);
       ("vignetteFeather", num 44); ("vignetteColorLight", num 0.42);
       ("vignetteColorDark", num 0.78); ("reflectionOpacity", num 0.05);
       ("reflectionSize", num 1200); ("reflectionPositionX", num 50);
       ("reflectionPositionY", num 10); ("reflection", VBool false);
       ("scanlineMask", VStr "soft"); ("flickerOpacity", num 0.2);
       ("flicker", VBool true); ("colorPaletteShift", num 140);
       ("interlaceSpeed", num 0.12)]);
    ("classic-rgb",
      [("scanOpacity", num 0.79); ("scanlineColor", num 0.11);
       ("hairlineOpacity", num 0.19); ("fringeOpacity", num 0.28);
       ("fringeDominant", num 0.55); ("fringeJitterSpeed", num 3.3);
       ("fringeJitterAmount", num 2); ("noiseOpacity", num 0.19);
       ("barrel", num 1.5); ("scanSize", num 3.8); ("scanDensity", num 2.3);
       ("phosphorSize", num 1.05); ("phosphorOpacityRed", num 0.15);
       ("phosphorOpacityGreen", num 0.15); ("phosphorOpacityBlue", num 0.15);
       ("bloom", num 0.18); ("bloomColor", VStr "white");
       ("bloomRadius", num 1380); ("bloomDecay", num 55);
       ("bloomBlur", num 10); ("bloomBrightness", num 1.2);
       ("vignetteOpacity", num 0.86); ("vignetteRadius", num 84);
       ("vignetteFeather", num 38); ("vignetteColorLight", num 0.32);
       ("vignetteColorDark", num 0.67); ("reflectionOpacity", num 0.03);
       ("reflectionSize", num 1380); ("reflectionPositionX", num 50);
       ("reflectionPositionY", num 10); ("reflection", VBool false);
       ("scanlineMask", VStr "shadow-mask"); ("flickerOpacity", num 0.1);
       ("flicker", VBool true); ("colorPaletteShift", num 10);
       ("interlaceSpeed", num 0.08)]);
    ("precision-flatcrt",
      [("scanOpacity", num 0.68); ("scanlineColor", num 0.16);
       ("hairlineOpacity", num 0.22); ("fringeOpacity", num 0.13);
       ("fringeDominant", num 0.3); ("fringeJitterSpeed", num 2.6);
       ("fringeJitterAmount", num 1.2); ("noiseOpacity", num 0.08);
       ("barrel", num 1.3); ("scanSize", num 3); ("scanDensity", num 2.6);
       ("phosphorSize", num 0.8); ("phosphorOpacityRed", num 0.12);
       ("phosphorOpacityGreen", num 0.13); ("phosphorOpacityBlue", num 0.12);
       ("bloom", num 0.28); ("bloomColor", VStr "white");
       ("bloomRadius", num 1320); ("bloomDecay", num 60);
       ("bloomBlur", num 13); ("bloomBrightness", num 1.4);
       ("vignetteOpacity", num 0.83); ("vignetteRadius", num 79);
       ("vignetteFeather", num 30); ("vignetteColorLight", num 0.22);
       ("vignetteColorDark", num 0.5); ("reflectionOpacity", num 0.015);
       ("reflectionSize", num 1320); ("reflectionPositionX", num 50);
       ("reflectionPositionY", num 10); ("reflection", VBool false);
       ("scanlineMask", VStr "sharp"); ("flickerOpacity", num 0.04);
       ("flicker", VBool false); ("colorPaletteShift", num (-10));
       ("interlaceSpeed", num 0.12)]);
    ("retro-studio",
      [("scanOpacity", num 0.84); ("scanlineColor", num 0.04);
       ("hairlineOpacity", num 0.17); ("fringeOpacity", num 0.22);
       ("fringeDominant", num 0.52); ("fringeJitterSpeed", num 3.2);
       ("fringeJitterAmount", num 2); ("noiseOpacity", num 0.24);
       ("barrel", num 2.4); ("scanSize", num 4.2); ("scanDensity", num 2);
       ("phosphorSize", num 1.08); ("phosphorOpacityRed", num 0.15);
       ("phosphorOpacityGreen", num 0.15); ("phosphorOpacityBlue", num 0.15);
       ("bloom", num 0.2); ("bloomColor", VStr "white");
       ("bloomRadius", num 1400); ("bloomDecay", num 54);
       ("bloomBlur", num 10); ("bloomBrightness", num 1.25);
       ("vignetteOpacity", num 0.89); ("vignetteRadius", num 86);
       ("vignetteFeather", num 41); ("vignetteColorLight", num 0.35);
       ("vignetteColorDark", num 0.7); ("reflectionOpacity", num 0.032);
       ("reflectionSize", num 1400); ("reflectionPositionX", num 50);
       ("reflectionPositionY", num 10); ("reflection", VBool false);
       ("scanlineMask", VStr "shadow-mask"); ("flickerOpacity", num 0.11);
       ("flicker", VBool true); ("colorPaletteShift", num 5);
       ("interlaceSpeed", num 0.08)]);
    ("broadcast-monitor",
      [("scanOpacity", num 0.7); ("scanlineColor", num 0.12);
       ("hairlineOpacity", num 0.2); ("fringeOpacity", num 0.08);
       ("fringeDominant", num 0.45); ("fringeJitterSpeed", num 2.7);
       ("fringeJitterAmount", num 1); ("noiseOpacity", num 0.08);
       ("barrel", num 1.2); ("scanSize", num 3); ("scanDensity", num 2.5);
       ("phosphorSize", num 0.85); ("phosphorOpacityRed", num 0.14);
       ("phosphorOpacityGreen", num 0.15); ("phosphorOpacityBlue", num 0.14);
       ("bloom", num 0.26); ("bloomColor", VStr "white");
       ("bloomRadius", num 1280); ("bloomDecay", num 58);
       ("bloomBlur", num 12); ("bloomBrightness", num 1.35);
       ("vignetteOpacity", num 0.84); ("vignetteRadius", num 81);
       ("vignetteFeather", num 34); ("vignetteColorLight", num 0.26);
       ("vignetteColorDark", num 0.58); ("reflectionOpacity", num 0.022);
       ("reflectionSize", num 1280); ("reflectionPositionX", num 50);
       ("reflectionPositionY", num 10); ("reflection", VBool false);
       ("scanlineMask", VStr "sharp"); ("flickerOpacity", num 0.04);
       ("flicker", VBool false); ("colorPaletteShift", num (-3));
       ("interlaceSpeed", num 0.12)]);
    ("rgb-professional",
      [("scanOpacity", num 0.68); ("scanlineColor", num 0.15);
       ("hairlineOpacity", num 0.18); ("fringeOpacity", num 0.06);
       ("fringeDominant", num 0.38); ("fringeJitterSpeed", num 2.5);
       ("fringeJitterAmount", num 0.8); ("noiseOpacity", num 0.05);
       ("barrel", num 0.9); ("scanSize", num 2.8); ("scanDensity", num 2.7);
       ("phosphorSize", num 0.75); ("phosphorOpacityRed", num 0.13);
       ("phosphorOpacityGreen", num 0.15); ("phosphorOpacityBlue", num 0.13);
       ("bloom", num 0.3); ("bloomColor", VStr "white");
       ("bloomRadius", num 1220); ("bloomDecay", num 62);
       ("bloomBlur", num 13); ("bloomBrightness", num 1.4);
       ("vignetteOpacity", num 0.81); ("vignetteRadius", num 78);
       ("vignetteFeather", num 30); ("vignetteColorLight", num 0.23);
       ("vignetteColorDark", num 0.52); ("reflectionOpacity", num 0.018);
       ("reflectionSize", num 1220); ("reflectionPositionX", num 50);
       ("reflectionPositionY", num 10); ("reflection", VBool false);
       ("scanlineMask", VStr "aperture-grille");
       ("flickerOpacity", num 0.03); ("flicker", VBool false);
       ("colorPaletteShift", num (-8)); ("interlaceSpeed", num 0.12)]);
    ("phosphor-white",
      [("scanOpacity", num 0.75); ("scanlineColor", num 0.2);
       ("hairlineOpacity", num 0.23); ("fringeOpacity", num 0.05);
       ("fringeDominant", num 0.5); ("fringeJitterSpeed", num 2.8);
       ("fringeJitterAmount", num 1.2); ("noiseOpacity", num 0.14);
       ("barrel", num 1.8); ("scanSize", num 3.8); ("scanDensity", num 2.2);
       ("phosphorSize", num 0.9); ("phosphorOpacityRed", num 0.16);
       ("phosphorOpacityGreen", num 0.16); ("phosphorOpacityBlue", num 0.16);
       ("bloom", num 0.18); ("bloomColor", VStr "white");
       ("bloomRadius", num 1350); ("bloomDecay", num 56);
       ("bloomBlur", num 10); ("bloomBrightness", num 1.25);
       ("vignetteOpacity", num 0.87); ("vignetteRadius", num 83);
       ("vignetteFeather", num 37); ("vignetteColorLight", num 0.31);
       ("vignetteColorDark", num 0.64); ("reflectionOpacity", num 0.026);
       ("reflectionSize", num 1350); ("reflectionPositionX", num 50);
       ("reflectionPositionY", num 10); ("reflection", VBool false);
       ("scanlineMask", VStr "sharp"); ("flickerOpacity", num 0.07);
       ("flicker", VBool true); ("colorPaletteShift", num 0);
       ("interlaceSpeed", num 0.08)]);
    ("composite-color",
      [("scanOpacity", num 0.9); ("scanlineColor", num 0.05);
       ("hairlineOpacity", num 0.16); ("fringeOpacity", num 0.42);
       ("fringeDominant", num 0.68); ("fringeJitterSpeed", num 3.9);
       ("fringeJitterAmount", num 3.2); ("noiseOpacity", num 0.38);
       ("barrel", num 3.2); ("scanSize", num 5.5); ("scanDensity", num 1.7);
       ("phosphorSize", num 1.3); ("phosphorOpacityRed", num 0.17);
       ("phosphorOpacityGreen", num 0.14); ("phosphorOpacityBlue", num 0.16);
       ("bloom", num 0.12); ("bloomColor", VStr "amber");
       ("bloomRadius", num 1420); ("bloomDecay", num 58);
       ("bloomBlur", num 9); ("bloomBrightness", num 1.05);
       ("vignetteOpacity", num 0.92); ("vignetteRadius", num 87);
       ("vignetteFeather", num 40); ("vignetteColorLight", num 0.37);
       ("vignetteColorDark", num 0.74); ("reflectionOpacity", num 0.038);
       ("reflectionSize", num 1420); ("reflectionPositionX", num 50);
       ("reflectionPositionY", num 10); ("reflection", VBool false);
       ("scanlineMask", VStr "shadow-mask"); ("flickerOpacity", num 0.14);
       ("flicker", VBool true); ("colorPaletteShift", num 20);
       ("interlaceSpeed", num 0.08)]);
    ("plasma-display",
      [("scanOpacity", num 0.4); ("scanlineColor", num 0.5);
       ("hairlineOpacity", num 0.08); ("fringeOpacity", num 0.15);
       ("fringeDominant", num 0.48); ("fringeJitterSpeed", num 3.5);
       ("fringeJitterAmount", num 1.8); ("noiseOpacity", num 0.12);
       ("barrel", num 0.5); ("scanSize", num 2); ("scanDensity", num 3);
       ("phosphorSize", num 0.7); ("phosphorOpacityRed", num 0.16);
       ("phosphorOpacityGreen", num 0.14); ("phosphorOpacityBlue", num 0.15);
       ("bloom", num 0.35); ("bloomColor", VStr "white");
       ("bloomRadius", num 1600); ("bloomDecay", num 45);
       ("bloomBlur", num 16); ("bloomBrightness", num 1.6);
       ("vignetteOpacity", num 0.78); ("vignetteRadius", num 88);
       ("vignetteFeather", num 38); ("vignetteColorLight", num 0.28);
       ("vignetteColorDark", num 0.62); ("reflectionOpacity", num 0.05);
       ("reflectionSize", num 1600); ("reflectionPositionX", num 50);
       ("reflectionPositionY", num 10); ("reflection", VBool false);
       ("scanlineMask", VStr "soft"); ("flickerOpacity", num 0.06);
       ("flicker", VBool false); ("colorPaletteShift", num (-15));
       ("interlaceSpeed", num 0.12)]);
    ("vector-display",
      [("scanOpacity", num 0.3); ("scanlineColor", num 0.6);
       ("hairlineOpacity", num 0.05); ("fringeOpacity", num 0.05);
       ("fringeDominant", num 0.5); ("fringeJitterSpeed", num 2.2);
       ("fringeJitterAmount", num 0.5); ("noiseOpacity", num 0.08);
       ("barrel", num 1.6); ("scanSize", num 2); ("scanDensity", num 1);
       ("phosphorSize", num 0.5); ("phosphorOpacityRed", num 0.08);
       ("phosphorOpacityGreen", num 0.18); ("phosphorOpacityBlue", num 0.1);
       ("bloom", num 0.45); ("bloomColor", VStr "green");
       ("bloomRadius", num 1800); ("bloomDecay", num 35);
       ("bloomBlur", num 18); ("bloomBrightness", num 1.8);
       ("vignetteOpacity", num 0.88); ("vignetteRadius", num 86);
       ("vignetteFeather", num 45); ("vignetteColorLight", num 0.38);
       ("vignetteColorDark", num 0.76); ("reflectionOpacity", num 0.02);
       ("reflectionSize", num 1800); ("reflectionPositionX", num 50);
       ("reflectionPositionY", num 10); ("reflection", VBool false);
       ("scanlineMask", VStr "soft"); ("flickerOpacity", num 0.05);
       ("flicker", VBool false); ("colorPaletteShift", num 130);
       ("interlaceSpeed", num 0.12)])
  ].

(** [getPreset(name)]: [presets[name]]. *)
Definition getPreset (name : string) : option (list (string * value)) :=
  (list_to_map presets : gmap string (list (string * value))) !! name.

(** [applyPreset(preset)]: the synchronisation of the controls panel
    (slider, number and select values) is left out. *)
Definition applyPreset (preset : list (string * value)) (st : crt) : crt :=
  let st := set_config (Object_assign (config st) preset) st in
  let st := foldl (fun st kv => setAttribute (kebab kv.1) (to_string kv.2) st) st preset in
  updateBarrel (updateStyles st).

(** The [change] handler of the preset selector: the preset is looked up
    by name and applied when it exists. *)
Definition select_preset (name : string) (st : crt) : crt :=
  match getPreset name with
  | Some preset => applyPreset preset st
  | None => st
  end.

(** ** Auxiliary definitions for the statements *)

(** The attributes that the map of the attribute hook binds but
    [observedAttributes] does not list. *)
Definition unobserved_attributes : list string :=
  [ "scanline-mask"; "bloom-brightness"; "fringe-jitter-speed"; "fringe-jitter-amount";
    "phosphor-opacity-red"; "phosphor-opacity-green"; "phosphor-opacity-blue";
    "vignette-color-light"; "vignette-color-dark" ].

(** The attribute hook writes one key; which key and which value depend
    on the attribute name, the new value and the value now stored. *)
Definition bound_key (name key : string) : string :=
  if String.eqb name "flicker" || String.eqb name "controls" || String.eqb name "reflection"
  then key
  else if String.eqb name "apply-barrel-to" then "applyBarrelTo"
  else if String.eqb name "mode" then "mode"
  else if String.eqb name "bloom-color" then "bloomColor"
  else key.

Definition bound_value (name : string) (newValue : option string) (current : value) : value :=
  let nv := attr_value newValue in
  if String.eqb name "flicker" || String.eqb name "controls" || String.eqb name "reflection"
  then VBool (bool_decide (newValue ≠ None))
  else if String.eqb name "apply-barrel-to" then or_else nv VNull
  else if String.eqb name "mode" then or_else (VNum (parseInt nv)) (num 1)
  else if String.eqb name "bloom-color" then or_else nv (VStr "white")
  else if is_nan (parseFloat nv) then current else VNum (parseFloat nv).

(** Equality tests on numbers and values, term by term. *)
Definition number_eqb (a b : number) : bool :=
  match a, b with
  | NaN, NaN => true
  | Inf s, Inf t => Bool.eqb s t
  | Fin p, Fin q => (Qnum p =? Qnum q)%Z && (Qden p =? Qden q)%positive
  | _, _ => false
  end.

Definition value_eqb (a b : value) : bool :=
  match a, b with
  | VUndef, VUndef | VNull, VNull => true
  | VBool x, VBool y => Bool.eqb x y
  | VNum x, VNum y => number_eqb x y
  | VStr x, VStr y => String.eqb x y
  | _, _ => false
  end.

(** The two keys that presets carry as booleans and that the attribute
    hook binds by presence. *)
Definition is_flag_key (k : string) : bool :=
  String.eqb k "flicker" || String.eqb k "reflection".

(** A preset entry is stable when the attribute hook, run on the string
    form of its value, writes the same key and (flags apart) the same
    value back. *)
Definition entry_stable (kv : string * value) : bool :=
  let name := kebab kv.1 in
  if bool_decide (name ∈ observedAttributes) then
    match attribute_key name with
    | None => true
    | Some key =>
        String.eqb key kv.1 && String.eqb (bound_key name key) kv.1
        && (is_flag_key kv.1
            || value_eqb (bound_value name (Some (to_string kv.2)) kv.2) kv.2)
    end
  else true.

(** A preset is well formed when no key occurs twice and every entry is
    stable. *)
Definition preset_ok (p : list (string * value)) : bool :=
  bool_decide (NoDup p.*1) && forallb entry_stable p.

(** One iteration of the attribute loop of [applyPreset]. *)
Definition preset_step (st : crt) (kv : string * value) : crt :=
  setAttribute (kebab kv.1) (to_string kv.2) st.

(** [this.config[key] = v]: a direct assignment, as the handlers of the
    controls panel make it (the mode selector assigns [this.config.mode]). *)
Definition assign (key : string) (v : value) (st : crt) : crt :=
  set_config (<[key := v]> (config st)) st.

(** The hue-rotation filter of the chain. *)
Definition hue_filter (st : crt) : string :=
  "hue-rotate(" ++ to_string (prop (config st) "colorPaletteShift") ++ "deg)".

(** The attributes bound through [parseFloat]: those of the map that the
    attribute hook does not treat as a flag, a string or the mode. *)
Definition float_kind (name : string) : Prop :=
  is_Some (attribute_key name) ∧
  name ∉ ["flicker"; "controls"; "reflection"; "apply-barrel-to"; "mode"; "bloom-color"].

(** * The rest of the component *)

(** ** More JavaScript primitives *)

(** [a / b]; a zero divisor is taken as positive zero. *)
Definition num_div (a b : number) : number :=
  match a, b with
  | NaN, _ | _, NaN => NaN
  | Inf _, Inf _ => NaN
  | Inf s, Fin q => Inf (xorb s (Qlt_bool q 0))
  | Fin _, Inf _ => Fin 0
  | Fin p, Fin q =>
      if Qeq_bool q 0 then
        if Qeq_bool p 0 then NaN else Inf (Qlt_bool p 0)
      else fin (p / q)
  end.

(** [Math.round(x)]: the nearest integer, a tie going up. *)
Definition Math_round (x : number) : number :=
  match x with
  | Fin q => fin (inject_Z (Qfloor (q + (1 # 2))))
  | _ => x
  end.

(** [s.replace(c, '')] for a one-character pattern: the first occurrence
    goes. *)
Fixpoint remove_first (c : ascii) (s : string) : string :=
  match s with
  | EmptyString => EmptyString
  | String d r => if Ascii.eqb d c then r else String d (remove_first c r)
  end.

Definition hex_digit (c : ascii) : option Z :=
  let n := code c in
  if Nat.leb 48 n && Nat.leb n 57 then Some (Z.of_nat n - 48)%Z
  else if Nat.leb 97 n && Nat.leb n 102 then Some (Z.of_nat n - 87)%Z
  else if Nat.leb 65 n && Nat.leb n 70 then Some (Z.of_nat n - 55)%Z
  else None.

(** The longest run of hexadecimal digits at the head of [s]. *)
Fixpoint hex_digits (s : string) (acc : Z) (n : nat) : Z * nat :=
  match s with
  | String c r =>
      match hex_digit c with
      | Some d => hex_digits r (16 * acc + d) (S n)
      | None => (acc, n)
      end
  | EmptyString => (acc, n)
  end.

(** [parseInt(string, 16)]: white space, a sign and a [0x] prefix may
    come before the digits. *)
Definition parseInt16_str (s : string) : number :=
  let '(neg, r0) := sign (skip_ws s) in
  let r1 :=
    match r0 with
    | String "0" (String "x" r) | String "0" (String "X" r) => r
    | _ => r0
    end in
  let '(v, n) := hex_digits r1 0 0 in
  match n with
  | O => NaN
  | S _ => Fin (dec (if neg then - v else v) 0)
  end.

Definition hex_char (d : Z) : ascii :=
  ascii_of_nat (Z.to_nat (if (d <? 10)%Z then d + 48 else d + 87)).

(** The hexadecimal digits of [n > 0], most significant first. *)
Fixpoint hex_of_pos (fuel : nat) (n : Z) (acc : string) : string :=
  match fuel with
  | O => acc
  | S k => if (n =? 0)%Z then acc
           else hex_of_pos k (n / 16) (String (hex_char (n mod 16)) acc)
  end.

(** [x.toString(16)] for [NaN], the infinities and the integers; the
    fraction that radix-16 printing would add after a point is dropped
    (the call sites pass a rounded number). *)
Definition toString16 (x : number) : string :=
  match x with
  | NaN => "NaN"
  | Inf false => "Infinity"
  | Inf true => "-Infinity"
  | Fin q =>
      let n := Qfloor (Qabs q) in
      let ds := if (n =? 0)%Z then "0"
                else hex_of_pos (Z.to_nat (Z.log2 n) + 1) n EmptyString in
      if Qlt_bool q 0 && negb (n =? 0)%Z then "-" ++ ds else ds
  end.

(** [s.padStart(2, '0')]. *)
Definition padStart2 (s : string) : string :=
  match s with
  | EmptyString => "00"
  | String c EmptyString => String "0" s
  | _ => s
  end.

(** [v === s] against a string. *)
Definition strict_eq_str (v : value) (s : string) : bool :=
  match v with
  | VStr t => String.eqb t s
  | _ => false
  end.

(** ** The progress bar ([JrpgProgress]) *)

(** The [percentage] of [render] and [animateProgress], from the [value]
    and [max] attributes as [getAttribute] returns them:
    [parseFloat(value || 0)], [parseFloat(max || 100)],
    [Math.min(100, Math.max(0, (value / max) * 100))]. *)
Definition progress_percentage (value_attr max_attr : option string) : number :=
  let value := parseFloat (or_else (attr_value value_attr) (num 0)) in
  let max_ := parseFloat (or_else (attr_value max_attr) (num 100)) in
  min (fin 100) (max (Fin 0) (mul (num_div value max_) (fin 100))).

(** One channel of [adjustColor]: the two characters at [start] are read
    as a hexadecimal byte, scaled, rounded, clamped and printed. *)
Definition adjust_channel (hex : string) (start : nat) (amount : number) : string :=
  let r := parseInt16_str (String.substring start 2 hex) in
  let newR := max (Fin 0) (min (fin 255) (Math_round (add r (mul r amount)))) in
  padStart2 (toString16 newR).

(** [adjustColor(color, amount)]. *)
Definition adjustColor (color : string) (amount : number) : string :=
  let hex := remove_first "#" color in
  "#" ++ adjust_channel hex 0 amount ++ adjust_channel hex 2 amount
      ++ adjust_channel hex 4 amount.

(** ** The overlay: attributes, lifecycle and controls *)

(** [element.removeAttribute(name)]: nothing happens when the attribute
    is absent; otherwise it goes and, for an observed name, the hook runs
    with [null] as the new value. *)
Definition removeAttribute (name : string) (st : crt) : crt :=
  match attributes st !! name with
  | None => st
  | Some old =>
      let st := set_attributes (delete name (attributes st)) st in
      if bool_decide (name ∈ observedAttributes)
      then attributeChangedCallback name (Some old) None st
      else st
  end.

(** [disconnectedCallback()]: the timers, the SVG filter and the controls
    portal are left out. *)
Definition disconnectedCallback (st : crt) : crt :=
  let vars := delete "--bloom-strength"
                (delete "--crt-barrel-filter" (delete (varName st) (root_vars (doc st)))) in
  let classes := body_classes (doc st) ∖ {[ bodyClass st ]} ∖ {[ "crt-filtered" ]} in
  set_initialized false
    (set_layer None (set_globalStyle None (set_doc (Page vars classes) st))).

(** The [change] handler of the flicker checkbox, [checked] being
    [e.target.checked]; restarting the flicker timer is left out. *)
Definition flickerToggle_change (checked : bool) (st : crt) : crt :=
  let st := set_config (<["flicker" := VBool checked]> (config st)) st in
  if checked then setAttribute "flicker" EmptyString st
  else removeAttribute "flicker" st.

(** The [change] handler of the reflection checkbox; showing or hiding
    the reflection layer is left out. *)
Definition reflectionToggle_change (checked : bool) (st : crt) : crt :=
  let st := set_config (<["reflection" := VBool checked]> (config st)) st in
  if checked then setAttribute "reflection" EmptyString st
  else removeAttribute "reflection" st.


(** The [change] handler of the bloom colour selector. *)
Definition bloomColorSelect_change (value : string) (st : crt) : crt :=
  let st := set_config (<["bloomColor" := VStr value]> (config st)) st in
  let st := setAttribute "bloom-color" value st in
  updateExternalBloomLayer st.

(** The [change] handler of the scanline mask selector. *)
Definition scanlineMaskSelect_change (value : string) (st : crt) : crt :=
  let st := set_config (<["scanlineMask" := VStr value]> (config st)) st in
  let st := setAttribute "scanline-mask" value st in
  updateStyles st.

(** The [controls] table of [bindControls]: the configuration key and the
    attribute of each slider, in source order. *)
Definition controls : list (string * string) :=
  [ ("scanOpacity", "scan-opacity"); ("scanlineColor", "scanline-color");
    ("hairlineOpacity", "hairline-opacity"); ("fringeOpacity", "fringe-opacity");
    ("fringeDominant", "fringe-dominant"); ("fringeJitterSpeed", "fringe-jitter-speed");
    ("fringeJitterAmount", "fringe-jitter-amount"); ("noiseOpacity", "noise-opacity");
    ("barrel", "barrel"); ("scanSize", "scan-size"); ("scanDensity", "scan-density");
    ("phosphorSize", "phosphor-size"); ("phosphorOpacityRed", "phosphor-opacity-red");
    ("phosphorOpacityGreen", "phosphor-opacity-green");
    ("phosphorOpacityBlue", "phosphor-opacity-blue"); ("bloom", "bloom");
    ("bloomBrightness", "bloom-brightness"); ("bloomRadius", "bloom-radius");
    ("bloomDecay", "bloom-decay"); ("bloomBlur", "bloom-blur");
    ("vignetteOpacity", "vignette-opacity"); ("vignetteRadius", "vignette-radius");
    ("vignetteFeather", "vignette-feather");
    ("vignetteColorLight", "vignette-color-light");
    ("vignetteColorDark", "vignette-color-dark");
    ("reflectionSize", "reflection-size"); ("reflectionOpacity", "reflection-opacity");
    ("reflectionPositionX", "reflection-position-x");
    ("reflectionPositionY", "reflection-position-y");
    ("colorPaletteShift", "color-palette-shift"); ("interlaceSpeed", "interlace-speed");
    ("flickerOpacity", "flicker-opacity") ].

(** What the two [input] handlers of a control do once the value is
    parsed; clearing the preset selector and syncing the twin input are
    left out. *)
Definition control_store (key attr : string) (value : number) (st : crt) : crt :=
  let st := set_config (<[key := VNum value]> (config st)) st in
  let st := setAttribute attr (to_string (VNum value)) st in
  let st := if String.eqb attr "barrel" then updateBarrel st else st in
  updateStyles st.

(** The [input] handler of a slider, [raw] being [e.target.value]. *)
Definition slider_input (key attr raw : string) (st : crt) : crt :=
  control_store key attr (parseFloat_str raw) st.

(** The [input] handler of the number box beside a slider. *)
Definition number_input (key attr raw : string) (st : crt) : crt :=
  let value := parseFloat_str raw in
  if is_nan value then st else control_store key attr value st.

(** ** The overlay: the container's custom properties and the mask *)

(** The custom properties [updateStyles()] copies onto the container: the
    name and the value of each [setProperty] call, in source order. *)
Definition container_properties (c : gmap string value) : list (string * string) :=
  [
    ("--scan-opacity", to_string (prop c "scanOpacity"));
    ("--scanline-color", to_string (prop c "scanlineColor"));
    ("--hairline-opacity", to_string (prop c "hairlineOpacity"));
    ("--fringe-opacity", to_string (prop c "fringeOpacity"));
    ("--fringe-jitter-speed", to_string (prop c "fringeJitterSpeed") ++ "s");
    ("--fringe-jitter-amount", to_string (prop c "fringeJitterAmount") ++ "px");
    ("--noise-opacity", to_string (prop c "noiseOpacity"));
    ("--scan-size", to_string (prop c "scanSize") ++ "px");
    ("--scan-density", to_string (prop c "scanDensity"));
    ("--phosphor-size", to_string (prop c "phosphorSize") ++ "px");
    ("--phosphor-red", to_string (prop c "phosphorOpacityRed"));
    ("--phosphor-green", to_string (prop c "phosphorOpacityGreen"));
    ("--phosphor-blue", to_string (prop c "phosphorOpacityBlue"));
    ("--bloom-strength", to_string (prop c "bloom"));
    ("--fringe-dominant", to_string (prop c "fringeDominant"));
    ("--bloom-radius", to_string (prop c "bloomRadius") ++ "px");
    ("--bloom-decay", to_string (prop c "bloomDecay") ++ "%");
    ("--vignette-opacity", to_string (prop c "vignetteOpacity"));
    ("--vignette-radius", to_string (prop c "vignetteRadius") ++ "%");
    ("--vignette-feather", to_string (prop c "vignetteFeather") ++ "%");
    ("--vignette-color-light", to_string (prop c "vignetteColorLight"));
    ("--vignette-color-dark", to_string (prop c "vignetteColorDark"));
    ("--reflection-opacity", to_string (prop c "reflectionOpacity"));
    ("--reflection-size", to_string (prop c "reflectionSize") ++ "px");
    ("--reflection-position-x", to_string (prop c "reflectionPositionX") ++ "%");
    ("--reflection-position-y", to_string (prop c "reflectionPositionY") ++ "%");
    ("--color-palette-shift", to_string (prop c "colorPaletteShift") ++ "deg");
    ("--interlace-speed", to_string (prop c "interlaceSpeed") ++ "s");
    ("--flicker-opacity", to_string (prop c "flickerOpacity"))
  ].

(** The style sheets of [applyScanlineMask()], one per [case]. *)
Definition mask_css_aperture_grille : string :=
  "
          .crt-scanlines { background-image: repeating-linear-gradient(90deg, rgba(0,0,0,var(--scanline-color)) 0px, transparent 1px, transparent 2px) !important; }
          .crt-scanlines::after { display: none !important; }
        ".

Definition mask_css_slot_mask : string :=
  "
          .crt-scanlines { background-image: repeating-linear-gradient(90deg, rgba(0,0,0,var(--scanline-color)) 0px, transparent 0.5px, transparent 3px), repeating-linear-gradient(0deg, transparent 0px, rgba(0,0,0,calc(var(--scanline-color) * 0.3)) calc(var(--scan-size) - 0.5px), rgba(0,0,0,calc(var(--scanline-color) * 0.3)) var(--scan-size)) !important; }
          .crt-scanlines::after { background-image: repeating-linear-gradient(90deg, rgba(255,255,255,0.4) 0px, transparent 0.3px, transparent 3px) !important; background-size: 100% 100% !important; animation: none !important; }
        ".

Definition mask_css_sharp : string :=
  "
          .crt-scanlines { background-image: repeating-linear-gradient(0deg, transparent 0px, transparent calc(var(--scan-size) - 1px), rgba(0,0,0,var(--scanline-color)) calc(var(--scan-size) - 1px), rgba(0,0,0,var(--scanline-color)) var(--scan-size)) !important; }
          .crt-scanlines::after { background-image: repeating-linear-gradient(0deg, rgba(255,255,255,1) 0px, transparent 0.5px, transparent calc(var(--scan-size) * var(--scan-density))) !important; animation: none !important; }
        ".

Definition mask_css_soft : string :=
  "
          .crt-scanlines { background-image: repeating-linear-gradient(0deg, rgba(0,0,0,0) 0px, rgba(0,0,0,calc(var(--scanline-color) * 0.6)) calc(var(--scan-size) * 0.5), rgba(0,0,0,0) var(--scan-size)) !important; }
          .crt-scanlines::after { 
            background-image: repeating-linear-gradient(0deg, rgba(255,255,255,0.6) 0px, rgba(255,255,255,0.4) 0.5px, transparent 0.8px, transparent calc(var(--scan-size) * var(--scan-density))) !important; 
            animation: interlaceSoft var(--interlace-speed) ease-in-out infinite !important;
          }
          @keyframes interlaceSoft {
            0%, 100% { transform: translateY(0); opacity: var(--hairline-opacity); }
            50% { transform: translateY(0.5px); opacity: calc(var(--hairline-opacity) * 0.8); }
          }
        ".

Definition mask_css_shadow_mask : string :=
  "
          .crt-scanlines { background-image: repeating-linear-gradient(0deg, transparent 0px, transparent calc(var(--scan-size) - 0.5px), rgba(0,0,0,calc(0.65 * (1 - var(--scanline-color)))) calc(var(--scan-size) - 0.5px), rgba(0,0,0,calc(0.65 * (1 - var(--scanline-color)))) var(--scan-size)) !important; }
          .crt-scanlines::after { 
            background-image: repeating-linear-gradient(0deg, rgba(255,255,255,1) 0px, rgba(255,255,255,0.85) 0.8px, transparent 0.8px, transparent calc(var(--scan-size) * var(--scan-density))) !important; 
            animation: interlace var(--interlace-speed) steps(2) infinite !important;
          }
        ".

(** The text [applyScanlineMask()] assigns to the mask style element. *)
Definition scanline_mask_css (c : gmap string value) : string :=
  let mask := prop c "scanlineMask" in
  if strict_eq_str mask "aperture-grille" then mask_css_aperture_grille
  else if strict_eq_str mask "slot-mask" then mask_css_slot_mask
  else if strict_eq_str mask "sharp" then mask_css_sharp
  else if strict_eq_str mask "soft" then mask_css_soft
  else mask_css_shadow_mask.

(** Everything a projection of the configuration shows: the container's
    custom properties and mask style sheet, the host and bloom layer
    styles, the injected rule and the document. *)
Record presentation : Type := Presentation {
  shown_properties : list (string * string);
  shown_mask : string;
  shown_host : host_style;
  shown_layer : option layer_style;
  shown_rule : option string;
  shown_doc : page
}.

(** What is shown once [updateStyles()] and [updateBarrel()] have run, as
    at the end of [applyPreset] and of [connectedCallback]. *)
Definition shown (st : crt) : presentation :=
  let st' := updateBarrel (updateStyles st) in
  Presentation (container_properties (config st)) (scanline_mask_css (config st))
    (host st') (externalBloomLayer st') (globalStyle st') (doc st').

(** ** Auxiliary definitions for the further properties *)

(** [st'] is [st] up to what a projection may write: the configuration,
    the attributes, the uid and the lifecycle flags are those of [st]. *)
Definition same_element (st st' : crt) : Prop :=
  config st' = config st ∧ attributes st' = attributes st ∧ uid st' = uid st ∧
  container st' = container st ∧ initialized st' = initialized st.

(** The attributes the hook binds by presence. *)
Definition flag_attributes : list string := ["flicker"; "controls"; "reflection"].

(** The attribute names of a preset's keys are distinct, and only the
    keys [flicker] and [reflection] have the attribute names [flicker] and
    [reflection]. *)
Definition preset_names_ok (p : list (string * value)) : bool :=
  bool_decide (NoDup (kebab <$> p.*1))
  && forallb (fun kv =>
                implb (String.eqb (kebab kv.1) "flicker") (String.eqb kv.1 "flicker")
                && implb (String.eqb (kebab kv.1) "reflection")
                         (String.eqb kv.1 "reflection")) p.

(** The parts of the projections, as functions of the configuration: the
    z-index string and the host and layer styles of [updateModeZIndex],
    the backdrop filter of [updateExternalBloomLayer], and the rule text
    of [applyGlobalFilters]. *)
Definition mode_zIndex (c : gmap string value) : string :=
  number_to_string
    (if strict_eq_num (prop c "mode") (Fin 1) then fin (-1)
     else if strict_eq_num (prop c "mode") (Fin 2) then fin 9999
     else fin (-1)).

Definition mode_host (c : gmap string value) (h : host_style) : host_style :=
  if strict_eq_num (prop c "mode") (Fin 0)
  then HostStyle (Some "hidden") (Some "none") (zIndex h)
  else HostStyle (Some "visible") (Some "none") (Some (mode_zIndex c)).

Definition mode_layer (c : gmap string value) (l : layer_style) : layer_style :=
  if strict_eq_num (prop c "mode") (Fin 0) then layer_hide l
  else layer_show (mode_zIndex c) l.

Definition bloom_filter (c : gmap string value) : filter_value :=
  let b := to_number (prop c "bloom") in
  if lt b (fin 0.05) then FilterNone
  else BlurBrightness
         (min (mul (to_number (prop c "bloomBlur")) (max (fin 0.15) b)) (fin 1.5))
         (add (Fin 1) (mul (mul b (to_number (prop c "bloomBrightness"))) (fin 0.4))).

Definition filter_rule (st : crt) : option string :=
  match globalStyle st with
  | Some _ =>
      if truthy (filter_target st) then
        Some ("body." ++ bodyClass st ++ " " ++ to_string (filter_target st) ++
              " { filter: var(" ++ varName st ++ ", none) !important; }")
      else Some EmptyString
  | None => None
  end.

(** [st] with another host style, bloom layer, injected rule and document. *)
Definition with_presentation (h : host_style) (l : option layer_style)
    (g : option string) (d : page) (st : crt) : crt :=
  Crt (config st) (attributes st) (uid st) (initialized st) (container st) h l g d.

(** [st'] differs from [st] in the document only under the custom
    property and the body class of the element itself. *)
Definition doc_elsewhere (st st' : crt) : Prop :=
  uid st' = uid st ∧
  (∀ v, v ≠ varName st → root_vars (doc st') !! v = root_vars (doc st) !! v) ∧
  (∀ c, c ≠ bodyClass st → c ∈ body_classes (doc st') ↔ c ∈ body_classes (doc st)).

(** A bloom layer as [createExternalBloomLayer] makes it, before it is
    styled. *)
Definition blank_layer : layer_style := LayerStyle None None None None.



(** The configuration keys never read by the component. *)
Definition unread_keys : list string := ["bloomColor"; "legacyInterlace"; "legacyBloom"].

(** The configuration keys read to produce what is shown. *)
Definition shown_keys : list string :=
  [ "scanOpacity"; "scanlineColor"; "hairlineOpacity"; "fringeOpacity";
    "fringeJitterSpeed"; "fringeJitterAmount"; "noiseOpacity"; "scanSize";
    "scanDensity"; "phosphorSize"; "phosphorOpacityRed"; "phosphorOpacityGreen";
    "phosphorOpacityBlue"; "bloom"; "fringeDominant"; "bloomRadius"; "bloomDecay";
    "vignetteOpacity"; "vignetteRadius"; "vignetteFeather"; "vignetteColorLight";
    "vignetteColorDark"; "reflectionOpacity"; "reflectionSize"; "reflectionPositionX";
    "reflectionPositionY"; "colorPaletteShift"; "interlaceSpeed"; "flickerOpacity";
    "scanlineMask"; "mode"; "bloomBlur"; "bloomBrightness"; "barrel"; "applyBarrelTo" ].

(** The mask names with a [case] of their own in [applyScanlineMask]. *)
Definition named_masks : list string := ["aperture-grille"; "slot-mask"; "sharp"; "soft"].

(** The two lowercase hexadecimal digits of a byte. *)
Definition hex_byte (n : Z) : string :=
  String (hex_char (n / 16)) (String (hex_char (n mod 16)) EmptyString).

(** The characters [parseInt(_, 16)] reads as digits. *)
Definition hex_chars : list ascii := list_ascii_of_string "0123456789abcdefABCDEF".

(** [s.toLowerCase()]. *)
Fixpoint lower_string (s : string) : string :=
  match s with
  | EmptyString => EmptyString
  | String c r => String (to_lower c) (lower_string r)
  end.

(** Every control's attribute is mapped to the control's key and is read
    through [parseFloat]. *)
Definition control_ok (ka : string * string) : bool :=
  bool_decide (attribute_key ka.2 = Some ka.1)
  && bool_decide (ka.2 ∉ ["flicker"; "controls"; "reflection"; "apply-barrel-to";
                          "mode"; "bloom-color"]).

(** * Properties *)

(** Split a conjunction into its conjuncts, leaving equations alone. *)
Ltac split_ands := repeat match goal with |- _ ∧ _ => split end.

(** Membership of a literal name in a literal list, by evaluation. *)
Ltac not_observed :=
  refine (proj1 (bool_decide_eq_false _) _); vm_compute; reflexivity.

(** Rewrite every read of [c] with the hypothesis [H] on the keys read. *)
Ltac read_props c H :=
  repeat match goal with
         | |- context [prop c ?k] =>
             rewrite (H k) by (refine (proj1 (bool_decide_eq_true _) _); vm_compute; reflexivity)
         end.

(** ** The primitives on sample inputs *)

Example parseFloat_samples :
  parseFloat_str "0.85" = fin 0.85 ∧ parseFloat_str "  12px" = fin 12 ∧
  parseFloat_str "-.5e-2" = fin (-0.005) ∧ parseFloat_str "5." = fin 5 ∧
  parseFloat_str "1e" = fin 1 ∧ parseFloat_str "-Infinity" = Inf true ∧
  parseFloat_str "abc" = NaN ∧ parseFloat_str EmptyString = NaN ∧ parseFloat_str "." = NaN ∧
  parseFloat VNull = NaN.
Proof. split_ands; vm_compute; reflexivity. Qed.

Example parseInt_samples :
  parseInt_str "0" = fin 0 ∧ parseInt_str "2" = fin 2 ∧ parseInt_str " -17.9" = fin (-17) ∧
  parseInt_str "5px" = fin 5 ∧ parseInt_str "top" = NaN ∧ parseInt VNull = NaN.
Proof. split_ands; vm_compute; reflexivity. Qed.

Example number_to_string_samples :
  number_to_string (fin 0.85) = "0.85" ∧ number_to_string (fin 1400) = "1400" ∧
  number_to_string (fin (-40)) = "-40" ∧ number_to_string (fin 0) = "0" ∧
  number_to_string (fin 0.000001) = "0.000001" ∧ number_to_string (fin 1e-7) = "1e-7" ∧
  number_to_string (fin 1e21) = "1e+21" ∧ number_to_string (fin 123456.789) = "123456.789" ∧
  number_to_string (mul (fin 0.32) (fin 11)) = "3.52".
Proof. split_ands; vm_compute; reflexivity. Qed.

Example kebab_samples :
  kebab "scanOpacity" = "scan-opacity" ∧
  kebab "reflectionPositionX" = "reflection-position-x" ∧ kebab "bloom" = "bloom".
Proof. split_ands; vm_compute; reflexivity. Qed.

(** Every key of the hook's map is the camel-case form of its attribute
    name, so [updateConfig] and [applyPreset] reach the attribute they
    mean. *)
Example attribute_names_are_kebab_keys :
  forallb (fun nk => String.eqb (kebab nk.2) nk.1) attribute_map = true.
Proof. vm_compute. reflexivity. Qed.

(** ** Projections never write the configuration *)

Lemma config_updateModeZIndex st : config (updateModeZIndex st) = config st.
Proof. unfold updateModeZIndex. by destruct (strict_eq_num _ _). Qed.

Lemma config_applyGlobalFilters bfv st : config (applyGlobalFilters bfv st) = config st.
Proof. reflexivity. Qed.

Lemma config_updateExternalBloomLayer st :
  config (updateExternalBloomLayer st) = config st.
Proof.
  unfold updateExternalBloomLayer.
  destruct (externalBloomLayer st); [|done].
  destruct (lt _ _); cbn; apply config_updateModeZIndex.
Qed.

Lemma config_updateStyles st : config (updateStyles st) = config st.
Proof.
  unfold updateStyles. destruct (container st); [|done].
  rewrite config_applyGlobalFilters, config_updateExternalBloomLayer.
  apply config_updateModeZIndex.
Qed.

Lemma config_updateBarrel st : config (updateBarrel st) = config st.
Proof. reflexivity. Qed.

Create Rewrite HintDb projections.
#[local] Hint Rewrite config_updateModeZIndex config_applyGlobalFilters
  config_updateExternalBloomLayer config_updateStyles config_updateBarrel : projections.

Lemma config_reproject name st : config (reproject name st) = config st.
Proof.
  unfold reproject. destruct (container st); [|done].
  repeat match goal with
         | |- context [if ?b then _ else _] => destruct b
         end;
    autorewrite with projections; done.
Qed.

(** The configuration after the attribute hook: untouched when the value
    did not change or the name is not in the map, otherwise the binding. *)
Lemma config_attributeChangedCallback name oldValue newValue st :
  config (attributeChangedCallback name oldValue newValue st) =
  if decide (oldValue = newValue) then config st
  else match attribute_key name with
       | None => config st
       | Some key => bind_attribute name key newValue (config st)
       end.
Proof.
  unfold attributeChangedCallback. case_decide; [done|].
  destruct (attribute_key name); [|done].
  by rewrite config_reproject.
Qed.

Lemma setAttribute_unobserved name value st :
  name ∉ observedAttributes →
  setAttribute name value st = set_attributes (<[name := value]> (attributes st)) st.
Proof. intros H. unfold setAttribute. by rewrite bool_decide_eq_false_2. Qed.

Lemma setAttribute_observed name value st :
  name ∈ observedAttributes →
  setAttribute name value st =
  attributeChangedCallback name (attributes st !! name) (Some value)
    (set_attributes (<[name := value]> (attributes st)) st).
Proof. intros H. unfold setAttribute. by rewrite bool_decide_eq_true_2. Qed.

(** ** Reading and binding configuration keys *)

Lemma prop_insert_eq c key v : prop (<[key := v]> c) key = v.
Proof. unfold prop. by rewrite lookup_insert_eq. Qed.

Lemma prop_insert_ne c key v k : key ≠ k → prop (<[key := v]> c) k = prop c k.
Proof. intros Hne. unfold prop. by rewrite lookup_insert_ne. Qed.

Lemma prop_insert_same c key k : prop (<[key := prop c key]> c) k = prop c k.
Proof.
  unfold prop. destruct (decide (key = k)) as [->|Hne].
  - by rewrite lookup_insert_eq.
  - by rewrite lookup_insert_ne.
Qed.

Lemma bind_attribute_insert name key newValue c :
  bind_attribute name key newValue c =
  <[bound_key name key := bound_value name newValue (prop c key)]> c.
Proof.
  unfold bind_attribute, bound_key, bound_value.
  repeat match goal with
         | |- context [if ?b then _ else _] => destruct b
         end; reflexivity.
Qed.

Lemma float_kind_binding name key newValue c :
  float_kind name →
  bind_attribute name key newValue c =
  <[key := if is_nan (parseFloat (attr_value newValue)) then prop c key
           else VNum (parseFloat (attr_value newValue))]> c.
Proof.
  intros [_ Hn]. rewrite bind_attribute_insert. unfold bound_key, bound_value.
  repeat (apply not_elem_of_cons in Hn as [?%String.eqb_neq Hn]).
  repeat match goal with H : String.eqb _ _ = false |- _ => rewrite H; clear H end.
  reflexivity.
Qed.

(** ** C1: numeric attributes are stored as parsed *)

(** What the attribute path stores for a numeric attribute is the parsed
    number itself, whatever the declared range of the parameter. *)
Lemma numeric_attribute_stored_as_parsed name key raw st :
  name ∈ observedAttributes →
  attribute_key name = Some key →
  float_kind name →
  attributes st !! name ≠ Some raw →
  parseFloat (VStr raw) ≠ NaN →
  prop (config (setAttribute name raw st)) key = VNum (parseFloat (VStr raw)).
Proof.
  intros Hobs Hkey Hfk Hold Hparse.
  rewrite setAttribute_observed, config_attributeChangedCallback by done.
  case_decide; [done|]. rewrite Hkey, float_kind_binding by done.
  cbn [attr_value]. destruct (parseFloat (VStr raw)); [done| |]; apply prop_insert_eq.
Qed.

(** C1 (code defect). The claim says a numeric value written through the
    attribute path is clamped to its declared range. The attribute hook
    stores whatever [parseFloat] returns: on a new element, whose
    [scanOpacity] has the declared range 0..1, writing "-1" stores -1 (not
    0) and writing "2" stores 2 (not 1), through [setAttribute] as well as
    through [updateConfig]; only the in-range midpoint "0.5" is stored as
    the claim says. *)
Theorem C1_out_of_range_stored_unclamped (id : string) :
  (list_to_map declared_range : gmap string (Q * Q)) !! "scanOpacity" = Some (0, 1)%Q ∧
  prop (config (setAttribute "scan-opacity" "-1" (new_crt id))) "scanOpacity" = num (-1) ∧
  prop (config (setAttribute "scan-opacity" "2" (new_crt id))) "scanOpacity" = num 2 ∧
  prop (config (updateConfig [("scanOpacity", num (-1))] (new_crt id))) "scanOpacity"
    = num (-1) ∧
  prop (config (setAttribute "scan-opacity" "0.5" (new_crt id))) "scanOpacity" = num 0.5.
Proof. split_ands; vm_compute; reflexivity. Qed.

(** ** C2: the mode attribute *)

(** C2 (code defect). The claim says the attribute value "0" stores mode
    0. In [parseInt(newValue, 10) || 1] the parsed 0 is falsy, so "0"
    stores 1; "1" and "2" store 1 and 2. On a connected element the host
    therefore stays visible after [mode="0"]. *)
Theorem C2_mode_zero_stores_one (id : string) :
  prop (config (setAttribute "mode" "0" (new_crt id))) "mode" = num 1 ∧
  prop (config (setAttribute "mode" "1" (setAttribute "mode" "2" (new_crt id)))) "mode"
    = num 1 ∧
  prop (config (setAttribute "mode" "2" (new_crt id))) "mode" = num 2 ∧
  visibility (host (setAttribute "mode" "0" (connectedCallback (new_crt id))))
    = Some "visible".
Proof. split_ands; vm_compute; reflexivity. Qed.

(** ** C5: attributes missing from [observedAttributes] *)

(** C5 (code defect). The claim says every documented parameter can be
    set through its attribute. Nine attributes have an entry in the map of
    the attribute hook but are not observed, so the hook never runs for
    them: whatever the state and the value, [setAttribute] leaves the
    configuration as it was, and so does the bulk update, for instance of
    [bloomBrightness]. Even when the hook is called directly,
    [scanline-mask] goes through [parseFloat], so a mask name is dropped. *)
Theorem C5_unobserved_attributes_not_bound :
  Forall (fun name =>
            is_Some (attribute_key name) ∧
            ∀ st value, config (setAttribute name value st) = config st)
         unobserved_attributes ∧
  (∀ st, config (updateConfig [("bloomBrightness", num 1.5)] st) = config st) ∧
  (∀ id, prop (config (attributeChangedCallback "scanline-mask" None (Some "sharp")
                        (new_crt id))) "scanlineMask" = VStr "shadow-mask").
Proof.
  split; [|split].
  - unfold unobserved_attributes.
    repeat (constructor;
            [ split; [ by vm_compute; eexists
                     | intros st value; rewrite setAttribute_unobserved;
                       [done | not_observed] ]
            | ]).
    constructor.
  - intros st. cbn [updateConfig foldl fst snd].
    rewrite setAttribute_unobserved; [done | not_observed].
  - intros id. by vm_compute.
Qed.

(** ** C3: applying a preset *)

Lemma number_eqb_eq a b : number_eqb a b = true → a = b.
Proof.
  destruct a as [|s|[pn pd]], b as [|t|[qn qd]]; cbn; try done.
  - intros H. by apply Bool.eqb_true_iff in H as ->.
  - intros [H1 H2]%andb_true_iff.
    apply Z.eqb_eq in H1. apply Pos.eqb_eq in H2. by subst.
Qed.

Lemma value_eqb_eq a b : value_eqb a b = true → a = b.
Proof.
  destruct a, b; cbn; try done.
  - intros H. by apply Bool.eqb_true_iff in H as ->.
  - intros H. by apply number_eqb_eq in H as ->.
  - intros H. by apply String.eqb_eq in H as ->.
Qed.

Lemma presets_ok : forallb (fun np => preset_ok np.2) presets = true.
Proof. vm_compute. reflexivity. Qed.

Lemma getPreset_ok name preset : getPreset name = Some preset → preset_ok preset = true.
Proof.
  intros H. unfold getPreset in H.
  apply elem_of_list_to_map_2, list_elem_of_In in H.
  pose proof presets_ok as Hall. rewrite forallb_forall in Hall.
  apply (Hall _ H).
Qed.

Lemma Object_assign_notin c l k :
  k ∉ l.*1 → Object_assign c l !! k = c !! k.
Proof.
  revert c. induction l as [|[k0 v0] l IH]; intros c Hk; [done|].
  cbn in Hk. apply not_elem_of_cons in Hk as [Hne Hk].
  unfold Object_assign in *. cbn. rewrite IH by done.
  by rewrite lookup_insert_ne.
Qed.

Lemma Object_assign_in c l k v :
  NoDup l.*1 → (k, v) ∈ l → Object_assign c l !! k = Some v.
Proof.
  revert c. induction l as [|[k0 v0] l IH]; intros c Hnd Hin.
  - by apply elem_of_nil in Hin.
  - cbn in Hnd. apply NoDup_cons in Hnd as [Hk0 Hnd].
    apply elem_of_cons in Hin as [Heq|Hin].
    + injection Heq as -> ->.
      change (Object_assign (<[k0:=v0]> c) l !! k0 = Some v0).
      rewrite Object_assign_notin by done. apply lookup_insert_eq.
    + change (Object_assign (<[k0:=v0]> c) l !! k = Some v). by apply IH.
Qed.

Lemma preset_step_lookup kv st k' :
  entry_stable kv = true →
  (is_flag_key kv.1 = false → config st !! kv.1 = Some kv.2) →
  (k' = kv.1 → is_flag_key kv.1 = false) →
  config (preset_step st kv) !! k' = config st !! k'.
Proof.
  destruct kv as [k v]. unfold entry_stable, preset_step, setAttribute. cbn [fst snd].
  intros Hst Hcur Hk'.
  destruct (bool_decide (kebab k ∈ observedAttributes)); [|done].
  rewrite config_attributeChangedCallback. case_decide; [done|].
  destruct (attribute_key (kebab k)) as [key|]; [|done].
  apply andb_true_iff in Hst as [[Hkey Hbk]%andb_true_iff Hval].
  apply String.eqb_eq in Hkey as ->. apply String.eqb_eq in Hbk.
  rewrite bind_attribute_insert, Hbk. cbn [config set_attributes].
  destruct (decide (k' = k)) as [->|Hne].
  - specialize (Hk' eq_refl). rewrite Hk' in Hval. cbn in Hval.
    specialize (Hcur Hk'). unfold prop. rewrite Hcur. cbn.
    apply value_eqb_eq in Hval. by rewrite Hval, lookup_insert_eq.
  - by rewrite lookup_insert_ne.
Qed.

Lemma preset_loop_lookup l st k' :
  forallb entry_stable l = true →
  (∀ k v, (k, v) ∈ l → is_flag_key k = false → config st !! k = Some v) →
  is_flag_key k' = false ∨ k' ∉ l.*1 →
  config (foldl preset_step st l) !! k' = config st !! k'.
Proof.
  revert st. induction l as [|kv l IH]; intros st Hall Hcur Hk'; [done|].
  cbn in Hall. apply andb_true_iff in Hall as [Hkv Hall].
  assert (Hstep : ∀ k, (k = kv.1 → is_flag_key kv.1 = false) →
                       config (preset_step st kv) !! k = config st !! k).
  { intros k Hk. apply preset_step_lookup; [done| |done].
    intros Hf. apply Hcur; [|done]. destruct kv. by left. }
  cbn [foldl]. rewrite IH.
  - apply Hstep. intros ->. destruct Hk' as [Hf|Hn]; [done|].
    exfalso. apply Hn. cbn. by left.
  - done.
  - intros k v Hin Hf. rewrite Hstep by (by intros ->).
    apply Hcur; [by right|done].
  - destruct Hk' as [Hf|Hn]; [by left|right].
    intros Hin. apply Hn. cbn. by right.
Qed.

Lemma is_flag_key_false key :
  key ≠ "flicker" → key ≠ "reflection" → is_flag_key key = false.
Proof.
  intros H1 H2. unfold is_flag_key.
  apply orb_false_iff. split; by apply String.eqb_neq.
Qed.

Lemma config_applyPreset preset st :
  config (applyPreset preset st) =
  config (foldl preset_step (set_config (Object_assign (config st) preset) st) preset).
Proof.
  unfold applyPreset. by autorewrite with projections.
Qed.

(** C3 (amended). For every preset of the table and every prior state,
    [applyPreset] leaves each key that the preset lists, other than
    [flicker] and [reflection], at the preset's value, and leaves every key
    that the preset does not list ([mode], [controls], [applyBarrelTo],
    [legacyInterlace], [legacyBloom]) at its prior value; hence a second
    application changes no key other than [flicker] and [reflection]. *)
Theorem C3_preset_overwrites_listed_keys name preset st :
  getPreset name = Some preset →
  (∀ key v, (key, v) ∈ preset → key ≠ "flicker" → key ≠ "reflection" →
            config (applyPreset preset st) !! key = Some v) ∧
  (∀ key, key ∉ preset.*1 →
          config (applyPreset preset st) !! key = config st !! key) ∧
  (∀ key, key ≠ "flicker" → key ≠ "reflection" →
          config (applyPreset preset (applyPreset preset st)) !! key
          = config (applyPreset preset st) !! key).
Proof.
  intros Hget. apply getPreset_ok in Hget.
  apply andb_true_iff in Hget as [Hnd Hall]. apply bool_decide_eq_true_1 in Hnd.
  assert (Hlisted : ∀ st key v, (key, v) ∈ preset → key ≠ "flicker" → key ≠ "reflection" →
                      config (applyPreset preset st) !! key = Some v).
  { intros st' key v Hin H1 H2. rewrite config_applyPreset.
    rewrite preset_loop_lookup; [by apply Object_assign_in|done| |].
    - intros k w Hkw _. by apply Object_assign_in.
    - left. by apply is_flag_key_false. }
  assert (Hother : ∀ st key, key ∉ preset.*1 →
                     config (applyPreset preset st) !! key = config st !! key).
  { intros st' key Hnot. rewrite config_applyPreset.
    rewrite preset_loop_lookup; [by apply Object_assign_notin|done| |by right].
    intros k w Hkw _. by apply Object_assign_in. }
  split; [apply Hlisted|]. split; [apply Hother|].
  intros key H1 H2. destruct (decide (key ∈ preset.*1)) as [Hin|Hnot].
  - apply list_elem_of_fmap in Hin as ([k v] & -> & Hin). cbn [fst] in H1, H2 |- *.
    rewrite (Hlisted (applyPreset preset st) k v) by done.
    by rewrite (Hlisted st k v).
  - by rewrite Hother.
Qed.

(** C3 (witness). Preset "arcade-crt" applied after [barrel="6"] and
    [mode="2"]: the barrel is the preset's 4.8, the mode is still 2. *)
Lemma C3_preset_overwrites_listed_keys_witness :
  let preset := default [] (getPreset "arcade-crt") in
  let st := setAttribute "mode" "2" (setAttribute "barrel" "6" (new_crt "a")) in
  getPreset "arcade-crt" = Some preset ∧
  config (applyPreset preset st) !! "barrel" = Some (num 4.8) ∧
  config (applyPreset preset st) !! "mode" = Some (num 2).
Proof.
  intros preset st.
  assert (Hget : getPreset "arcade-crt" = Some preset) by (vm_compute; reflexivity).
  destruct (C3_preset_overwrites_listed_keys "arcade-crt" preset st Hget)
    as (Hlisted & Hother & _).
  split; [exact Hget|]. split.
  - apply Hlisted; [|done|done].
    apply (list_elem_of_lookup_2 _ 8). vm_compute. reflexivity.
  - rewrite Hother; [vm_compute; reflexivity|].
    refine (proj1 (bool_decide_eq_false _) _). vm_compute. reflexivity.
Defined.

(** C3 (counterexample). The claim says the whole configuration after a
    preset does not depend on the configuration before it, and that two
    applications give the same configuration. [Object.assign] keeps the
    keys a preset does not list: after preset "default" the mode is still
    the prior one, 1 on a new element and 2 once [mode="2"] was set. And
    the first application of "studio-display-crt" to a new element ends
    with [flicker] true (the hook binds the attribute value "false" by
    presence), the second one with [flicker] false. *)
Lemma C3_counterexample :
  let st1 := new_crt "a" in
  let st2 := setAttribute "mode" "2" (new_crt "a") in
  (prop (config (select_preset "default" st1)) "mode" = num 1 ∧
   prop (config (select_preset "default" st2)) "mode" = num 2 ∧
   config (select_preset "default" st1) ≠ config (select_preset "default" st2)) ∧
  (prop (config (select_preset "studio-display-crt" st1)) "flicker" = VBool true ∧
   prop (config (select_preset "studio-display-crt"
                   (select_preset "studio-display-crt" st1))) "flicker" = VBool false ∧
   config (select_preset "studio-display-crt" (select_preset "studio-display-crt" st1))
     ≠ config (select_preset "studio-display-crt" st1)).
Proof.
  intros st1 st2.
  assert (H1 : prop (config (select_preset "default" st1)) "mode" = num 1)
    by (vm_compute; reflexivity).
  assert (H2 : prop (config (select_preset "default" st2)) "mode" = num 2)
    by (vm_compute; reflexivity).
  assert (H3 : prop (config (select_preset "studio-display-crt" st1)) "flicker" = VBool true)
    by (vm_compute; reflexivity).
  assert (H4 : prop (config (select_preset "studio-display-crt"
                 (select_preset "studio-display-crt" st1))) "flicker" = VBool false)
    by (vm_compute; reflexivity).
  split_ands; try assumption.
  - intros Heq. rewrite Heq, H2 in H1. discriminate H1.
  - intros Heq. rewrite Heq, H3 in H4. discriminate H4.
Qed.

(** ** C4 and C8: the bloom approximation *)

Lemma Qlt_bool_true p q : Qlt_bool p q = true ↔ (p < q)%Q.
Proof.
  unfold Qlt_bool. rewrite negb_true_iff, <- not_true_iff_false, Qle_bool_iff.
  split; [apply Qnot_le_lt | apply Qlt_not_le].
Qed.

Lemma Qlt_bool_false p q : Qlt_bool p q = false ↔ (q <= p)%Q.
Proof. unfold Qlt_bool. by rewrite negb_false_iff, Qle_bool_iff. Qed.

(** Inside the dead zone the layer gets ['none'] for both properties. *)
Lemma bloom_dead_zone st :
  lt (to_number (prop (config st) "bloom")) (fin 0.05) = true →
  externalBloomLayer (updateExternalBloomLayer st)
  = layer_filter FilterNone <$> externalBloomLayer (updateModeZIndex st).
Proof.
  intros Hlt. unfold updateExternalBloomLayer.
  destruct (externalBloomLayer st) eqn:Hl.
  - by rewrite Hlt.
  - unfold updateModeZIndex. destruct (strict_eq_num _ _); cbn; by rewrite Hl.
Qed.

(** Outside of it the layer gets the blur and brightness the source
    computes: the blur is capped by [Math.min(blurPx, 1.5)]. *)
Lemma bloom_active st :
  is_Some (externalBloomLayer st) →
  lt (to_number (prop (config st) "bloom")) (fin 0.05) = false →
  let b := to_number (prop (config st) "bloom") in
  let blurPx := mul (to_number (prop (config st) "bloomBlur")) (max (fin 0.15) b) in
  let bright := add (Fin 1)
                    (mul (mul b (to_number (prop (config st) "bloomBrightness")))
                         (fin 0.4)) in
  externalBloomLayer (updateExternalBloomLayer st)
  = layer_filter (BlurBrightness (min blurPx (fin 1.5)) bright)
      <$> externalBloomLayer (updateModeZIndex st).
Proof.
  intros [l Hl] Hlt. unfold updateExternalBloomLayer.
  by rewrite Hl, Hlt, config_updateModeZIndex.
Qed.

Lemma layer_after_updateModeZIndex st :
  is_Some (externalBloomLayer st) → is_Some (externalBloomLayer (updateModeZIndex st)).
Proof.
  intros [l Hl]. unfold updateModeZIndex.
  destruct (strict_eq_num _ _); cbn; rewrite Hl; by eexists.
Qed.

(** C4 (code defect). The claim, like the README ("capped at 2.5px"),
    puts the ceiling of the blur at 2.5. The source caps it with
    [Math.min(blurPx, 1.5)]: on a connected element with the default bloom
    0.15 and brightness 1.2, after [bloom-blur="20"] the scaled blur is
    20 * 0.15 = 3 and the emitted blur is 1.5, where a 2.5 ceiling would
    give 2.5. The brightness is the claimed 1 + 0.15 * 1.2 * 0.4 = 1.072. *)
Theorem C4_blur_capped_at_one_and_a_half (id : string) :
  let st := setAttribute "bloom-blur" "20" (connectedCallback (new_crt id)) in
  prop (config st) "bloom" = num 0.15 ∧
  prop (config st) "bloomBlur" = num 20 ∧
  prop (config st) "bloomBrightness" = num 1.2 ∧
  backdropFilter <$> externalBloomLayer st
    = Some (Some (BlurBrightness (fin 1.5) (fin 1.072))) ∧
  min (mul (fin 20) (max (fin 0.15) (fin 0.15))) (fin 2.5) = fin 2.5.
Proof. intros st. split_ands; vm_compute; reflexivity. Qed.

(** C8. With a bloom layer present: when the stored bloom strength is
    below 0.05, both backdrop-filter properties are set to ['none'], so no
    blur and no brightness is emitted; when it is exactly 0.05 and the
    configured blur amount is a finite number other than 0 (its declared
    range is 2..40), a blur/brightness pair is emitted whose blur is not
    zero and at most 2.5. *)
Theorem C8_bloom_dead_zone st :
  is_Some (externalBloomLayer st) →
  (lt (to_number (prop (config st) "bloom")) (fin 0.05) = true →
   backdropFilter <$> externalBloomLayer (updateExternalBloomLayer st)
     = Some (Some FilterNone) ∧
   webkitBackdropFilter <$> externalBloomLayer (updateExternalBloomLayer st)
     = Some (Some FilterNone)) ∧
  (∀ b q, to_number (prop (config st) "bloom") = Fin b → (b == 0.05)%Q →
          to_number (prop (config st) "bloomBlur") = Fin q → ¬ (q == 0)%Q →
          ∃ blur bright,
            backdropFilter <$> externalBloomLayer (updateExternalBloomLayer st)
              = Some (Some (BlurBrightness (Fin blur) bright)) ∧
            ¬ (blur == 0)%Q ∧ (blur <= 2.5)%Q).
Proof.
  intros Hl. pose proof (layer_after_updateModeZIndex st Hl) as [l' Hl'].
  split.
  - intros Hlt. rewrite bloom_dead_zone, Hl' by done. done.
  - intros b q Hb Hb05 Hq Hq0.
    assert (Hlt : lt (to_number (prop (config st) "bloom")) (fin 0.05) = false).
    { rewrite Hb. cbn. apply Qlt_bool_false. rewrite Qred_correct, Hb05. apply Qle_refl. }
    rewrite (bloom_active st Hl Hlt), Hl', Hb, Hq. cbn [fmap option_fmap option_map].
    assert (Hmax : max (fin 0.15) (Fin b) = fin 0.15).
    { unfold max. cbn [is_nan fin orb lt].
      replace (Qlt_bool (Qred 0.15) b) with false; [done|].
      symmetry. apply Qlt_bool_false. rewrite Qred_correct, Hb05. done. }
    rewrite Hmax. unfold min, mul, fin. cbn [is_nan orb lt].
    destruct (Qlt_bool (Qred 1.5) (Qred (q * Qred 0.15))) eqn:Hcap.
    + eexists _, _. split; [reflexivity|]. split; rewrite Qred_correct; [done|].
      apply Qle_bool_iff. reflexivity.
    + eexists _, _. split; [reflexivity|].
      apply Qlt_bool_false in Hcap. rewrite !Qred_correct in Hcap.
      rewrite !Qred_correct. split.
      * intros H0. apply Hq0. lra.
      * lra.
Qed.

(** C8 (witness). A connected element after [bloom="0.03"] and after
    [bloom="0.05"], the blur amount being the default 10. *)
Lemma C8_bloom_dead_zone_witness :
  let st3 := setAttribute "bloom" "0.03" (connectedCallback (new_crt "a")) in
  let st5 := setAttribute "bloom" "0.05" (connectedCallback (new_crt "a")) in
  (is_Some (externalBloomLayer st3) ∧
   lt (to_number (prop (config st3) "bloom")) (fin 0.05) = true ∧
   backdropFilter <$> externalBloomLayer (updateExternalBloomLayer st3)
     = Some (Some FilterNone)) ∧
  (is_Some (externalBloomLayer st5) ∧
   ∃ blur bright,
     backdropFilter <$> externalBloomLayer (updateExternalBloomLayer st5)
       = Some (Some (BlurBrightness (Fin blur) bright)) ∧
     ¬ (blur == 0)%Q ∧ (blur <= 2.5)%Q).
Proof.
  intros st3 st5.
  assert (H3 : is_Some (externalBloomLayer st3)) by (vm_compute; eexists; reflexivity).
  assert (H5 : is_Some (externalBloomLayer st5)) by (vm_compute; eexists; reflexivity).
  assert (Hlt : lt (to_number (prop (config st3) "bloom")) (fin 0.05) = true)
    by (vm_compute; reflexivity).
  split.
  - split; [exact H3|]. split; [exact Hlt|].
    exact (proj1 (proj1 (C8_bloom_dead_zone st3 H3) Hlt)).
  - split; [exact H5|].
    apply (proj2 (C8_bloom_dead_zone st5 H5) (1 # 20) 10%Q).
    + vm_compute. reflexivity.
    + reflexivity.
    + vm_compute. reflexivity.
    + discriminate.
Defined.

(** ** C6 and C7: the page-wide filter *)

Lemma body_class_after_applyGlobalFilters bfv st :
  bodyClass st ∈ body_classes (doc (applyGlobalFilters bfv st)) ↔ page_filtered st = true.
Proof.
  unfold applyGlobalFilters. cbn [doc set_doc body_classes].
  destruct (page_filtered st); split; try done.
  - intros _. by apply elem_of_union_l, elem_of_singleton.
  - intros [_ Hnot]%elem_of_difference. exfalso. by apply Hnot, elem_of_singleton.
Qed.

(** What [applyGlobalFilters] leaves in the document depends on the
    element only through its configuration, its uid and the document. *)
Lemma doc_applyGlobalFilters_ext bfv st st' :
  config st = config st' → uid st = uid st' → doc st = doc st' →
  doc (applyGlobalFilters bfv st) = doc (applyGlobalFilters bfv st').
Proof.
  intros Hc Hu Hd.
  unfold applyGlobalFilters, filterChain, barrel_filter, page_filtered, varName,
    bodyClass, barrel_url.
  cbn [doc set_doc set_globalStyle config uid]. by rewrite Hc, Hu, Hd.
Qed.

Lemma uid_doc_updateModeZIndex st :
  uid (updateModeZIndex st) = uid st ∧ doc (updateModeZIndex st) = doc st.
Proof. unfold updateModeZIndex. by destruct (strict_eq_num _ _). Qed.

Lemma uid_doc_updateExternalBloomLayer st :
  uid (updateExternalBloomLayer st) = uid st ∧ doc (updateExternalBloomLayer st) = doc st.
Proof.
  unfold updateExternalBloomLayer. destruct (externalBloomLayer st); [|done].
  destruct (lt _ _); cbn; apply uid_doc_updateModeZIndex.
Qed.

(** [updateStyles()] on a rendered element and [updateBarrel()] leave in
    the document what [applyGlobalFilters()] leaves. *)
Lemma doc_updateStyles st :
  container st = true → doc (updateStyles st) = doc (applyGlobalFilters None st).
Proof.
  intros Hc. unfold updateStyles. rewrite Hc.
  destruct (uid_doc_updateModeZIndex st) as [Hu1 Hd1].
  destruct (uid_doc_updateExternalBloomLayer (updateModeZIndex st)) as [Hu2 Hd2].
  apply doc_applyGlobalFilters_ext.
  - by rewrite config_updateExternalBloomLayer, config_updateModeZIndex.
  - by rewrite Hu2.
  - by rewrite Hd2.
Qed.

Lemma doc_updateBarrel st : doc (updateBarrel st) = doc (applyGlobalFilters None st).
Proof.
  unfold updateBarrel, applyGlobalFilters, filterChain, barrel_filter.
  cbn [doc set_doc set_globalStyle config uid].
  by destruct (gt (to_number (prop (config st) "barrel")) (Fin 0)
               && gt (to_number (prop (config st) "mode")) (Fin 0)).
Qed.

(** C6 (amended). After [applyGlobalFilters], and so after
    [updateBarrel] and after [updateStyles] on a rendered element, the
    body carries the per-instance filtered class exactly when (the barrel
    amount is greater than 0 or the palette shift is not 0) and the mode is
    greater than 0; in particular a stored mode 0 keeps the class off
    whatever the other values are. *)
Theorem C6_page_filtered_iff st :
  let active :=
    (gt (to_number (prop (config st) "barrel")) (Fin 0) = true ∨
     strict_eq_num (prop (config st) "colorPaletteShift") (Fin 0) = false) ∧
    gt (to_number (prop (config st) "mode")) (Fin 0) = true in
  (∀ bfv, bodyClass st ∈ body_classes (doc (applyGlobalFilters bfv st)) ↔ active) ∧
  (bodyClass st ∈ body_classes (doc (updateBarrel st)) ↔ active) ∧
  (container st = true →
   bodyClass st ∈ body_classes (doc (updateStyles st)) ↔ active) ∧
  (strict_eq_num (prop (config st) "mode") (Fin 0) = true → ¬ active).
Proof.
  intros active.
  assert (Hact : ∀ bfv, bodyClass st ∈ body_classes (doc (applyGlobalFilters bfv st))
                        ↔ active).
  { intros bfv. rewrite body_class_after_applyGlobalFilters.
    unfold page_filtered, active.
    by rewrite andb_true_iff, orb_true_iff, negb_true_iff. }
  split; [exact Hact|]. split; [|split].
  - rewrite doc_updateBarrel. apply Hact.
  - intros Hc. rewrite doc_updateStyles by done. apply Hact.
  - intros Hm [_ Hgt].
    destruct (prop (config st) "mode") as [| | |[| |q]|]; try discriminate Hm.
    cbn in Hm, Hgt. apply Qeq_bool_iff in Hm. apply Qlt_bool_true in Hgt.
    rewrite Hm in Hgt. by apply Qlt_irrefl in Hgt.
Qed.

(** C6 (witness). Barrel 6, palette shift 180 and the mode assigned 0 on
    a connected element: the class is off after [updateStyles]. *)
Lemma C6_page_filtered_iff_witness :
  let st := assign "mode" (num 0)
              (setAttribute "color-palette-shift" "180"
                 (setAttribute "barrel" "6" (connectedCallback (new_crt "a")))) in
  (prop (config st) "barrel" = num 6 ∧ prop (config st) "colorPaletteShift" = num 180 ∧
   container st = true ∧
   strict_eq_num (prop (config st) "mode") (Fin 0) = true) ∧
  (bodyClass st ∉ body_classes (doc (updateStyles st))).
Proof.
  intros st.
  assert (Hm : strict_eq_num (prop (config st) "mode") (Fin 0) = true)
    by (vm_compute; reflexivity).
  assert (Hc : container st = true) by (vm_compute; reflexivity).
  destruct (C6_page_filtered_iff st) as (_ & _ & Hstyles & Hoff).
  split.
  - split_ands; try assumption; vm_compute; reflexivity.
  - intros Hin. exact (Hoff Hm (proj1 (Hstyles Hc) Hin)).
Defined.

(** C6 (counterexample). The claim ties the class to "the mode is not
    disabled", that is, not 0. [mode="-1"] stores -1: the overlay is shown
    as in mode 1, the barrel amount is the default 2, and yet the class is
    off, because the source tests [mode > 0]. *)
Lemma C6_counterexample :
  let st := setAttribute "mode" "-1" (connectedCallback (new_crt "a")) in
  prop (config st) "mode" = num (-1) ∧
  strict_eq_num (prop (config st) "mode") (Fin 0) = false ∧
  visibility (host st) = Some "visible" ∧
  gt (to_number (prop (config st) "barrel")) (Fin 0) = true ∧
  (bodyClass st ∉ body_classes (doc st)) ∧
  (bodyClass st ∉ body_classes (doc (applyGlobalFilters None st))).
Proof.
  intros st. split_ands; try (vm_compute; reflexivity).
  - refine (proj1 (bool_decide_eq_false _) _). vm_compute. reflexivity.
  - refine (proj1 (bool_decide_eq_false _) _). vm_compute. reflexivity.
Qed.

Lemma barrel_url_not_none st : String.eqb (barrel_url st) "none" = false.
Proof. reflexivity. Qed.

Lemma filter_chain_var bfv st :
  root_vars (doc (applyGlobalFilters bfv st)) !! varName st = Some (filterChain bfv st).
Proof. unfold applyGlobalFilters. cbn [doc set_doc root_vars]. apply lookup_insert_eq. Qed.

(** C7 (amended). [applyGlobalFilters()], and so [updateBarrel()] and,
    on a rendered element, [updateStyles()], store in the per-instance
    custom property: the distortion filter reference followed by one space
    and the hue-rotation filter when both are active, the active one alone
    when only one is, and "none" when neither is; the distortion filter
    being active when the barrel amount and the mode are both greater than
    0, the hue rotation when the palette shift is not 0. *)
Theorem C7_filter_chain st :
  let distortion := gt (to_number (prop (config st) "barrel")) (Fin 0)
                    && gt (to_number (prop (config st) "mode")) (Fin 0) in
  let hue := negb (strict_eq_num (prop (config st) "colorPaletteShift") (Fin 0)) in
  let chain :=
    match distortion, hue with
    | true, true => barrel_url st ++ " " ++ hue_filter st
    | true, false => barrel_url st
    | false, true => hue_filter st
    | false, false => "none"
    end in
  root_vars (doc (applyGlobalFilters None st)) !! varName st = Some chain ∧
  root_vars (doc (updateBarrel st)) !! varName st = Some chain ∧
  (container st = true →
   root_vars (doc (updateStyles st)) !! varName st = Some chain).
Proof.
  intros distortion hue chain.
  assert (Hchain : root_vars (doc (applyGlobalFilters None st)) !! varName st = Some chain).
  { rewrite filter_chain_var.
    unfold chain, distortion, hue, filterChain, barrel_filter, hue_filter.
    destruct (gt (to_number (prop (config st) "barrel")) (Fin 0)
              && gt (to_number (prop (config st) "mode")) (Fin 0));
      destruct (strict_eq_num (prop (config st) "colorPaletteShift") (Fin 0));
      cbn [negb]; rewrite ?barrel_url_not_none; done. }
  split; [exact Hchain|]. split.
  - by rewrite doc_updateBarrel.
  - intros Hc. by rewrite doc_updateStyles.
Qed.

(** C7 (witness). A connected element after [color-palette-shift="15"]:
    distortion (barrel 2, mode 1) and hue rotation are both active. *)
Lemma C7_filter_chain_witness :
  let st := setAttribute "color-palette-shift" "15" (connectedCallback (new_crt "a")) in
  container st = true ∧
  root_vars (doc (updateStyles st)) !! varName st
  = Some "url(#crt-barrel-a) hue-rotate(15deg)".
Proof.
  intros st.
  assert (Hc : container st = true) by (vm_compute; reflexivity).
  split; [exact Hc|].
  rewrite (proj2 (proj2 (C7_filter_chain st)) Hc). vm_compute. reflexivity.
Defined.

(** C7 (counterexample). The claim makes the distortion filter active when
    the barrel amount is positive and the mode is not disabled (not 0).
    With [mode="-2"] and [color-palette-shift="15"] on a connected element
    (barrel 2) the mode is not 0, yet the chain is the hue rotation alone. *)
Lemma C7_counterexample :
  let st := setAttribute "color-palette-shift" "15"
              (setAttribute "mode" "-2" (connectedCallback (new_crt "a"))) in
  gt (to_number (prop (config st) "barrel")) (Fin 0) = true ∧
  strict_eq_num (prop (config st) "mode") (Fin 0) = false ∧
  root_vars (doc st) !! varName st = Some "hue-rotate(15deg)" ∧
  root_vars (doc (applyGlobalFilters None st)) !! varName st = Some "hue-rotate(15deg)".
Proof. intros st. split_ands; vm_compute; reflexivity. Qed.

(** ** C9: unparseable numeric attributes *)

(** C9. For a float-kind attribute and a new value on which [parseFloat]
    yields [NaN], the attribute hook, and [setAttribute] through it, leave
    every configuration value as it was; both are total functions of the
    embedding, so nothing is raised. *)
Theorem C9_unparseable_float_keeps_value name oldValue newValue st :
  float_kind name →
  parseFloat (attr_value newValue) = NaN →
  (∀ k, prop (config (attributeChangedCallback name oldValue newValue st)) k
        = prop (config st) k) ∧
  (∀ raw k, newValue = Some raw →
            prop (config (setAttribute name raw st)) k = prop (config st) k).
Proof.
  intros Hfk Hnan.
  assert (Hcb : ∀ old st', ∀ k,
            prop (config (attributeChangedCallback name old newValue st')) k
            = prop (config st') k).
  { intros old st' k. rewrite config_attributeChangedCallback.
    case_decide; [done|]. destruct (attribute_key name) as [key|]; [|done].
    rewrite float_kind_binding, Hnan by done. cbn [is_nan]. apply prop_insert_same. }
  split; [apply Hcb|].
  intros raw k ->. unfold setAttribute.
  destruct (bool_decide (name ∈ observedAttributes)); [|done].
  by rewrite Hcb.
Qed.

(** C9 (witness). [scan-opacity="abc"] on a new element keeps 0.85. *)
Lemma C9_unparseable_float_keeps_value_witness :
  float_kind "scan-opacity" ∧
  parseFloat (attr_value (Some "abc")) = NaN ∧
  prop (config (setAttribute "scan-opacity" "abc" (new_crt "a"))) "scanOpacity"
    = num 0.85.
Proof.
  assert (Hfk : float_kind "scan-opacity").
  { split; [vm_compute; eexists; reflexivity|].
    refine (proj1 (bool_decide_eq_false _) _). vm_compute. reflexivity. }
  assert (Hnan : parseFloat (attr_value (Some "abc")) = NaN) by reflexivity.
  split; [exact Hfk|]. split; [exact Hnan|].
  rewrite (proj2 (C9_unparseable_float_keeps_value "scan-opacity" None (Some "abc")
                    (new_crt "a") Hfk Hnan) "abc" "scanOpacity" eq_refl).
  vm_compute. reflexivity.
Defined.

(** ** C10: modes outside 0, 1, 2 *)

(** The default branch of the [switch] in [updateModeZIndex] styles the
    host and the layer as [case 1] does. *)
Lemma updateModeZIndex_behind m st :
  num_eq m (Fin 0) = false →
  num_eq m (Fin 1) = true ∨ num_eq m (Fin 2) = false →
  host (updateModeZIndex (assign "mode" (VNum m) st))
  = HostStyle (Some "visible") (Some "none") (Some "-1") ∧
  externalBloomLayer (updateModeZIndex (assign "mode" (VNum m) st))
  = layer_show "-1" <$> externalBloomLayer st.
Proof.
  intros H0 H12. unfold updateModeZIndex, assign. cbn [config set_config].
  rewrite !prop_insert_eq. cbn [strict_eq_num]. rewrite H0.
  destruct H12 as [H1|H2].
  - rewrite H1. done.
  - rewrite H2. by destruct (num_eq m (Fin 1)).
Qed.

(** What [applyGlobalFilters()] leaves in the document depends on the mode
    only through the test [mode > 0]. *)
Lemma doc_applyGlobalFilters_mode v w st :
  gt (to_number v) (Fin 0) = gt (to_number w) (Fin 0) →
  doc (applyGlobalFilters None (assign "mode" v st))
  = doc (applyGlobalFilters None (assign "mode" w st)).
Proof.
  intros Hgt.
  unfold applyGlobalFilters, filterChain, barrel_filter, page_filtered, varName,
    bodyClass, barrel_url, assign.
  cbn [doc set_doc set_globalStyle config set_config uid].
  rewrite !prop_insert_eq, !prop_insert_ne, Hgt by done. done.
Qed.

(** C10 (amended). For every stored mode [m] other than 0, 1 and 2,
    [updateModeZIndex] styles the host and the bloom layer exactly as for
    mode 1, and when [m] is greater than 0 [applyGlobalFilters] leaves the
    same custom properties and body classes as for mode 1. A mode attribute
    on which [parseInt] yields [NaN] stores 1. *)
Theorem C10_out_of_range_mode m st :
  num_eq m (Fin 0) = false → num_eq m (Fin 1) = false → num_eq m (Fin 2) = false →
  (host (updateModeZIndex (assign "mode" (VNum m) st))
   = host (updateModeZIndex (assign "mode" (num 1) st)) ∧
   externalBloomLayer (updateModeZIndex (assign "mode" (VNum m) st))
   = externalBloomLayer (updateModeZIndex (assign "mode" (num 1) st))) ∧
  (gt m (Fin 0) = true →
   doc (applyGlobalFilters None (assign "mode" (VNum m) st))
   = doc (applyGlobalFilters None (assign "mode" (num 1) st))) ∧
  (∀ oldValue newValue,
     oldValue ≠ newValue → parseInt (attr_value newValue) = NaN →
     prop (config (attributeChangedCallback "mode" oldValue newValue st)) "mode" = num 1).
Proof.
  intros H0 H1 H2. split; [|split].
  - unfold num.
    destruct (updateModeZIndex_behind m st H0 (or_intror H2)) as [-> ->].
    by destruct (updateModeZIndex_behind (fin 1) st eq_refl (or_introl eq_refl))
      as [-> ->].
  - intros Hgt. apply doc_applyGlobalFilters_mode. cbn [to_number num]. by rewrite Hgt.
  - intros oldValue newValue Hne Hnan. rewrite config_attributeChangedCallback.
    case_decide; [done|].
    change (attribute_key "mode") with (Some "mode"). cbv beta iota.
    rewrite bind_attribute_insert.
    change (bound_key "mode" "mode") with "mode".
    unfold prop at 1. rewrite lookup_insert_eq. cbn [default from_option].
    unfold bound_value. cbn [String.eqb Ascii.eqb orb Bool.eqb].
    by rewrite Hnan.
Qed.

(** C10 (witness). Mode 5 on a connected element, and the unparseable
    attribute value "top". *)
Lemma C10_out_of_range_mode_witness :
  let st := connectedCallback (new_crt "a") in
  (num_eq (fin 5) (Fin 0) = false ∧ num_eq (fin 5) (Fin 1) = false ∧
   num_eq (fin 5) (Fin 2) = false) ∧
  host (updateModeZIndex (assign "mode" (num 5) st))
  = host (updateModeZIndex (assign "mode" (num 1) st)) ∧
  prop (config (attributeChangedCallback "mode" None (Some "top") st)) "mode" = num 1.
Proof.
  intros st.
  destruct (C10_out_of_range_mode (fin 5) st eq_refl eq_refl eq_refl)
    as ([Hhost _] & _ & Hparse).
  split; [split_ands; reflexivity|]. split; [exact Hhost|].
  apply Hparse; [discriminate|reflexivity].
Defined.

(** C10 (counterexample). The claim says that for a stored mode outside
    0, 1, 2 all the mode-dependent logic behaves as for mode 1. After
    [mode="5"] on a connected element the host is styled as in mode 1, but
    [applyGlobalFilters] takes its last branch ([target = null]): the
    injected rule is emptied, where mode 1 targets [.bg-image]. *)
Lemma C10_counterexample :
  let st1 := connectedCallback (new_crt "a") in
  let st5 := setAttribute "mode" "5" st1 in
  prop (config st1) "mode" = num 1 ∧
  prop (config st5) "mode" = num 5 ∧
  host st5 = host st1 ∧
  globalStyle (applyGlobalFilters None st1)
  = Some "body.crt-filtered-a .bg-image { filter: var(--crt-filter-chain-a, none) !important; }" ∧
  globalStyle (applyGlobalFilters None st5) = Some EmptyString ∧
  globalStyle st5 = Some EmptyString.
Proof. intros st1 st5. split_ands; vm_compute; reflexivity. Qed.

(** * Further properties *)

(** ** Projections keep the element's own data *)

Lemma same_element_refl st : same_element st st.
Proof. by repeat split. Qed.

Lemma same_element_trans st1 st2 st3 :
  same_element st1 st2 → same_element st2 st3 → same_element st1 st3.
Proof.
  intros (A1 & A2 & A3 & A4 & A5) (B1 & B2 & B3 & B4 & B5).
  repeat split; congruence.
Qed.

Lemma same_element_updateModeZIndex st : same_element st (updateModeZIndex st).
Proof. unfold updateModeZIndex. destruct (strict_eq_num _ _); by repeat split. Qed.

Lemma same_element_applyGlobalFilters bfv st : same_element st (applyGlobalFilters bfv st).
Proof. by repeat split. Qed.

Lemma same_element_updateExternalBloomLayer st :
  same_element st (updateExternalBloomLayer st).
Proof.
  unfold updateExternalBloomLayer. destruct (externalBloomLayer st); [|apply same_element_refl].
  destruct (lt _ _); cbn [set_layer];
    destruct (same_element_updateModeZIndex st) as (? & ? & ? & ? & ?); by repeat split.
Qed.

Lemma same_element_updateStyles st : same_element st (updateStyles st).
Proof.
  unfold updateStyles. destruct (container st); [|apply same_element_refl].
  eapply same_element_trans; [apply same_element_updateModeZIndex|].
  eapply same_element_trans; [apply same_element_updateExternalBloomLayer|].
  apply same_element_applyGlobalFilters.
Qed.

Lemma same_element_updateBarrel st : same_element st (updateBarrel st).
Proof. apply same_element_applyGlobalFilters. Qed.

Lemma same_element_if (b : bool) (f : crt → crt) st :
  (∀ st, same_element st (f st)) → same_element st (if b then f st else st).
Proof. intros Hf. destruct b; [apply Hf | apply same_element_refl]. Qed.

Lemma same_element_reproject name st : same_element st (reproject name st).
Proof.
  unfold reproject. destruct (container st); [|apply same_element_refl]. cbv zeta.
  eapply same_element_trans;
    [|apply (same_element_if _ (applyGlobalFilters None)), same_element_applyGlobalFilters].
  eapply same_element_trans;
    [|apply (same_element_if _ updateModeZIndex), same_element_updateModeZIndex].
  eapply same_element_trans;
    [|apply (same_element_if _ (applyGlobalFilters None)), same_element_applyGlobalFilters].
  eapply same_element_trans;
    [|apply (same_element_if _ updateBarrel), same_element_updateBarrel].
  apply same_element_updateStyles.
Qed.

Lemma attributes_attributeChangedCallback name oldValue newValue st :
  attributes (attributeChangedCallback name oldValue newValue st) = attributes st.
Proof.
  unfold attributeChangedCallback. case_decide; [done|].
  destruct (attribute_key name); [|done].
  by destruct (same_element_reproject name
                 (set_config (bind_attribute name s newValue (config st)) st))
    as (_ & -> & _).
Qed.

Lemma attributes_setAttribute name value st :
  attributes (setAttribute name value st) = <[name := value]> (attributes st).
Proof.
  unfold setAttribute. destruct (bool_decide _); [|done].
  by rewrite attributes_attributeChangedCallback.
Qed.

(** ** Presets by name *)



(** ** The attribute hook *)

(** X2. A numeric attribute writes its own key and no other: after
    [setAttribute] every other key of the configuration reads as before,
    and the attribute's key reads as before too when the text does not
    parse as a number. *)
Theorem numeric_attribute_writes_own_key name key raw st :
  attribute_key name = Some key →
  float_kind name →
  (∀ k, k ≠ key → prop (config (setAttribute name raw st)) k = prop (config st) k) ∧
  (parseFloat (VStr raw) = NaN →
   ∀ k, prop (config (setAttribute name raw st)) k = prop (config st) k).
Proof.
  intros Hkey Hfk.
  assert (Hcfg : config (setAttribute name raw st) = config st ∨
                 config (setAttribute name raw st)
                 = <[key := if is_nan (parseFloat (VStr raw)) then prop (config st) key
                            else VNum (parseFloat (VStr raw))]> (config st)).
  { unfold setAttribute. destruct (bool_decide _); [|by left].
    rewrite config_attributeChangedCallback. case_decide; [by left|].
    rewrite Hkey. right. by rewrite float_kind_binding. }
  split.
  - intros k Hne. destruct Hcfg as [->| ->]; [done|]. by apply prop_insert_ne.
  - intros Hnan k. destruct Hcfg as [->| ->]; [done|]. rewrite Hnan.
    apply prop_insert_same.
Qed.

Lemma numeric_attribute_writes_own_key_witness :
  attribute_key "scan-size" = Some "scanSize" ∧ float_kind "scan-size" ∧
  prop (config (setAttribute "scan-size" "12.5" (new_crt "a"))) "scanSize" = num 12.5 ∧
  prop (config (setAttribute "scan-size" "12.5" (new_crt "a"))) "scanOpacity"
  = prop (config (new_crt "a")) "scanOpacity".
Proof.
  assert (Hfk : float_kind "scan-size").
  { split; [vm_compute; eexists; reflexivity | not_observed]. }
  split; [reflexivity|]. split; [exact Hfk|]. split; [vm_compute; reflexivity|].
  apply (proj1 (numeric_attribute_writes_own_key "scan-size" "scanSize" "12.5"
                  (new_crt "a") eq_refl Hfk)).
  discriminate.
Defined.



Lemma flag_attribute_binding name newValue c :
  name ∈ flag_attributes →
  name ∈ observedAttributes ∧ attribute_key name = Some name ∧
  bind_attribute name name newValue c = <[name := VBool (bool_decide (newValue ≠ None))]> c.
Proof.
  unfold flag_attributes. intros Hn.
  repeat (apply elem_of_cons in Hn as [->|Hn]);
    [| | |by apply elem_of_nil in Hn];
    (split; [refine (proj1 (bool_decide_eq_true _) _); vm_compute; reflexivity|]);
    (split; reflexivity).
Qed.

(** X4. The attributes [flicker], [controls] and [reflection] are bound
    by presence: setting one to any new string, "false" and the empty
    string included, stores [true]; removing one that is present stores
    [false]. *)
Theorem flag_attribute_bound_by_presence name st :
  name ∈ flag_attributes →
  (∀ value, attributes st !! name ≠ Some value →
            prop (config (setAttribute name value st)) name = VBool true) ∧
  (is_Some (attributes st !! name) →
   prop (config (removeAttribute name st)) name = VBool false).
Proof.
  intros Hn.
  destruct (flag_attribute_binding name None (config st) Hn) as (Hobs & Hkey & _).
  split.
  - intros value Hold. rewrite setAttribute_observed, config_attributeChangedCallback by done.
    case_decide; [done|]. rewrite Hkey.
    rewrite (proj2 (proj2 (flag_attribute_binding name _ _ Hn))).
    by rewrite prop_insert_eq.
  - intros [old Hold]. unfold removeAttribute. rewrite Hold.
    rewrite bool_decide_eq_true_2 by done.
    rewrite config_attributeChangedCallback. case_decide; [done|]. rewrite Hkey.
    rewrite (proj2 (proj2 (flag_attribute_binding name _ _ Hn))).
    by rewrite prop_insert_eq.
Qed.

Lemma flag_attribute_bound_by_presence_witness :
  "flicker" ∈ flag_attributes ∧
  prop (config (setAttribute "flicker" "false" (new_crt "a"))) "flicker" = VBool true ∧
  prop (config (removeAttribute "flicker"
                  (setAttribute "flicker" "false" (new_crt "a")))) "flicker" = VBool false.
Proof.
  assert (Hn : "flicker" ∈ flag_attributes) by (by left).
  split; [exact Hn|]. split.
  - apply (proj1 (flag_attribute_bound_by_presence "flicker" (new_crt "a") Hn)).
    discriminate.
  - apply (proj2 (flag_attribute_bound_by_presence "flicker"
                    (setAttribute "flicker" "false" (new_crt "a")) Hn)).
    vm_compute. eexists. reflexivity.
Defined.

(** X5. Whatever new string the [mode] attribute is set to, the mode it
    stores is a number other than [NaN] and other than 0: the attribute can
    never store the disabled mode. *)
Theorem mode_attribute_never_stores_zero raw st :
  attributes st !! "mode" ≠ Some raw →
  ∃ m, prop (config (setAttribute "mode" raw st)) "mode" = VNum m ∧
       is_nan m = false ∧ num_eq m (Fin 0) = false.
Proof.
  intros Hold.
  rewrite setAttribute_observed, config_attributeChangedCallback
    by (refine (proj1 (bool_decide_eq_true _) _); vm_compute; reflexivity).
  case_decide; [done|].
  change (attribute_key "mode") with (Some "mode"). cbv beta iota.
  rewrite bind_attribute_insert. change (bound_key "mode" "mode") with "mode".
  rewrite prop_insert_eq. unfold bound_value. cbn [String.eqb Ascii.eqb orb Bool.eqb].
  unfold or_else. destruct (truthy (VNum (parseInt (attr_value (Some raw))))) eqn:Ht.
  - eexists. split; [reflexivity|]. cbn in Ht.
    apply negb_true_iff, orb_false_iff in Ht. exact Ht.
  - exists (fin 1). by repeat split.
Qed.

Lemma mode_attribute_never_stores_zero_witness :
  ∃ m, prop (config (setAttribute "mode" "0" (new_crt "a"))) "mode" = VNum m ∧
       is_nan m = false ∧ num_eq m (Fin 0) = false.
Proof.
  apply (mode_attribute_never_stores_zero "0" (new_crt "a")). discriminate.
Defined.

(** ** The handlers of the controls panel *)

(** X6. The flicker and reflection checkboxes always win: whatever the
    state, after their [change] handler the configuration holds the
    checkbox value. *)
Theorem toggle_handlers_store_checked checked st :
  prop (config (flickerToggle_change checked st)) "flicker" = VBool checked ∧
  prop (config (reflectionToggle_change checked st)) "reflection" = VBool checked.
Proof.
  assert (Hall : ∀ name, name ∈ flag_attributes →
    prop (config (if checked
                  then setAttribute name EmptyString
                         (set_config (<[name := VBool checked]> (config st)) st)
                  else removeAttribute name
                         (set_config (<[name := VBool checked]> (config st)) st))) name
    = VBool checked).
  { intros name Hn.
    destruct (flag_attribute_binding name None (config st) Hn) as (Hobs & Hkey & _).
    destruct checked.
    - rewrite setAttribute_observed, config_attributeChangedCallback by done.
      case_decide; [apply prop_insert_eq|]. rewrite Hkey.
      rewrite (proj2 (proj2 (flag_attribute_binding name _ _ Hn))).
      by rewrite prop_insert_eq.
    - unfold removeAttribute. cbn [attributes set_config].
      destruct (attributes st !! name) as [old|]; [|apply prop_insert_eq].
      rewrite bool_decide_eq_true_2 by done.
      rewrite config_attributeChangedCallback. case_decide; [done|]. rewrite Hkey.
      rewrite (proj2 (proj2 (flag_attribute_binding name _ _ Hn))).
      by rewrite prop_insert_eq. }
  split; apply Hall; unfold flag_attributes; set_solver.
Qed.




(** ** The bulk update *)

Lemma foldl_insert_notin {A} (l : list (string * A)) (m : gmap string A) k :
  k ∉ l.*1 → foldl (fun a kv => <[kv.1 := kv.2]> a) m l !! k = m !! k.
Proof.
  revert m. induction l as [|[k0 v0] l IH]; intros m Hk; [done|].
  cbn in Hk. apply not_elem_of_cons in Hk as [Hne Hk].
  cbn. rewrite IH by done. by rewrite lookup_insert_ne.
Qed.

Lemma foldl_insert_in {A} (l : list (string * A)) (m : gmap string A) k v :
  NoDup l.*1 → (k, v) ∈ l → foldl (fun a kv => <[kv.1 := kv.2]> a) m l !! k = Some v.
Proof.
  revert m. induction l as [|[k0 v0] l IH]; intros m Hnd Hin.
  - by apply elem_of_nil in Hin.
  - cbn in Hnd. apply NoDup_cons in Hnd as [Hk0 Hnd].
    apply elem_of_cons in Hin as [Heq|Hin].
    + injection Heq as -> ->. cbn. rewrite foldl_insert_notin by done.
      apply lookup_insert_eq.
    + cbn. by apply IH.
Qed.

Lemma attributes_updateConfig cfg st :
  attributes (updateConfig cfg st)
  = foldl (fun a nv => <[nv.1 := nv.2]> a) (attributes st)
          ((fun kv => (kebab kv.1, to_string kv.2)) <$> cfg).
Proof.
  revert st. unfold updateConfig.
  induction cfg as [|kv cfg IH]; intros st; [done|].
  cbn [foldl fmap list_fmap]. rewrite IH. by rewrite attributes_setAttribute.
Qed.



Lemma attributes_updateConfig_in cfg st k v :
  NoDup (kebab <$> cfg.*1) → (k, v) ∈ cfg →
  attributes (updateConfig cfg st) !! kebab k = Some (to_string v).
Proof.
  intros Hnd Hin. rewrite attributes_updateConfig.
  apply foldl_insert_in.
  - rewrite <- list_fmap_compose. rewrite <- list_fmap_compose in Hnd. exact Hnd.
  - apply list_elem_of_fmap. by exists (k, v).
Qed.






(** ** More on applying a preset *)

Lemma presets_names_ok : forallb (fun np => preset_names_ok np.2) presets = true.
Proof. vm_compute. reflexivity. Qed.

Lemma getPreset_names_ok name preset :
  getPreset name = Some preset → preset_names_ok preset = true.
Proof.
  intros H. unfold getPreset in H.
  apply elem_of_list_to_map_2, list_elem_of_In in H.
  pose proof presets_names_ok as Hall. rewrite forallb_forall in Hall.
  apply (Hall _ H).
Qed.

Lemma applyPreset_as_updateConfig preset st :
  applyPreset preset st
  = updateBarrel (updateStyles
      (updateConfig preset (set_config (Object_assign (config st) preset) st))).
Proof. reflexivity. Qed.

(** X10. After a preset of the table is applied, every key it lists is
    mirrored by an attribute holding the string form of the preset's
    value. *)
Theorem applyPreset_records_attributes name preset st key v :
  getPreset name = Some preset → (key, v) ∈ preset →
  attributes (applyPreset preset st) !! kebab key = Some (to_string v).
Proof.
  intros Hget Hin. apply getPreset_names_ok in Hget.
  apply andb_true_iff in Hget as [Hnd _]. apply bool_decide_eq_true_1 in Hnd.
  rewrite applyPreset_as_updateConfig.
  destruct (same_element_updateBarrel
              (updateStyles (updateConfig preset
                 (set_config (Object_assign (config st) preset) st))))
    as (_ & -> & _).
  destruct (same_element_updateStyles
              (updateConfig preset (set_config (Object_assign (config st) preset) st)))
    as (_ & -> & _).
  by apply attributes_updateConfig_in.
Qed.

Lemma applyPreset_records_attributes_witness :
  let preset := default [] (getPreset "green-phosphor") in
  getPreset "green-phosphor" = Some preset ∧
  attributes (applyPreset preset (new_crt "a")) !! "color-palette-shift" = Some "120".
Proof.
  intros preset.
  assert (Hget : getPreset "green-phosphor" = Some preset) by (vm_compute; reflexivity).
  split; [exact Hget|].
  apply (applyPreset_records_attributes "green-phosphor" preset (new_crt "a")
           "colorPaletteShift" (num 120) Hget).
  apply (list_elem_of_lookup_2 _ 34). vm_compute. reflexivity.
Defined.

Lemma is_flag_key_true key :
  is_flag_key key = true → key = "flicker" ∨ key = "reflection".
Proof.
  unfold is_flag_key. intros [H|H]%orb_true_iff; apply String.eqb_eq in H; auto.
Qed.

(** The loop step of a flag entry: the hook runs unless the attribute
    already holds the string being set. *)
Lemma preset_step_flag key b st :
  is_flag_key key = true →
  config (preset_step st (key, VBool b)) !! key
  = if decide (attributes st !! key = Some (to_string (VBool b)))
    then config st !! key else Some (VBool true).
Proof.
  intros Hf.
  assert (Hn : key ∈ flag_attributes).
  { unfold flag_attributes. destruct (is_flag_key_true key Hf) as [->| ->]; set_solver. }
  assert (Hk : kebab key = key) by (by destruct (is_flag_key_true key Hf) as [->| ->]).
  destruct (flag_attribute_binding key None (config st) Hn) as (Hobs & Hkey & _).
  unfold preset_step. cbn [fst snd]. rewrite Hk.
  rewrite setAttribute_observed, config_attributeChangedCallback by done.
  cbn [config set_attributes]. case_decide; [done|]. rewrite Hkey.
  rewrite (proj2 (proj2 (flag_attribute_binding key _ _ Hn))).
  by rewrite lookup_insert_eq.
Qed.

Lemma preset_loop_flag l st key b :
  forallb entry_stable l = true →
  NoDup l.*1 →
  (∀ kv, kv ∈ l → kebab kv.1 = key → kv.1 = key) →
  (∀ k v, (k, v) ∈ l → is_flag_key k = false → config st !! k = Some v) →
  (key, VBool b) ∈ l → is_flag_key key = true →
  config st !! key = Some (VBool b) →
  config (foldl preset_step st l) !! key
  = Some (VBool (if decide (attributes st !! key = Some (to_string (VBool b)))
                 then b else true)).
Proof.
  revert st. induction l as [|kv l IH]; intros st Hall Hnd Hsep Hcur Hin Hf Hkey.
  - by apply elem_of_nil in Hin.
  - cbn in Hall. apply andb_true_iff in Hall as [Hkv Hall].
    cbn in Hnd. apply NoDup_cons in Hnd as [Hfresh Hnd].
    assert (Hcur' : ∀ k v, (k, v) ∈ l → is_flag_key k = false →
                           config (preset_step st kv) !! k = Some v).
    { intros k v Hkv' Hnf. rewrite preset_step_lookup; [|done| |by intros <-].
      - apply Hcur; [by right|done].
      - intros Hnf'. apply Hcur; [|done]. destruct kv. by left. }
    cbn [foldl]. apply elem_of_cons in Hin as [<-|Hin].
    + rewrite preset_loop_lookup; [|done|done|by right].
      rewrite preset_step_flag by done. rewrite Hkey. by case_decide.
    + assert (Hne : kv.1 ≠ key).
      { intros Heq. apply Hfresh. rewrite Heq.
        apply list_elem_of_fmap. by exists (key, VBool b). }
      assert (Hattr : attributes (preset_step st kv) !! key = attributes st !! key).
      { unfold preset_step. rewrite attributes_setAttribute.
        apply lookup_insert_ne. intros Heq. apply Hne, Hsep; [by left|done]. }
      rewrite IH; [|done|done| |done|done|done|].
      * by rewrite Hattr.
      * intros kv' Hkv'. apply Hsep. by right.
      * rewrite preset_step_lookup; [done|done| |by intros ->].
        intros Hnf. apply Hcur; [|done]. destruct kv. by left.
Qed.

(** X11. How [applyPreset] leaves the two flags: [flicker]
    (resp. [reflection]) ends up [true] whatever the preset says, unless
    the element's attribute already held the string form of the preset's
    value, in which case it ends up at the preset's value. *)
Theorem applyPreset_flag_keys name preset st key b :
  getPreset name = Some preset →
  (key, VBool b) ∈ preset → key = "flicker" ∨ key = "reflection" →
  (attributes st !! key ≠ Some (if b then "true" else "false") →
   config (applyPreset preset st) !! key = Some (VBool true)) ∧
  (attributes st !! key = Some (if b then "true" else "false") →
   config (applyPreset preset st) !! key = Some (VBool b)).
Proof.
  intros Hget Hin Hkey.
  pose proof (getPreset_ok _ _ Hget) as Hok.
  apply andb_true_iff in Hok as [Hnd Hall]. apply bool_decide_eq_true_1 in Hnd.
  pose proof (getPreset_names_ok _ _ Hget) as Hnames.
  apply andb_true_iff in Hnames as [_ Hsep]. rewrite forallb_forall in Hsep.
  assert (Hf : is_flag_key key = true) by (by destruct Hkey as [->| ->]).
  assert (Hloop : config (applyPreset preset st) !! key
    = Some (VBool (if decide (attributes st !! key = Some (to_string (VBool b)))
                   then b else true))).
  { rewrite config_applyPreset.
    rewrite (preset_loop_flag preset _ key b); try done.
    - intros kv Hkv Hk. apply list_elem_of_In, Hsep in Hkv.
      apply andb_true_iff in Hkv as [H1 H2].
      destruct Hkey as [->| ->].
      + apply String.eqb_eq in Hk. rewrite Hk in H1. by apply String.eqb_eq in H1.
      + apply String.eqb_eq in Hk. rewrite Hk in H2. by apply String.eqb_eq in H2.
    - intros k v Hkv _. by apply Object_assign_in.
    - by apply Object_assign_in. }
  assert (Hs : to_string (VBool b) = if b then "true" else "false") by (by destruct b).
  rewrite Hs in Hloop. split; intros Hold; rewrite Hloop; by case_decide.
Qed.

Lemma applyPreset_flag_keys_witness :
  let preset := default [] (getPreset "studio-display-crt") in
  let st := new_crt "a" in
  getPreset "studio-display-crt" = Some preset ∧
  config (applyPreset preset st) !! "reflection" = Some (VBool true) ∧
  config (applyPreset preset (applyPreset preset st)) !! "reflection" = Some (VBool false).
Proof.
  intros preset st.
  assert (Hget : getPreset "studio-display-crt" = Some preset) by (vm_compute; reflexivity).
  assert (Hin : ("reflection", VBool false) ∈ preset)
    by (apply (list_elem_of_lookup_2 _ 30); vm_compute; reflexivity).
  split; [exact Hget|]. split.
  - apply (proj1 (applyPreset_flag_keys _ preset st "reflection" false Hget Hin
                    (or_intror eq_refl))).
    discriminate.
  - apply (proj2 (applyPreset_flag_keys _ preset (applyPreset preset st) "reflection" false
                    Hget Hin (or_intror eq_refl))).
    vm_compute. reflexivity.
Defined.

(** ** Projections in normal form *)

Lemma updateModeZIndex_eq st :
  updateModeZIndex st
  = with_presentation (mode_host (config st) (host st))
      (mode_layer (config st) <$> externalBloomLayer st) (globalStyle st) (doc st) st.
Proof.
  unfold updateModeZIndex, mode_host, mode_layer, mode_zIndex.
  by destruct (strict_eq_num (prop (config st) "mode") (Fin 0)).
Qed.

Lemma mode_host_idem c h : mode_host c (mode_host c h) = mode_host c h.
Proof. unfold mode_host. by destruct (strict_eq_num _ _). Qed.

Lemma mode_layer_idem c l : mode_layer c (mode_layer c l) = mode_layer c l.
Proof. unfold mode_layer. by destruct (strict_eq_num _ _). Qed.

Lemma mode_layer_filter c f l :
  mode_layer c (layer_filter f l) = layer_filter f (mode_layer c l).
Proof. unfold mode_layer. by destruct (strict_eq_num _ _). Qed.

Lemma layer_filter_idem f g l : layer_filter f (layer_filter g l) = layer_filter f l.
Proof. reflexivity. Qed.

Lemma updateExternalBloomLayer_eq st :
  updateExternalBloomLayer st
  = match externalBloomLayer st with
    | None => st
    | Some l =>
        with_presentation (mode_host (config st) (host st))
          (Some (layer_filter (bloom_filter (config st)) (mode_layer (config st) l)))
          (globalStyle st) (doc st) st
    end.
Proof.
  unfold updateExternalBloomLayer. destruct (externalBloomLayer st) as [l|] eqn:Hl; [|done].
  rewrite updateModeZIndex_eq, Hl. unfold bloom_filter.
  by destruct (lt (to_number (prop (config st) "bloom")) (fin 0.05)).
Qed.

Lemma applyGlobalFilters_eq bfv st :
  applyGlobalFilters bfv st
  = with_presentation (host st) (externalBloomLayer st) (filter_rule st)
      (doc (applyGlobalFilters bfv st)) st.
Proof. reflexivity. Qed.

(** [updateStyles()] on a rendered element, all at once. *)
Lemma updateStyles_eq st :
  container st = true →
  updateStyles st
  = with_presentation (mode_host (config st) (host st))
      ((fun l => layer_filter (bloom_filter (config st)) (mode_layer (config st) l))
         <$> externalBloomLayer st)
      (filter_rule st) (doc (applyGlobalFilters None st)) st.
Proof.
  intros Hc. unfold updateStyles. rewrite Hc.
  rewrite updateModeZIndex_eq, updateExternalBloomLayer_eq.
  destruct (externalBloomLayer st) as [l|] eqn:Hl;
    cbn [externalBloomLayer with_presentation fmap option_fmap option_map
         config host globalStyle doc];
    by rewrite ?mode_host_idem, ?mode_layer_idem.
Qed.

Lemma doc_applyGlobalFilters_eq bfv st :
  doc (applyGlobalFilters bfv st)
  = Page (<[varName st := filterChain bfv st]>
            (<[varName st := barrel_filter bfv st]> (root_vars (doc st))))
         (if page_filtered st then {[ bodyClass st ]} ∪ body_classes (doc st)
          else body_classes (doc st) ∖ {[ bodyClass st ]}).
Proof. reflexivity. Qed.

Lemma filters_ext bfv st st' :
  config st' = config st → uid st' = uid st →
  varName st' = varName st ∧ bodyClass st' = bodyClass st ∧
  barrel_filter bfv st' = barrel_filter bfv st ∧
  filterChain bfv st' = filterChain bfv st ∧ page_filtered st' = page_filtered st.
Proof.
  intros Hc Hu.
  unfold varName, bodyClass, filterChain, barrel_filter, page_filtered, barrel_url.
  by rewrite Hc, Hu.
Qed.

Lemma doc_applyGlobalFilters_again bfv st st' :
  config st' = config st → uid st' = uid st → doc st' = doc (applyGlobalFilters bfv st) →
  doc (applyGlobalFilters bfv st') = doc (applyGlobalFilters bfv st).
Proof.
  intros Hc Hu Hd.
  destruct (filters_ext bfv st st' Hc Hu) as (Hv & Hb & Hbf & Hfc & Hpf).
  rewrite (doc_applyGlobalFilters_eq bfv st'), Hv, Hb, Hbf, Hfc, Hpf, Hd.
  rewrite (doc_applyGlobalFilters_eq bfv st). cbn [root_vars body_classes]. f_equal.
  - by rewrite !insert_insert_eq.
  - destruct (page_filtered st); apply set_eq; intros x;
      rewrite ?elem_of_union, ?elem_of_difference; tauto.
Qed.

Lemma filter_rule_again st st' :
  config st' = config st → uid st' = uid st → globalStyle st' = filter_rule st →
  filter_rule st' = filter_rule st.
Proof.
  intros Hc Hu Hg. unfold filter_rule, filter_target, bodyClass, varName in *.
  rewrite Hc, Hu, Hg. destruct (globalStyle st); [|done].
  by destruct (truthy _).
Qed.

(** X12. Projecting twice is projecting once: a second [updateStyles()]
    on an unchanged configuration leaves the element, its styles and the
    document exactly as the first one did. *)
Theorem updateStyles_idempotent st :
  updateStyles (updateStyles st) = updateStyles st.
Proof.
  destruct (container st) eqn:Hc.
  - rewrite (updateStyles_eq st Hc).
    rewrite updateStyles_eq by done.
    unfold with_presentation at 1.
    cbn [config attributes uid initialized container host externalBloomLayer
         with_presentation].
    unfold with_presentation. f_equal.
    + apply mode_host_idem.
    + destruct (externalBloomLayer st) as [l|]; [|done]. cbn.
      by rewrite mode_layer_filter, mode_layer_idem.
    + by apply filter_rule_again.
    + by apply doc_applyGlobalFilters_again.
  - assert (Hid : updateStyles st = st) by (unfold updateStyles; by rewrite Hc).
    by rewrite !Hid.
Qed.

(** X13. After [updateStyles()] on a rendered element the bloom layer
    mirrors the host: it has the host's visibility, when the mode is not 0
    also the host's z-index, and its two backdrop-filter properties
    agree. *)
Theorem bloom_layer_mirrors_host st l :
  container st = true →
  externalBloomLayer (updateStyles st) = Some l →
  layer_visibility l = visibility (host (updateStyles st)) ∧
  (strict_eq_num (prop (config st) "mode") (Fin 0) = false →
   layer_zIndex l = zIndex (host (updateStyles st))) ∧
  backdropFilter l = webkitBackdropFilter l.
Proof.
  intros Hc. rewrite (updateStyles_eq st Hc).
  cbn [externalBloomLayer host with_presentation].
  destruct (externalBloomLayer st) as [l0|]; [|done].
  intros [= <-]. unfold mode_layer, mode_host.
  by destruct (strict_eq_num (prop (config st) "mode") (Fin 0)).
Qed.

Lemma bloom_layer_mirrors_host_witness :
  let st := setAttribute "mode" "2" (connectedCallback (new_crt "a")) in
  let l := LayerStyle (Some "visible") (Some "9999")
             (Some (BlurBrightness (fin 1.5) (fin 1.072)))
             (Some (BlurBrightness (fin 1.5) (fin 1.072))) in
  container st = true ∧ externalBloomLayer (updateStyles st) = Some l ∧
  layer_zIndex l = zIndex (host (updateStyles st)).
Proof.
  intros st l.
  assert (Hc : container st = true) by (vm_compute; reflexivity).
  assert (Hl : externalBloomLayer (updateStyles st) = Some l) by (vm_compute; reflexivity).
  split; [exact Hc|]. split; [exact Hl|].
  apply (proj1 (proj2 (bloom_layer_mirrors_host st l Hc Hl))).
  vm_compute. reflexivity.
Defined.

(** ** Projections after [updateStyles()] *)

Lemma updateBarrel_eq st : updateBarrel st = applyGlobalFilters None st.
Proof.
  transitivity (with_presentation (host st) (externalBloomLayer st) (filter_rule st)
                  (doc (updateBarrel st)) st); [reflexivity|].
  by rewrite doc_updateBarrel.
Qed.

Lemma with_presentation_id st :
  with_presentation (host st) (externalBloomLayer st) (globalStyle st) (doc st) st = st.
Proof. by destruct st. Qed.

Lemma applyGlobalFilters_updateStyles st :
  container st = true → applyGlobalFilters None (updateStyles st) = updateStyles st.
Proof.
  intros Hc.
  assert (Hcfg : config (updateStyles st) = config st) by apply config_updateStyles.
  assert (Hu : uid (updateStyles st) = uid st)
    by (by destruct (same_element_updateStyles st) as (_ & _ & -> & _)).
  assert (Hg : globalStyle (updateStyles st) = filter_rule st)
    by (by rewrite (updateStyles_eq st Hc)).
  assert (Hd : doc (updateStyles st) = doc (applyGlobalFilters None st))
    by (by rewrite (updateStyles_eq st Hc)).
  rewrite (applyGlobalFilters_eq None (updateStyles st)).
  rewrite (filter_rule_again st (updateStyles st) Hcfg Hu Hg), <- Hg.
  rewrite (doc_applyGlobalFilters_again None st (updateStyles st) Hcfg Hu Hd), <- Hd.
  apply with_presentation_id.
Qed.

(** The trailing [updateBarrel()] of [applyPreset] and [connectedCallback]. *)
Lemma updateBarrel_after_updateStyles st :
  container st = true → updateBarrel (updateStyles st) = updateStyles st.
Proof. intros Hc. rewrite updateBarrel_eq. by apply applyGlobalFilters_updateStyles. Qed.

Lemma createExternalBloomLayer_eq st :
  createExternalBloomLayer st
  = match externalBloomLayer st with
    | Some _ => st
    | None =>
        with_presentation (mode_host (config st) (host st))
          (Some (layer_filter (bloom_filter (config st)) (mode_layer (config st) blank_layer)))
          (globalStyle st) (doc st) st
    end.
Proof.
  unfold createExternalBloomLayer. destruct (externalBloomLayer st); [done|].
  by rewrite updateExternalBloomLayer_eq.
Qed.

Lemma updateModeZIndex_updateStyles st :
  container st = true → updateModeZIndex (updateStyles st) = updateStyles st.
Proof.
  intros Hc. rewrite updateModeZIndex_eq.
  rewrite config_updateStyles.
  rewrite (updateStyles_eq st Hc).
  cbn [host externalBloomLayer globalStyle doc with_presentation
       config attributes uid initialized container].
  rewrite mode_host_idem. unfold with_presentation. f_equal.
  destruct (externalBloomLayer st); [|done]. cbn.
  by rewrite mode_layer_filter, mode_layer_idem.
Qed.

Lemma connectedCallback_eq st :
  initialized st = false →
  connectedCallback st
  = Crt (config st) (attributes st) (uid st) true true
      (mode_host (config st) (host st))
      (Some (layer_filter (bloom_filter (config st))
               (mode_layer (config st) (default blank_layer (externalBloomLayer st)))))
      (filter_rule (set_globalStyle (Some EmptyString) st))
      (doc (applyGlobalFilters None st)).
Proof.
  intros Hi. unfold connectedCallback. rewrite Hi. cbv zeta.
  set (s3 := createExternalBloomLayer (ensureGlobalFilterStyle (set_container true st))).
  assert (Hc3 : container s3 = true).
  { unfold s3. rewrite createExternalBloomLayer_eq.
    assert (Hk : container (ensureGlobalFilterStyle (set_container true st)) = true)
      by (unfold ensureGlobalFilterStyle; by destruct (globalStyle _)).
    destruct (externalBloomLayer _); exact Hk. }
  rewrite updateModeZIndex_updateStyles, updateBarrel_after_updateStyles by done.
  rewrite (updateStyles_eq s3 Hc3).
  unfold s3. rewrite createExternalBloomLayer_eq.
  unfold ensureGlobalFilterStyle. cbn [globalStyle set_container].
  destruct st as [c a u i k h l g d]. cbn in Hi. subst i.
  destruct g as [g|], l as [l|];
    cbn [externalBloomLayer set_container set_globalStyle with_presentation set_initialized
         config attributes uid initialized container host globalStyle doc fmap option_fmap
         option_map default];
    rewrite ?mode_host_idem, ?mode_layer_filter, ?mode_layer_idem; reflexivity.
Qed.


(** ** The page outside the element's own names *)

Lemma doc_elsewhere_refl st : doc_elsewhere st st.
Proof. by repeat split. Qed.

Lemma doc_elsewhere_trans st1 st2 st3 :
  doc_elsewhere st1 st2 → doc_elsewhere st2 st3 → doc_elsewhere st1 st3.
Proof.
  unfold doc_elsewhere, varName, bodyClass.
  intros (Hu1 & Hv1 & Hc1) (Hu2 & Hv2 & Hc2). rewrite Hu1 in Hv2, Hc2.
  split; [congruence|]. split.
  - intros v Hv. rewrite Hv2, Hv1; done.
  - intros c Hc. rewrite Hc2, Hc1; done.
Qed.

Lemma doc_elsewhere_same st st' :
  uid st' = uid st → doc st' = doc st → doc_elsewhere st st'.
Proof. intros Hu Hd. unfold doc_elsewhere. by rewrite Hu, Hd. Qed.

Lemma doc_elsewhere_applyGlobalFilters bfv st :
  doc_elsewhere st (applyGlobalFilters bfv st).
Proof.
  split; [done|]. rewrite doc_applyGlobalFilters_eq. cbn [root_vars body_classes]. split.
  - intros v Hv. by rewrite !lookup_insert_ne.
  - intros c Hc. destruct (page_filtered st).
    + rewrite elem_of_union, elem_of_singleton. tauto.
    + rewrite elem_of_difference, elem_of_singleton. tauto.
Qed.

Lemma doc_elsewhere_updateModeZIndex st : doc_elsewhere st (updateModeZIndex st).
Proof. apply doc_elsewhere_same; apply uid_doc_updateModeZIndex. Qed.

Lemma doc_elsewhere_updateExternalBloomLayer st :
  doc_elsewhere st (updateExternalBloomLayer st).
Proof. apply doc_elsewhere_same; apply uid_doc_updateExternalBloomLayer. Qed.

Lemma doc_elsewhere_updateStyles st : doc_elsewhere st (updateStyles st).
Proof.
  unfold updateStyles. destruct (container st); [|apply doc_elsewhere_refl].
  eapply doc_elsewhere_trans; [apply doc_elsewhere_updateModeZIndex|].
  eapply doc_elsewhere_trans; [apply doc_elsewhere_updateExternalBloomLayer|].
  apply doc_elsewhere_applyGlobalFilters.
Qed.

Lemma doc_elsewhere_updateBarrel st : doc_elsewhere st (updateBarrel st).
Proof. apply doc_elsewhere_applyGlobalFilters. Qed.

Lemma doc_elsewhere_if (b : bool) (f : crt → crt) st :
  (∀ st, doc_elsewhere st (f st)) → doc_elsewhere st (if b then f st else st).
Proof. intros Hf. destruct b; [apply Hf | apply doc_elsewhere_refl]. Qed.

Lemma doc_elsewhere_reproject name st : doc_elsewhere st (reproject name st).
Proof.
  unfold reproject. destruct (container st); [|apply doc_elsewhere_refl]. cbv zeta.
  eapply doc_elsewhere_trans;
    [|apply (doc_elsewhere_if _ (applyGlobalFilters None)), doc_elsewhere_applyGlobalFilters].
  eapply doc_elsewhere_trans;
    [|apply (doc_elsewhere_if _ updateModeZIndex), doc_elsewhere_updateModeZIndex].
  eapply doc_elsewhere_trans;
    [|apply (doc_elsewhere_if _ (applyGlobalFilters None)), doc_elsewhere_applyGlobalFilters].
  eapply doc_elsewhere_trans;
    [|apply (doc_elsewhere_if _ updateBarrel), doc_elsewhere_updateBarrel].
  apply doc_elsewhere_updateStyles.
Qed.

Lemma doc_elsewhere_attributeChangedCallback name oldValue newValue st :
  doc_elsewhere st (attributeChangedCallback name oldValue newValue st).
Proof.
  unfold attributeChangedCallback. case_decide; [apply doc_elsewhere_refl|].
  destruct (attribute_key name) as [key|]; [|apply doc_elsewhere_refl].
  eapply doc_elsewhere_trans; [|apply doc_elsewhere_reproject].
  by apply doc_elsewhere_same.
Qed.

Lemma doc_elsewhere_setAttribute name value st :
  doc_elsewhere st (setAttribute name value st).
Proof.
  unfold setAttribute.
  eapply doc_elsewhere_trans;
    [apply (doc_elsewhere_same st (set_attributes (<[name := value]> (attributes st)) st));
     reflexivity|].
  destruct (bool_decide _); [|apply doc_elsewhere_refl].
  apply doc_elsewhere_attributeChangedCallback.
Qed.

Lemma doc_elsewhere_removeAttribute name st :
  doc_elsewhere st (removeAttribute name st).
Proof.
  unfold removeAttribute. destruct (attributes st !! name); [|apply doc_elsewhere_refl].
  eapply doc_elsewhere_trans;
    [apply (doc_elsewhere_same st (set_attributes (delete name (attributes st)) st));
     reflexivity|].
  destruct (bool_decide _); [|apply doc_elsewhere_refl].
  apply doc_elsewhere_attributeChangedCallback.
Qed.

Lemma doc_elsewhere_updateConfig cfg st : doc_elsewhere st (updateConfig cfg st).
Proof.
  revert st. unfold updateConfig.
  induction cfg as [|kv cfg IH]; intros st; [apply doc_elsewhere_refl|].
  cbn [foldl]. eapply doc_elsewhere_trans; [apply doc_elsewhere_setAttribute|apply IH].
Qed.

Lemma doc_elsewhere_applyPreset preset st : doc_elsewhere st (applyPreset preset st).
Proof.
  rewrite applyPreset_as_updateConfig.
  eapply doc_elsewhere_trans; [|apply doc_elsewhere_updateBarrel].
  eapply doc_elsewhere_trans; [|apply doc_elsewhere_updateStyles].
  eapply doc_elsewhere_trans; [|apply doc_elsewhere_updateConfig].
  by apply doc_elsewhere_same.
Qed.

Lemma doc_elsewhere_connectedCallback st : doc_elsewhere st (connectedCallback st).
Proof.
  destruct (initialized st) eqn:Hi.
  - unfold connectedCallback. rewrite Hi. apply doc_elsewhere_refl.
  - rewrite (connectedCallback_eq st Hi).
    eapply doc_elsewhere_trans; [apply (doc_elsewhere_applyGlobalFilters None)|].
    by apply doc_elsewhere_same.
Qed.

(** X15. Setting or removing an attribute, a bulk update, applying a
    preset (directly or by name) and connecting write to the document only
    under the element's own names: every custom property other than
    [--crt-filter-chain-<uid>] and every body class other than
    [crt-filtered-<uid>] is left as it was. *)
Theorem writes_only_own_names st :
  (∀ name value, doc_elsewhere st (setAttribute name value st)) ∧
  (∀ name, doc_elsewhere st (removeAttribute name st)) ∧
  (∀ cfg, doc_elsewhere st (updateConfig cfg st)) ∧
  (∀ preset, doc_elsewhere st (applyPreset preset st)) ∧
  (∀ name, doc_elsewhere st (select_preset name st)) ∧
  doc_elsewhere st (connectedCallback st).
Proof.
  split_ands.
  - intros name value. apply doc_elsewhere_setAttribute.
  - intros name. apply doc_elsewhere_removeAttribute.
  - intros cfg. apply doc_elsewhere_updateConfig.
  - intros preset. apply doc_elsewhere_applyPreset.
  - intros name. unfold select_preset.
    destruct (getPreset name); [apply doc_elsewhere_applyPreset|apply doc_elsewhere_refl].
  - apply doc_elsewhere_connectedCallback.
Qed.

Lemma own_names_not_legacy st :
  varName st ≠ "--crt-barrel-filter" ∧ varName st ≠ "--bloom-strength" ∧
  bodyClass st ≠ "crt-filtered".
Proof. unfold varName, bodyClass. by cbn. Qed.

(** X16. [disconnectedCallback] is the exception: it also removes the
    custom properties [--crt-barrel-filter] and [--bloom-strength] and the
    body class [crt-filtered], which are not per-instance names. When the
    page carries one of them, whoever put it there, disconnecting one
    overlay takes it away. *)
Theorem disconnectedCallback_removes_shared_names st :
  "crt-filtered" ∈ body_classes (doc st) ∨
  is_Some (root_vars (doc st) !! "--crt-barrel-filter") ∨
  is_Some (root_vars (doc st) !! "--bloom-strength") →
  ¬ doc_elsewhere st (disconnectedCallback st).
Proof.
  destruct (own_names_not_legacy st) as (Hv1 & Hv2 & Hc).
  intros H (_ & Hvars & Hclasses).
  unfold disconnectedCallback in Hvars, Hclasses.
  cbn [doc set_initialized set_layer set_globalStyle set_doc root_vars body_classes]
    in Hvars, Hclasses.
  destruct H as [H|[[x H]|[x H]]].
  - apply (proj2 (Hclasses "crt-filtered" (not_eq_sym Hc))) in H.
    apply elem_of_difference in H as [_ H]. apply H. by apply elem_of_singleton.
  - specialize (Hvars "--crt-barrel-filter" (not_eq_sym Hv1)).
    rewrite H, lookup_delete_ne, lookup_delete_eq in Hvars by done. done.
  - specialize (Hvars "--bloom-strength" (not_eq_sym Hv2)).
    rewrite H, lookup_delete_eq in Hvars. done.
Qed.

Lemma disconnectedCallback_removes_shared_names_witness :
  let st := set_doc (Page ∅ {[ "crt-filtered" ]}) (new_crt "a") in
  "crt-filtered" ∈ body_classes (doc st) ∧ ¬ doc_elsewhere st (disconnectedCallback st).
Proof.
  intros st.
  assert (H : "crt-filtered" ∈ body_classes (doc st)) by (vm_compute; reflexivity).
  split; [exact H|].
  exact (disconnectedCallback_removes_shared_names st (or_introl H)).
Defined.

(** X17. Disconnecting leaves no trace of the element's own writes: when
    two states of the element differ in the document only under the
    element's own names, disconnecting gives the same document from
    both. *)
Theorem disconnectedCallback_leaves_no_trace st st' :
  doc_elsewhere st st' → doc (disconnectedCallback st') = doc (disconnectedCallback st).
Proof.
  intros (Hu & Hvars & Hclasses). unfold disconnectedCallback.
  cbn [doc set_initialized set_layer set_globalStyle set_doc].
  unfold varName, bodyClass in *. rewrite Hu. f_equal.
  - apply map_eq. intros v.
    destruct (decide (v = "--bloom-strength")) as [->|H1];
      [by rewrite !lookup_delete_eq|rewrite !(lookup_delete_ne _ "--bloom-strength") by done].
    destruct (decide (v = "--crt-barrel-filter")) as [->|H2];
      [by rewrite !lookup_delete_eq|rewrite !(lookup_delete_ne _ "--crt-barrel-filter") by done].
    destruct (decide (v = "--crt-filter-chain-" ++ uid st)) as [->|H3];
      [by rewrite !lookup_delete_eq|rewrite !lookup_delete_ne by done].
    by apply Hvars.
  - apply set_eq. intros c. rewrite !elem_of_difference, !elem_of_singleton.
    destruct (decide (c = "crt-filtered-" ++ uid st)) as [->|Hc]; [tauto|].
    rewrite (Hclasses c Hc). tauto.
Qed.

Lemma disconnectedCallback_leaves_no_trace_witness :
  let st := new_crt "a" in
  let st' := setAttribute "color-palette-shift" "120" (connectedCallback st) in
  bodyClass st ∈ body_classes (doc st') ∧
  doc (disconnectedCallback st') = doc (disconnectedCallback st).
Proof.
  intros st st'. split.
  - vm_compute. reflexivity.
  - apply disconnectedCallback_leaves_no_trace.
    eapply doc_elsewhere_trans;
      [apply doc_elsewhere_connectedCallback|apply doc_elsewhere_setAttribute].
Defined.




(** ** The injected rule *)

Lemma or_else_truthy a b : truthy b = true → truthy (or_else a b) = true.
Proof. intros Hb. unfold or_else. by destruct (truthy a) eqn:Ha. Qed.

(** X19. The injected rule exists only for the modes 1 and 2. With a
    style element present, [applyGlobalFilters] empties it for every other
    mode; for the modes 1 and 2 it writes the rule that applies the
    per-instance custom property, under the per-instance body class, to a
    truthy target. A mode above 2 thus has the body class but no rule. *)
Theorem filter_rule_only_for_modes_1_and_2 bfv st :
  is_Some (globalStyle st) →
  (strict_eq_num (prop (config st) "mode") (Fin 1) = false →
   strict_eq_num (prop (config st) "mode") (Fin 2) = false →
   globalStyle (applyGlobalFilters bfv st) = Some EmptyString) ∧
  (strict_eq_num (prop (config st) "mode") (Fin 1) = true ∨
   strict_eq_num (prop (config st) "mode") (Fin 2) = true →
   ∃ target, truthy target = true ∧
     globalStyle (applyGlobalFilters bfv st)
     = Some ("body." ++ bodyClass st ++ " " ++ to_string target ++
             " { filter: var(" ++ varName st ++ ", none) !important; }")).
Proof.
  intros [g Hg].
  change (globalStyle (applyGlobalFilters bfv st)) with (filter_rule st).
  unfold filter_rule, filter_target. rewrite Hg. split.
  - by intros -> ->.
  - intros Hm.
    destruct (strict_eq_num (prop (config st) "mode") (Fin 1)) eqn:H1.
    + eexists. split; [|by rewrite or_else_truthy]. by apply or_else_truthy.
    + destruct Hm as [Hm|Hm]; [done|]. rewrite Hm.
      eexists. split; [|by rewrite or_else_truthy]. by apply or_else_truthy.
Qed.

Lemma filter_rule_only_for_modes_1_and_2_witness :
  let st := setAttribute "mode" "3" (connectedCallback (new_crt "a")) in
  is_Some (globalStyle st) ∧
  bodyClass st ∈ body_classes (doc (applyGlobalFilters None st)) ∧
  globalStyle (applyGlobalFilters None st) = Some EmptyString.
Proof.
  intros st.
  assert (Hg : is_Some (globalStyle st)) by (vm_compute; eexists; reflexivity).
  split; [exact Hg|]. split; [vm_compute; reflexivity|].
  apply (proj1 (filter_rule_only_for_modes_1_and_2 None st Hg)); vm_compute; reflexivity.
Defined.

(** ** The cap on the bloom blur *)

Lemma number_lt_irrefl x : lt x x = false.
Proof.
  destruct x as [|[|]|q]; try reflexivity. cbn. apply Qlt_bool_false, Qle_refl.
Qed.

Lemma min_never_above x c : gt (min x c) c = false.
Proof.
  unfold gt, min. destruct (is_nan x || is_nan c) eqn:Hn.
  - by destruct c as [|[|]|].
  - destruct (lt c x) eqn:Hlt; [apply number_lt_irrefl|done].
Qed.

Lemma fin_eq p q : (p == q)%Q → fin p = fin q.
Proof. intros H. unfold fin. f_equal. by apply Qred_complete. Qed.

Lemma min_saturates p : (1.5 <= p)%Q → min (fin p) (fin 1.5) = fin 1.5.
Proof.
  intros Hp. unfold min. cbn [is_nan fin orb lt].
  destruct (Qlt_bool (Qred 1.5) (Qred p)) eqn:Hlt; [done|].
  apply Qlt_bool_false in Hlt. rewrite !Qred_correct in Hlt.
  apply fin_eq. by apply Qle_antisym.
Qed.

(** X20. Whatever the configuration, the blur written to the bloom layer
    is never above 1.5. Once the blur amount is 10 (the default) or more,
    every bloom strength from 0.05 up gives exactly 1.5, so the blur no
    longer varies with the bloom strength. *)
Theorem bloom_blur_capped st l :
  externalBloomLayer (updateExternalBloomLayer st) = Some l →
  (∀ blur bright, backdropFilter l = Some (BlurBrightness blur bright) →
                  gt blur (fin 1.5) = false) ∧
  (∀ b q, to_number (prop (config st) "bloom") = Fin b → (0.05 <= b)%Q →
          to_number (prop (config st) "bloomBlur") = Fin q → (10 <= q)%Q →
          ∃ bright, backdropFilter l = Some (BlurBrightness (fin 1.5) bright)).
Proof.
  rewrite updateExternalBloomLayer_eq.
  destruct (externalBloomLayer st) as [l0|] eqn:Hl0; [|by rewrite Hl0].
  intros [= <-]. cbn [backdropFilter layer_filter]. unfold bloom_filter. split.
  - intros blur bright.
    destruct (lt (to_number (prop (config st) "bloom")) (fin 0.05)); [done|].
    intros [= <- _]. apply min_never_above.
  - intros b q Hb Hb05 Hq Hq10. rewrite Hb, Hq.
    assert (Hlt : lt (Fin b) (fin 0.05) = false).
    { cbn. apply Qlt_bool_false. by rewrite Qred_correct. }
    rewrite Hlt. eexists. f_equal. f_equal.
    unfold max. cbn [is_nan fin orb lt].
    destruct (Qlt_bool (Qred 0.15) b) eqn:Hmax.
    + apply Qlt_bool_true in Hmax. rewrite Qred_correct in Hmax.
      cbn [mul]. apply min_saturates. nra.
    + cbn [mul]. apply min_saturates. rewrite Qred_correct. nra.
Qed.

Lemma bloom_blur_capped_witness :
  let st := setAttribute "bloom" "0.9" (connectedCallback (new_crt "a")) in
  let l := LayerStyle (Some "visible") (Some "-1")
             (Some (BlurBrightness (fin 1.5) (fin 1.432)))
             (Some (BlurBrightness (fin 1.5) (fin 1.432))) in
  externalBloomLayer (updateExternalBloomLayer st) = Some l ∧
  gt (fin 1.5) (fin 1.5) = false.
Proof.
  intros st l.
  assert (Hl : externalBloomLayer (updateExternalBloomLayer st) = Some l)
    by (vm_compute; reflexivity).
  split; [exact Hl|].
  exact (proj1 (bloom_blur_capped st l Hl) (fin 1.5) (fin 1.432) eq_refl).
Defined.

(** ** What is shown and the keys it reads *)

Lemma shown_eq st :
  shown st
  = Presentation (container_properties (config st)) (scanline_mask_css (config st))
      (if container st then mode_host (config st) (host st) else host st)
      (if container st
       then (fun l => layer_filter (bloom_filter (config st)) (mode_layer (config st) l))
              <$> externalBloomLayer st
       else externalBloomLayer st)
      (filter_rule st) (doc (applyGlobalFilters None st)).
Proof.
  unfold shown. destruct (container st) eqn:Hc.
  - rewrite updateBarrel_after_updateStyles by done. by rewrite (updateStyles_eq st Hc).
  - assert (Hid : updateStyles st = st) by (unfold updateStyles; by rewrite Hc).
    rewrite Hid, updateBarrel_eq. reflexivity.
Qed.

Lemma shown_ext c c' st :
  (∀ k, k ∈ shown_keys → prop c k = prop c' k) →
  shown (set_config c st) = shown (set_config c' st).
Proof.
  intros H. rewrite !shown_eq.
  cbn [config container host externalBloomLayer set_config].
  assert (H1 : container_properties c = container_properties c')
    by (unfold container_properties; read_props c H; reflexivity).
  assert (H2 : scanline_mask_css c = scanline_mask_css c')
    by (unfold scanline_mask_css; read_props c H; reflexivity).
  assert (H3 : mode_host c = mode_host c')
    by (unfold mode_host, mode_zIndex; read_props c H; reflexivity).
  assert (H4 : mode_layer c = mode_layer c')
    by (unfold mode_layer, mode_zIndex; read_props c H; reflexivity).
  assert (H5 : bloom_filter c = bloom_filter c')
    by (unfold bloom_filter; read_props c H; reflexivity).
  assert (H6 : filter_rule (set_config c st) = filter_rule (set_config c' st)).
  { unfold filter_rule, filter_target. cbn [config set_config globalStyle].
    read_props c H. reflexivity. }
  assert (H7 : doc (applyGlobalFilters None (set_config c st))
               = doc (applyGlobalFilters None (set_config c' st))).
  { rewrite !doc_applyGlobalFilters_eq.
    unfold filterChain, barrel_filter, page_filtered.
    cbn [config set_config doc]. read_props c H. reflexivity. }
  by rewrite H1, H2, H3, H4, H5, H6, H7.
Qed.

(** X21. The keys [bloomColor], [legacyInterlace] and [legacyBloom] are
    never read: assigning any value to one of them changes nothing of what
    is shown, neither the container's custom properties, nor the mask, nor
    the host and bloom layer styles, nor the injected rule, nor the
    document. *)
Theorem shown_ignores_unread_keys key v st :
  key ∈ unread_keys → shown (assign key v st) = shown st.
Proof.
  intros Hkey.
  assert (Hst : st = set_config (config st) st) by (by destruct st).
  rewrite Hst at 2. unfold assign. apply shown_ext.
  intros k Hk. apply prop_insert_ne. intros <-.
  unfold unread_keys in Hkey.
  repeat (apply elem_of_cons in Hkey as [->|Hkey]);
    [| | |by apply elem_of_nil in Hkey];
    revert Hk; not_observed.
Qed.

Lemma shown_ignores_unread_keys_witness :
  ("bloomColor" ∈ unread_keys) ∧
  shown (assign "bloomColor" (VStr "amber") (connectedCallback (new_crt "a")))
  = shown (connectedCallback (new_crt "a")).
Proof.
  assert (H : "bloomColor" ∈ unread_keys) by (by left).
  split; [exact H|]. exact (shown_ignores_unread_keys _ _ _ H).
Defined.

(** ** The scanline mask *)

Lemma mask_sheets_differ :
  forallb (fun s => negb (String.eqb s mask_css_shadow_mask))
    [mask_css_aperture_grille; mask_css_slot_mask; mask_css_sharp; mask_css_soft] = true.
Proof. vm_compute. reflexivity. Qed.

Lemma config_scanlineMaskSelect_change value st :
  config (scanlineMaskSelect_change value st)
  = <["scanlineMask" := VStr value]> (config st).
Proof.
  unfold scanlineMaskSelect_change. rewrite config_updateStyles.
  rewrite setAttribute_unobserved by not_observed. reflexivity.
Qed.

(** X22. The mask selector of the controls panel stores the chosen
    name, and the style sheet shown afterwards is the shadow-mask sheet
    exactly when the name is none of [aperture-grille], [slot-mask],
    [sharp] and [soft]: an unknown name falls back to the shadow mask, and
    the four named sheets all differ from it. *)
Theorem scanlineMaskSelect_change_selects value st :
  prop (config (scanlineMaskSelect_change value st)) "scanlineMask" = VStr value ∧
  (shown_mask (shown (scanlineMaskSelect_change value st)) = mask_css_shadow_mask
   ↔ value ∉ named_masks).
Proof.
  rewrite shown_eq. cbn [shown_mask]. rewrite config_scanlineMaskSelect_change.
  split; [apply prop_insert_eq|].
  unfold scanline_mask_css. rewrite prop_insert_eq. cbn [strict_eq_str].
  pose proof mask_sheets_differ as Hd. cbn [forallb] in Hd.
  apply andb_true_iff in Hd as [H1 Hd]. apply andb_true_iff in Hd as [H2 Hd].
  apply andb_true_iff in Hd as [H3 Hd]. apply andb_true_iff in Hd as [H4 _].
  apply negb_true_iff, String.eqb_neq in H1, H2, H3, H4.
  unfold named_masks.
  destruct (String.eqb_spec value "aperture-grille") as [->|N1];
    [split; [done|intros H; exfalso; apply H; by left]|].
  destruct (String.eqb_spec value "slot-mask") as [->|N2];
    [split; [done|intros H; exfalso; apply H; right; by left]|].
  destruct (String.eqb_spec value "sharp") as [->|N3];
    [split; [done|intros H; exfalso; apply H; right; right; by left]|].
  destruct (String.eqb_spec value "soft") as [->|N4];
    [split; [done|intros H; exfalso; apply H; right; right; right; by left]|].
  split; [|done]. intros _ Hin.
  repeat (apply elem_of_cons in Hin as [->|Hin]); try done.
  by apply elem_of_nil in Hin.
Qed.

(** ** The progress bar *)

Lemma clamp_percentage x :
  match min (fin 100) (max (Fin 0) x) with
  | Fin q => (0 <= q)%Q ∧ (q <= 100)%Q
  | NaN => is_nan x = true
  | Inf _ => False
  end.
Proof.
  destruct x as [|[|]|q]; [done|by vm_compute|by vm_compute|].
  unfold max. cbn [is_nan orb lt].
  destruct (Qlt_bool 0 q) eqn:H0.
  - unfold min. cbn [is_nan fin orb lt].
    apply Qlt_bool_true in H0.
    destruct (Qlt_bool q (Qred 100)) eqn:H100.
    + apply Qlt_bool_true in H100. rewrite Qred_correct in H100. split; lra.
    + by vm_compute.
  - apply Qlt_bool_false in H0. by vm_compute.
Qed.

(** X23. The percentage of the progress bar is never outside 0..100 and
    never infinite, whatever the [value] and [max] attributes hold; it can
    be [NaN]. *)
Theorem progress_percentage_range value_attr max_attr :
  match progress_percentage value_attr max_attr with
  | Fin q => (0 <= q)%Q ∧ (q <= 100)%Q
  | NaN => True
  | Inf _ => False
  end.
Proof.
  unfold progress_percentage.
  pose proof (clamp_percentage
    (mul (num_div (parseFloat (or_else (attr_value value_attr) (num 0)))
                  (parseFloat (or_else (attr_value max_attr) (num 100)))) (fin 100))) as H.
  by destruct (min _ _).
Qed.





(** ** The colour helper of the progress bar *)

Lemma Qred_inject_Z z : Qred (inject_Z z) = inject_Z z.
Proof.
  unfold Qred, inject_Z.
  pose proof (Z.ggcd_gcd z 1) as Hg. pose proof (Z.ggcd_correct_divisors z 1) as Hd.
  destruct (Z.ggcd z 1) as [g [aa bb]]. cbn [fst] in Hg. rewrite Z.gcd_1_r in Hg.
  subst g. destruct Hd as [Ha Hb].
  assert (aa = z) as -> by lia. assert (bb = 1%Z) as -> by lia. reflexivity.
Qed.

Lemma Qlt_bool_inject_Z a b : Qlt_bool (inject_Z a) (inject_Z b) = (a <? b)%Z.
Proof.
  destruct (a <? b)%Z eqn:H.
  - apply Qlt_bool_true. rewrite <- Zlt_Qlt. lia.
  - apply Qlt_bool_false. rewrite <- Zle_Qle. lia.
Qed.

Lemma clamp_byte y :
  max (Fin 0) (min (fin 255) (Math_round y)) = NaN ∨
  ∃ n, (0 <= n <= 255)%Z ∧
       max (Fin 0) (min (fin 255) (Math_round y)) = Fin (inject_Z n).
Proof.
  destruct y as [|[|]|q]; [by left| | |].
  - right. exists 0%Z. split; [lia|]. by vm_compute.
  - right. exists 255%Z. split; [lia|]. by vm_compute.
  - right. cbn [Math_round]. unfold fin. rewrite Qred_inject_Z.
    set (z := Qfloor (q + (1 # 2))).
    change (Qred 255) with (inject_Z 255). change 0%Q with (inject_Z 0).
    unfold min, max. cbn [is_nan orb lt]. rewrite !Qlt_bool_inject_Z.
    destruct (z <? 255)%Z eqn:H255.
    + cbn [is_nan orb lt]. rewrite Qlt_bool_inject_Z.
      destruct (0 <? z)%Z eqn:H0.
      * exists z. split; [lia|done].
      * exists 0%Z. split; [lia|done].
    + exists 255%Z. split; [lia|]. by vm_compute.
Qed.

Lemma bytes_print_as_hex_byte :
  forallb (fun n => String.eqb (padStart2 (toString16 (Fin (inject_Z (Z.of_nat n)))))
                               (hex_byte (Z.of_nat n)))
          (seq 0 256) = true.
Proof. vm_compute. reflexivity. Qed.

Lemma byte_prints_as_hex_byte n :
  (0 <= n <= 255)%Z → padStart2 (toString16 (Fin (inject_Z n))) = hex_byte n.
Proof.
  intros Hn. pose proof bytes_print_as_hex_byte as H. rewrite forallb_forall in H.
  specialize (H (Z.to_nat n)). rewrite Z2Nat.id in H by lia.
  apply String.eqb_eq, H, in_seq. lia.
Qed.

(** X25. Each channel [adjustColor] prints is either the text [NaN] or
    the two lowercase hexadecimal digits of an integer between 0 and 255,
    whatever the colour text and the amount. *)
Theorem adjust_channel_is_byte hex start amount :
  adjust_channel hex start amount = "NaN" ∨
  ∃ n, (0 <= n <= 255)%Z ∧ adjust_channel hex start amount = hex_byte n.
Proof.
  unfold adjust_channel.
  destruct (clamp_byte (add (parseInt16_str (substring start 2 hex))
                            (mul (parseInt16_str (substring start 2 hex)) amount)))
    as [->|(n & Hn & ->)].
  - by left.
  - right. exists n. split; [done|]. by apply byte_prints_as_hex_byte.
Qed.

Lemma hex_digit_chars c : is_Some (hex_digit c) → c ∈ hex_chars.
Proof.
  intros [d Hd]. apply list_elem_of_In.
  destruct c as [[] [] [] [] [] [] [] []]; try (by vm_compute in Hd);
    vm_compute; tauto.
Qed.

Lemma hex_pairs_at_zero :
  forallb (fun a => forallb (fun b =>
      String.eqb (adjust_channel (String a (String b EmptyString)) 0 (Fin 0))
                 (String (to_lower a) (String (to_lower b) EmptyString)))
    hex_chars) hex_chars = true.
Proof. vm_compute. reflexivity. Qed.

Lemma hex_pair_at_zero a b :
  is_Some (hex_digit a) → is_Some (hex_digit b) →
  padStart2 (toString16 (max (Fin 0) (min (fin 255) (Math_round
     (add (parseInt16_str (String a (String b EmptyString)))
          (mul (parseInt16_str (String a (String b EmptyString))) (Fin 0)))))))
  = String (to_lower a) (String (to_lower b) EmptyString).
Proof.
  intros Ha%hex_digit_chars%list_elem_of_In Hb%hex_digit_chars%list_elem_of_In.
  pose proof hex_pairs_at_zero as H. rewrite forallb_forall in H.
  specialize (H a Ha). rewrite forallb_forall in H. specialize (H b Hb).
  apply String.eqb_eq in H. exact H.
Qed.

(** X26. With amount 0, [adjustColor] gives a six-digit colour back in
    lowercase: the parse and print of each channel is a round trip up to
    the case of the digits. *)
Theorem adjustColor_zero_lowercases c1 c2 c3 c4 c5 c6 :
  Forall (fun c => is_Some (hex_digit c)) [c1; c2; c3; c4; c5; c6] →
  let hex := string_of_list_ascii [c1; c2; c3; c4; c5; c6] in
  adjustColor (String "#" hex) (Fin 0) = String "#" (lower_string hex).
Proof.
  intros H hex.
  repeat match goal with H : Forall _ (_ :: _) |- _ => apply Forall_cons_1 in H as [? H] end.
  unfold adjustColor, adjust_channel, hex.
  cbn [remove_first Ascii.eqb Bool.eqb string_of_list_ascii substring lower_string].
  rewrite !hex_pair_at_zero by done. reflexivity.
Qed.

Lemma adjustColor_zero_lowercases_witness :
  Forall (fun c => is_Some (hex_digit c)) ["3"; "A"; "6"; "f"; "D"; "0"]%char ∧
  adjustColor "#3A6fD0" (Fin 0) = "#3a6fd0".
Proof.
  assert (H : Forall (fun c => is_Some (hex_digit c)) ["3"; "A"; "6"; "f"; "D"; "0"]%char)
    by (repeat constructor; vm_compute; eexists; reflexivity).
  split; [exact H|].
  exact (adjustColor_zero_lowercases "3" "A" "6" "f" "D" "0" H).
Defined.

Lemma substring_short s :
  (String.length s <= 4)%nat → substring 4 2 s = EmptyString.
Proof.
  destruct s as [|a [|b [|c [|d [|e s]]]]]; cbn; try done. lia.
Qed.

(** X27. A colour whose text after the [#] has four characters or
    fewer, such as the short form [#fff], has no third pair of digits: the
    blue channel of the result is the text [NaN]. *)
Theorem adjustColor_short_input color amount :
  (String.length (remove_first "#" color) <= 4)%nat →
  adjustColor color amount
  = "#" ++ adjust_channel (remove_first "#" color) 0 amount
        ++ adjust_channel (remove_first "#" color) 2 amount ++ "NaN".
Proof.
  intros Hlen. unfold adjustColor. do 3 f_equal.
  unfold adjust_channel. by rewrite substring_short.
Qed.

Lemma adjustColor_short_input_witness :
  (String.length (remove_first "#" "#fff") <= 4)%nat ∧ adjustColor "#fff" (fin 0.2) = "#ff12NaN".
Proof.
  assert (H : (String.length (remove_first "#" "#fff") <= 4)%nat) by (vm_compute; lia).
  split; [exact H|].
  rewrite (adjustColor_short_input "#fff" (fin 0.2) H). vm_compute. reflexivity.
Defined.

(** ** The sliders of the controls panel *)

Lemma controls_ok : forallb control_ok controls = true.
Proof. vm_compute. reflexivity. Qed.

Lemma control_float_kind key attr :
  (key, attr) ∈ controls → attribute_key attr = Some key ∧ float_kind attr.
Proof.
  intros Hin%list_elem_of_In. pose proof controls_ok as H. rewrite forallb_forall in H.
  apply H, andb_true_iff in Hin as [H1 H2].
  apply bool_decide_eq_true_1 in H1, H2. cbn [fst snd] in H1, H2.
  split; [done|]. split; [by rewrite H1|done].
Qed.

Lemma config_control_store key attr value st :
  (key, attr) ∈ controls →
  config (control_store key attr value st)
  = config (setAttribute attr (to_string (VNum value))
              (set_config (<[key := VNum value]> (config st)) st)).
Proof.
  intros _. unfold control_store. rewrite config_updateStyles.
  by destruct (String.eqb attr "barrel").
Qed.

(** X28. What a slider of the controls panel stores under its key. For
    an attribute that is not observed the parsed value is stored, so the
    panel sets what the attribute cannot. For an observed attribute the
    parsed value is stored when the attribute hook reads the printed value
    back as itself or as [NaN]. The slider handler has no guard: text that
    does not parse stores [NaN]; the handler of the number box returns
    at once on such text. *)
Theorem slider_input_stores key attr raw st :
  (key, attr) ∈ controls →
  let value := parseFloat_str raw in
  (attr ∉ observedAttributes →
   prop (config (slider_input key attr raw st)) key = VNum value) ∧
  (parseFloat_str (number_to_string value) = value ∨
   parseFloat_str (number_to_string value) = NaN →
   prop (config (slider_input key attr raw st)) key = VNum value) ∧
  (value = NaN → number_input key attr raw st = st).
Proof.
  intros Hin value. destruct (control_float_kind key attr Hin) as [Hkey Hfk].
  unfold slider_input. fold value. rewrite config_control_store by done.
  split_ands.
  - intros Hobs. rewrite setAttribute_unobserved by done. apply prop_insert_eq.
  - intros Hrt. unfold setAttribute. cbn [attributes set_attributes set_config].
    destruct (bool_decide _); [|apply prop_insert_eq].
    rewrite config_attributeChangedCallback. case_decide; [apply prop_insert_eq|].
    rewrite Hkey, float_kind_binding by done.
    cbn [config set_attributes set_config attr_value].
    rewrite prop_insert_eq. unfold parseFloat. cbn [to_string].
    rewrite prop_insert_eq.
    destruct Hrt as [-> | ->]; [|done].
    by destruct value.
  - intros Hnan. unfold number_input. fold value. by rewrite Hnan.
Qed.

Lemma slider_input_stores_witness :
  let st := connectedCallback (new_crt "a") in
  ("bloomBrightness", "bloom-brightness") ∈ controls ∧
  ("bloom-brightness" ∉ observedAttributes) ∧
  prop (config (slider_input "bloomBrightness" "bloom-brightness" "1.75" st))
       "bloomBrightness" = num 1.75 ∧
  prop (config (slider_input "bloom" "bloom" "oops" st)) "bloom" = VNum NaN.
Proof.
  intros st.
  assert (H1 : ("bloomBrightness", "bloom-brightness") ∈ controls)
    by (apply (list_elem_of_lookup_2 _ 16); reflexivity).
  assert (H2 : "bloom-brightness" ∉ observedAttributes) by not_observed.
  assert (H3 : ("bloom", "bloom") ∈ controls)
    by (apply (list_elem_of_lookup_2 _ 15); reflexivity).
  split; [exact H1|]. split; [exact H2|]. split.
  - exact (proj1 (slider_input_stores "bloomBrightness" "bloom-brightness" "1.75" st H1) H2).
  - apply (proj1 (proj2 (slider_input_stores "bloom" "bloom" "oops" st H3))).
    right. vm_compute. reflexivity.
Defined.
